(** * Network monitoring suite: verification of the specification

    A shallow embedding of the parts of the monitoring suite that its
    specification makes checkable statements about, and the theorems
    that settle those statements.

    Conventions of the embedding.
    - A Python [str] is a [string]; [int] is [Z]; [None] is [None].
    - A Python [dict] whose iteration order matters is an association
      list in insertion order ([PyDict]); a [dict] used only for lookup
      is a [gmap].
    - An operation that can raise returns a sum whose error side names
      the exception class.
    - Whatever the program reads from its environment (the clock, the
      file system, environment variables, the terminal, the network) is
      an explicit argument; whatever it does to the environment (files
      written, prompts shown, time slept) is an explicit result. *)

From Stdlib Require Import ZArith QArith Ascii.
From stdpp Require Import base option list strings gmap pretty.

#[local] Arguments String.eqb : simpl never.
#[local] Arguments Ascii.eqb : simpl never.

Local Open Scope string_scope.
Local Open Scope list_scope.
Local Open Scope Z_scope.

(** ** Python values used throughout *)

Module Py.

(** [x in s] for a one-character [x]. *)
Fixpoint char_in (c : ascii) (s : string) : bool :=
  match s with
  | EmptyString => false
  | String d s' => if Ascii.eqb c d then true else char_in c s'
  end.

(** [needle in hay] on strings: substring search. *)
Fixpoint str_in (needle hay : string) : bool :=
  if String.prefix needle hay then true
  else match hay with
       | EmptyString => false
       | String _ hay' => str_in needle hay'
       end.

(** [s.lower()] on ASCII text. *)
Definition lower_char (c : ascii) : ascii :=
  let n := nat_of_ascii c in
  if ((65 <=? n)%nat && (n <=? 90)%nat)%bool then ascii_of_nat (n + 32) else c.

Fixpoint lower (s : string) : string :=
  match s with
  | EmptyString => EmptyString
  | String c s' => String (lower_char c) (lower s')
  end.

(** Truthiness of a string, of an optional string. *)
Definition truthy (s : string) : bool := negb (String.eqb s "").

Definition truthy_opt (o : option string) : bool :=
  match o with
  | Some s => truthy s
  | None => false
  end.

(** [a or b] on optional strings: [a] when it is truthy, else [b]. *)
Definition or_else (a b : option string) : option string :=
  if truthy_opt a then a else b.

(** [s.strip()]: ASCII white space removed at both ends. *)
Definition is_space (c : ascii) : bool :=
  let n := nat_of_ascii c in
  (((9 <=? n)%nat && (n <=? 13)%nat) || ((28 <=? n)%nat && (n <=? 32)%nat))%bool.

Fixpoint lstrip (s : string) : string :=
  match s with
  | EmptyString => EmptyString
  | String c s' => if is_space c then lstrip s' else s
  end.

Fixpoint rstrip (s : string) : string :=
  match s with
  | EmptyString => EmptyString
  | String c s' =>
      match rstrip s' with
      | EmptyString => if is_space c then EmptyString else String c EmptyString
      | r => String c r
      end
  end.

Definition strip (s : string) : string := rstrip (lstrip s).

(** [str(x)] of an optional string, as an f-string renders it. *)
Definition str_of_opt (o : option string) : string :=
  match o with
  | Some s => s
  | None => "None"
  end.

(** [s.endswith(suffix)] *)
Fixpoint ends_with (suffix s : string) : bool :=
  if String.eqb s suffix then true
  else match s with
       | EmptyString => false
       | String _ s' => ends_with suffix s'
       end.

(** [s[:n]] for [0 <= n]. *)
Definition take (n : nat) (s : string) : string := String.substring 0 n s.

(** Index of the last occurrence of a character: [s.rfind(c)]. *)
Fixpoint rfind (c : ascii) (s : string) : option nat :=
  match s with
  | EmptyString => None
  | String d s' =>
      match rfind c s' with
      | Some i => Some (S i)
      | None => if Ascii.eqb c d then Some 0%nat else None
      end
  end.

(** [s.split(sep)] for a one-character separator. *)
Fixpoint split (sep : ascii) (s : string) : list string :=
  match s with
  | EmptyString => [EmptyString]
  | String c s' =>
      if Ascii.eqb c sep then EmptyString :: split sep s'
      else match split sep s' with
           | [] => [String c EmptyString]
           | w :: ws => String c w :: ws
           end
  end.

(** [s.split('\n')] *)
Definition lines (s : string) : list string := split (ascii_of_nat 10) s.

(** [s.split(sep)[0]] for a separator of any length: what comes before
    its first occurrence. *)
Fixpoint before (sep s : string) : string :=
  if String.prefix sep s then EmptyString
  else match s with
       | EmptyString => EmptyString
       | String c s' => String c (before sep s')
       end.

(** [s.split()]: the words between runs of white space. *)
Fixpoint words_from (current : option string) (s : string) : list string :=
  match s with
  | EmptyString =>
      match current with
      | Some w => [w]
      | None => []
      end
  | String c s' =>
      if is_space c then
        match current with
        | Some w => w :: words_from None s'
        | None => words_from None s'
        end
      else
        words_from (Some (match current with
                          | Some w => w +:+ String c EmptyString
                          | None => String c EmptyString
                          end)) s'
  end.

Definition words (s : string) : list string := words_from None s.

(** [s.strip(chars)] *)
Fixpoint lstrip_chars (chars s : string) : string :=
  match s with
  | EmptyString => EmptyString
  | String c s' => if char_in c chars then lstrip_chars chars s' else s
  end.

Fixpoint rstrip_chars (chars s : string) : string :=
  match s with
  | EmptyString => EmptyString
  | String c s' =>
      match rstrip_chars chars s' with
      | EmptyString => if char_in c chars then EmptyString else String c EmptyString
      | r => String c r
      end
  end.

Definition strip_chars (chars s : string) : string :=
  rstrip_chars chars (lstrip_chars chars s).

(** The value of a string of ASCII digits; [None] when the string is
    empty or holds anything else. *)
Definition digit (c : ascii) : option Z :=
  let n := nat_of_ascii c in
  if ((48 <=? n)%nat && (n <=? 57)%nat)%bool then Some (Z.of_nat n - 48) else None.

Fixpoint digits_from (acc : Z) (s : string) : option Z :=
  match s with
  | EmptyString => Some acc
  | String c s' =>
      match digit c with
      | Some d => digits_from (10 * acc + d) s'
      | None => None
      end
  end.

Definition digits (s : string) : option Z :=
  match s with
  | EmptyString => None
  | _ => digits_from 0 s
  end.

(** [int(s)] on text: white space around, an optional sign, digits. *)
Definition int_of_string (s : string) : option Z :=
  match strip s with
  | String "-" r => Z.opp <$> digits r
  | String "+" r => digits r
  | r => digits r
  end.

End Py.

(** ** Results of operations that can raise *)

Inductive result (E A : Type) :=
| Ok (a : A)
| Err (e : E).

Arguments Ok {E A} a.
Arguments Err {E A} e.

(** ** Paths: the part of [pathlib] the program uses

    A path is the string it was built from; [dir / name] is
    [dir +:+ "/" +:+ name]. The clean-up [pathlib] does when it parses
    a path (doubled or trailing separators) is not modelled. *)

Module PyPath.

Definition join (dir file : string) : string := dir +:+ "/" +:+ file.

(** [p.name]: what follows the last separator. *)
Fixpoint name (p : string) : string :=
  match p with
  | EmptyString => EmptyString
  | String c p' =>
      if Py.char_in "/" p' then name p'
      else if Ascii.eqb c "/" then p' else p
  end.

(** [p.suffix]: from the last dot of the name on, unless that dot
    opens or closes the name. *)
Definition suffix (p : string) : string :=
  let n := name p in
  match Py.rfind "." n with
  | Some i =>
      if ((0 <? i)%nat && (i <? String.length n - 1)%nat)%bool
      then String.substring i (String.length n - i) n
      else ""
  | None => ""
  end.

(** [p.with_suffix(s)]; [None] stands for the ValueError raised when
    the path has no name. *)
Definition with_suffix (p s : string) : option string :=
  if String.eqb (name p) "" then None
  else Some (Py.take (String.length p - String.length (suffix p)) p +:+ s).

(** *** Facts about strings and paths *)

Lemma app_cons (c : ascii) (s t : string) :
  String c s +:+ t = String c (s +:+ t).
Proof. reflexivity. Qed.

Lemma app_nil_l (t : string) : "" +:+ t = t.
Proof. reflexivity. Qed.

Lemma app_assoc (s t u : string) : (s +:+ t) +:+ u = s +:+ (t +:+ u).
Proof.
  induction s as [|c s IH]; [done|].
  by rewrite !app_cons, IH.
Qed.

Lemma length_app (s t : string) :
  String.length (s +:+ t) = (String.length s + String.length t)%nat.
Proof.
  induction s as [|c s IH]; [done|].
  rewrite app_cons. simpl. by rewrite IH.
Qed.

Lemma ends_with_refl (s : string) : Py.ends_with s s = true.
Proof. destruct s; simpl; by rewrite ?String.eqb_refl. Qed.

Lemma ends_with_app (suf x : string) : Py.ends_with suf (x +:+ suf) = true.
Proof.
  induction x as [|c x IH].
  - rewrite app_nil_l. apply ends_with_refl.
  - rewrite app_cons. simpl. rewrite IH. by destruct (String.eqb _ _).
Qed.

(** A string that ends in one of two endings of different last letters
    does not end in the other. *)
Lemma ends_with_longer (suf s : string) :
  (String.length s < String.length suf)%nat -> Py.ends_with suf s = false.
Proof.
  induction s as [|c s IH]; intros Hlen.
  - simpl. destruct (String.eqb_spec "" suf) as [<-|]; [simpl in Hlen; lia|done].
  - simpl. destruct (String.eqb_spec (String c s) suf) as [<-|].
    + lia.
    + apply IH. simpl in Hlen. lia.
Qed.

Lemma ends_with_pdf_html (x : string) :
  Py.ends_with ".pdf" (x +:+ ".html") = false.
Proof.
  induction x as [|c x IH]; [reflexivity|].
  rewrite app_cons. simpl. rewrite IH.
  destruct (String.eqb_spec (String c (x +:+ ".html")) ".pdf") as [Heq|]; [|done].
  apply (f_equal String.length) in Heq. simpl in Heq.
  rewrite length_app in Heq. simpl in Heq. lia.
Qed.

Lemma char_in_app (c : ascii) (s t : string) :
  Py.char_in c (s +:+ t) = (Py.char_in c s || Py.char_in c t)%bool.
Proof.
  induction s as [|d s IH]; [done|].
  rewrite app_cons. simpl. rewrite IH. by destruct (Ascii.eqb c d).
Qed.

(** Appending text without a separator extends the name. *)
Lemma name_app (p t : string) :
  Py.char_in "/" t = false -> name (p +:+ t) = name p +:+ t.
Proof.
  intros Ht. induction p as [|c p IH].
  - rewrite !app_nil_l. destruct t as [|d t]; [done|].
    simpl in *. destruct (Ascii.eqb "/" d) eqn:Hd; [done|].
    rewrite Ht. rewrite eqb_sym. by rewrite Hd.
  - rewrite app_cons. simpl. rewrite char_in_app, Ht, orb_false_r, IH.
    destruct (Py.char_in "/" p); [done|].
    destruct (Ascii.eqb c "/"); [|done].
    destruct p as [|d p]; [done|]. simpl in *. done.
Qed.

Lemma name_with_ending (p t : string) :
  Py.char_in "/" t = false -> t <> "" -> name (p +:+ t) <> "".
Proof.
  intros Ht Hne. rewrite name_app by done.
  intros Heq. apply (f_equal String.length) in Heq.
  rewrite length_app in Heq. destruct t; [done|]. simpl in Heq. lia.
Qed.

Lemma rfind_app (c : ascii) (x y : string) :
  Py.rfind c (x +:+ y) =
  match Py.rfind c y with
  | Some i => Some (String.length x + i)%nat
  | None => Py.rfind c x
  end.
Proof.
  induction x as [|d x IH].
  - rewrite app_nil_l. by destruct (Py.rfind c y).
  - rewrite app_cons. simpl. rewrite IH. by destruct (Py.rfind c y).
Qed.

Lemma take_app (x y : string) : Py.take (String.length x) (x +:+ y) = x.
Proof.
  unfold Py.take. induction x as [|c x IH].
  - rewrite app_nil_l. by destruct y.
  - rewrite app_cons. simpl. by rewrite IH.
Qed.

Lemma substring_all (y : string) : String.substring 0 (String.length y) y = y.
Proof. induction y as [|c y IH]; [done|]. simpl. by rewrite IH. Qed.

Lemma substring_app (x y : string) :
  String.substring (String.length x) (String.length y) (x +:+ y) = y.
Proof.
  induction x as [|c x IH].
  - rewrite app_nil_l. apply substring_all.
  - by rewrite app_cons.
Qed.

(** A path that ends in [.pdf] after a name already begun has the
    suffix [.pdf], and [with_suffix] exchanges it. *)
Lemma suffix_pdf (p : string) : name p <> "" -> suffix (p +:+ ".pdf") = ".pdf".
Proof.
  intros Hname. unfold suffix. rewrite name_app by reflexivity.
  rewrite rfind_app. change (Py.rfind "." ".pdf") with (Some 0%nat).
  rewrite length_app. change (String.length ".pdf") with 4%nat.
  assert (0 < String.length (name p))%nat as Hpos.
  { destruct (name p); [done|simpl; lia]. }
  rewrite Nat.add_0_r.
  rewrite (proj2 (Nat.ltb_lt _ _) Hpos).
  rewrite (proj2 (Nat.ltb_lt (String.length (name p)) _)) by lia.
  simpl andb. cbv iota.
  replace (String.length (name p) + 4 - String.length (name p))%nat
    with (String.length ".pdf") by (simpl; lia).
  apply substring_app.
Qed.

Lemma with_suffix_pdf (p : string) :
  name p <> "" -> with_suffix (p +:+ ".pdf") ".html" = Some (p +:+ ".html").
Proof.
  intros Hname. unfold with_suffix.
  destruct (String.eqb_spec (name (p +:+ ".pdf")) "") as [Heq|_].
  { by apply name_with_ending in Heq. }
  rewrite suffix_pdf by done. rewrite length_app.
  change (String.length ".pdf") with 4%nat.
  replace (String.length p + 4 - 4)%nat with (String.length p) by lia.
  by rewrite take_app.
Qed.

(** Whatever the name, the result of exchanging the suffix of a [.pdf]
    path for [.html] ends in [.html]. *)
Lemma with_suffix_pdf_any (p : string) :
  exists stem, with_suffix (p +:+ ".pdf") ".html" = Some (stem +:+ ".html").
Proof.
  unfold with_suffix.
  destruct (String.eqb_spec (name (p +:+ ".pdf")) "") as [Heq|_].
  { by apply name_with_ending in Heq. }
  by eexists.
Qed.

End PyPath.

(** ** Dictionaries in insertion order *)

Module PyDict.

Section Dict.

Context {V : Type}.

Definition t : Type := list (string * V).

Definition keys (d : t) : list string := d.*1.

Definition values (d : t) : list V := d.*2.

(** [d.get(k)] *)
Fixpoint get (k : string) (d : t) : option V :=
  match d with
  | [] => None
  | (k', v) :: d' => if String.eqb k k' then Some v else get k d'
  end.

(** [d[k] = v]: a key already present keeps its place and takes the
    new value; a new key goes to the end. *)
Fixpoint set (k : string) (v : V) (d : t) : t :=
  match d with
  | [] => [(k, v)]
  | (k', v') :: d' =>
      if String.eqb k k' then (k, v) :: d' else (k', v') :: set k v d'
  end.

(** [d.update(other)] *)
Definition update (d other : t) : t :=
  fold_left (fun acc kv => set kv.1 kv.2 acc) other d.

(** [{**a, **b}] *)
Definition merge (a b : t) : t := update a b.

(** *** Facts *)

Lemma set_fresh k v d : k ∉ keys d -> set k v d = d ++ [(k, v)].
Proof.
  unfold keys. induction d as [|[k' v'] d IH]; intros Hk; [done|].
  csimpl in *. apply not_elem_of_cons in Hk as [Hne Hk].
  destruct (String.eqb_spec k k'); [done|]. by rewrite IH.
Qed.

Lemma keys_app d1 d2 : keys (d1 ++ d2) = keys d1 ++ keys d2.
Proof. unfold keys. apply fmap_app. Qed.

Lemma values_app d1 d2 : values (d1 ++ d2) = values d1 ++ values d2.
Proof. unfold values. apply fmap_app. Qed.

Lemma get_set_eq k v d : get k (set k v d) = Some v.
Proof.
  induction d as [|[k' v'] d IH]; simpl.
  - by rewrite String.eqb_refl.
  - destruct (String.eqb_spec k k') as [->|Hne]; simpl.
    + by rewrite String.eqb_refl.
    + by destruct (String.eqb_spec k k').
Qed.

Lemma get_set_ne k k' v d : k <> k' -> get k' (set k v d) = get k' d.
Proof.
  intros Hne. induction d as [|[k0 v0] d IH]; simpl.
  - by destruct (String.eqb_spec k' k).
  - destruct (String.eqb_spec k k0) as [->|Hne0]; simpl.
    + by destruct (String.eqb_spec k' k0).
    + by rewrite IH.
Qed.

Lemma keys_set_present k v d : k ∈ keys d -> keys (set k v d) = keys d.
Proof.
  unfold keys. induction d as [|[k' v'] d IH]; intros Hk; [by inversion Hk|].
  csimpl in *. destruct (String.eqb_spec k k') as [->|Hne]; [done|].
  apply elem_of_cons in Hk as [?|Hk]; [done|]. rewrite fmap_cons.
  by rewrite IH.
Qed.

End Dict.

Arguments t V : clear implicits.

End PyDict.

(** ** Addresses and networks: the part of Python's [ipaddress] used

    Addresses and networks are the integers the library keeps, with
    their version. The text of IPv4 addresses is read and written here;
    the text of IPv6 addresses is left to three functions the sections
    below take as given. Behaviour is that of CPython 3.9.5 and later. *)

Module IpAddress.

Inductive ip_version := V4 | V6.

#[global] Instance ip_version_eq_dec : EqDecision ip_version.
Proof. solve_decision. Defined.

Record address := {
  version : ip_version;
  value : Z
}.

Record network := {
  net_version : ip_version;
  network_address : Z;
  prefixlen : Z
}.

Definition max_prefixlen (v : ip_version) : Z :=
  match v with
  | V4 => 32
  | V6 => 128
  end.

Definition broadcast_address (n : network) : Z :=
  network_address n + 2 ^ (max_prefixlen (net_version n) - prefixlen n) - 1.

(** [a <= b]: [None] stands for the TypeError on mixed versions. *)
Definition le (a b : address) : option bool :=
  if decide (version a = version b) then Some (value a <=? value b) else None.

(** [a + 1]: [None] stands for the AddressValueError past the last
    address. *)
Definition succ (a : address) : option address :=
  if value a + 1 <? 2 ^ max_prefixlen (version a)
  then Some {| version := version a; value := value a + 1 |}
  else None.

Definition addresses (v : ip_version) (first count : Z) : list address :=
  (fun x => {| version := v; value := x |}) <$> seqZ first count.

(** [network.hosts()] *)
Definition hosts (n : network) : list address :=
  let v := net_version n in
  let net := network_address n in
  let bcast := broadcast_address n in
  if prefixlen n =? max_prefixlen v then addresses v net 1
  else if prefixlen n =? max_prefixlen v - 1 then addresses v net 2
  else match v with
       | V4 => addresses v (net + 1) (bcast - (net + 1))
       | V6 => addresses v (net + 1) (bcast + 1 - (net + 1))
       end.

(** *** IPv4 text *)

(** One octet: decimal digits, at most three, no leading zero, at most
    255. *)
Definition parse_octet (s : string) : option Z :=
  match Py.digits s with
  | Some n =>
      if (3 <? String.length s)%nat then None
      else if (negb (String.eqb s "0") && String.prefix "0" s)%bool then None
      else if n <=? 255 then Some n
      else None
  | None => None
  end.

Definition parse_ipv4 (s : string) : option Z :=
  match parse_octet <$> Py.split "." s with
  | [Some a; Some b; Some c; Some d] => Some (((a * 256 + b) * 256 + c) * 256 + d)
  | _ => None
  end.

Definition str_ipv4 (x : Z) : string :=
  pretty (x / 16777216) +:+ "." +:+ pretty (x / 65536 mod 256) +:+ "."
  +:+ pretty (x / 256 mod 256) +:+ "." +:+ pretty (x mod 256).

Definition netmask (v : ip_version) (p : Z) : Z :=
  2 ^ max_prefixlen v - 2 ^ (max_prefixlen v - p).

(** The prefix length a mask stands for, written as a net mask or as a
    host mask. *)
Definition prefix_of_mask (mask : Z) : option Z :=
  match List.find (fun p => netmask V4 p =? mask) (seqZ 0 33) with
  | Some p => Some p
  | None =>
      List.find (fun p => netmask V4 p =? Z.lxor mask (2 ^ 32 - 1)) (seqZ 0 33)
  end.

(** What follows the slash: a prefix length in digits, or a mask in
    dotted form. *)
Definition parse_ipv4_prefix (s : string) : option Z :=
  match Py.digits s with
  | Some p => if p <=? 32 then Some p else parse_ipv4 s ≫= prefix_of_mask
  | None => parse_ipv4 s ≫= prefix_of_mask
  end.

(** [IPv4Network(s, strict=False)]: host bits are cleared. *)
Definition parse_ipv4_network (s : string) : option network :=
  match Py.split "/" s with
  | [a] =>
      x ← parse_ipv4 a;
      Some {| net_version := V4; network_address := x; prefixlen := 32 |}
  | [a; m] =>
      x ← parse_ipv4 a;
      p ← parse_ipv4_prefix m;
      Some {| net_version := V4;
              network_address := Z.land x (netmask V4 p);
              prefixlen := p |}
  | _ => None
  end.

Section Text.

(** The text of IPv6: [IPv6Address(s)], [IPv6Network(s, strict=False)]
    and [str] of an IPv6 address. An address is a number of 128 bits;
    what [parse_ipv6] returns outside that range is not an address. *)
Variable parse_ipv6 : string -> option Z.
Variable parse_ipv6_network : string -> option (Z * Z).
Variable str_ipv6 : Z -> string.

(** [ipaddress.ip_address(s)]: IPv4 is tried first. *)
Definition ip_address (s : string) : option address :=
  match parse_ipv4 s with
  | Some x => Some {| version := V4; value := x |}
  | None =>
      x ← parse_ipv6 s;
      if ((0 <=? x) && (x <? 2 ^ 128))%bool
      then Some {| version := V6; value := x |}
      else None
  end.

(** [ipaddress.ip_network(s, strict=False)] *)
Definition ip_network (s : string) : option network :=
  match parse_ipv4_network s with
  | Some n => Some n
  | None =>
      '(x, p) ← parse_ipv6_network s;
      Some {| net_version := V6; network_address := x; prefixlen := p |}
  end.

(** [str(a)] *)
Definition str (a : address) : string :=
  match version a with
  | V4 => str_ipv4 (value a)
  | V6 => str_ipv6 (value a)
  end.

End Text.

(** *** Facts *)

Lemma digit_bounds c d : Py.digit c = Some d -> 0 <= d <= 9.
Proof.
  unfold Py.digit.
  destruct (Nat.leb_spec 48 (nat_of_ascii c)) as [H48|]; [|done].
  destruct (Nat.leb_spec (nat_of_ascii c) 57) as [H57|]; [|done].
  cbn [andb]. intros [= <-]. lia.
Qed.

Lemma digits_from_nonneg s : forall acc n,
  0 <= acc -> Py.digits_from acc s = Some n -> 0 <= n.
Proof.
  induction s as [|c s IH]; intros acc n Hacc; simpl.
  - by intros [= <-].
  - destruct (Py.digit c) as [d|] eqn:Hd; [|done].
    apply digit_bounds in Hd. apply IH. lia.
Qed.

Lemma parse_octet_bounds s n : parse_octet s = Some n -> 0 <= n <= 255.
Proof.
  unfold parse_octet. destruct (Py.digits s) as [m|] eqn:Hm; [|done].
  destruct (3 <? String.length s)%nat; [done|].
  destruct (negb _ && _)%bool; [done|].
  destruct (Z.leb_spec m 255); [|done]. intros [= <-].
  split; [|done]. destruct s; [done|].
  by apply (digits_from_nonneg _ 0 m) in Hm.
Qed.

Lemma parse_ipv4_bounds s x : parse_ipv4 s = Some x -> 0 <= x < 2 ^ 32.
Proof.
  unfold parse_ipv4.
  destruct (parse_octet <$> Py.split "." s)
    as [|[a|] [|[b|] [|[c|] [|[d|] [|? ?]]]]] eqn:Hsplit; try done.
  intros [= <-].
  destruct (Py.split "." s) as [|sa [|sb [|sc [|sd [|? ?]]]]]; try done.
  injection Hsplit as Ha Hb Hc Hd.
  apply parse_octet_bounds in Ha, Hb, Hc, Hd.
  change (2 ^ 32) with 4294967296. lia.
Qed.

Lemma addresses_nil v first count : count <= 0 -> addresses v first count = [].
Proof.
  intros Hc. unfold addresses, seqZ.
  by replace (Z.to_nat count) with 0%nat by lia.
Qed.

Lemma addresses_cons v first count :
  0 < count ->
  addresses v first count
    = {| version := v; value := first |} :: addresses v (first + 1) (count - 1).
Proof.
  intros Hc. unfold addresses.
  rewrite (seqZ_cons first count) by lia. rewrite fmap_cons.
  by replace (Z.succ first) with (first + 1) by lia.
Qed.

Lemma elem_of_addresses v first count a :
  a ∈ addresses v first count <->
  version a = v /\ first <= value a < first + count.
Proof.
  unfold addresses. rewrite list_elem_of_fmap. split.
  - intros (x & -> & Hx). apply elem_of_seqZ in Hx. simpl. split; [done|lia].
  - intros [<- Hrange]. exists (value a). split; [by destruct a|].
    apply elem_of_seqZ. lia.
Qed.

(** The hosts of a network. IPv4: for a prefix of at most 30 bits the
    addresses strictly between the network address and the broadcast
    address; for 31 or 32 bits every address of the network. IPv6: for
    a prefix of at most 126 bits every address but the first; for 127
    or 128 bits every address of the network. *)
Definition is_host (n : network) (a : address) : Prop :=
  version a = net_version n /\
  match net_version n with
  | V4 =>
      if prefixlen n <=? 30
      then network_address n < value a < broadcast_address n
      else network_address n <= value a <= broadcast_address n
  | V6 =>
      if prefixlen n <=? 126
      then network_address n < value a <= broadcast_address n
      else network_address n <= value a <= broadcast_address n
  end.

Lemma hosts_spec (n : network) (a : address) :
  0 <= prefixlen n <= max_prefixlen (net_version n) ->
  (a ∈ hosts n <-> is_host n a).
Proof.
  intros Hp. unfold hosts, is_host, broadcast_address.
  destruct (Z.eqb_spec (prefixlen n) (max_prefixlen (net_version n)))
    as [H32|H32].
  { rewrite elem_of_addresses, H32, Z.sub_diag.
    destruct (net_version n); simpl;
      split; intros [? ?]; (split; [done|lia]). }
  destruct (Z.eqb_spec (prefixlen n) (max_prefixlen (net_version n) - 1))
    as [H31|H31].
  { rewrite elem_of_addresses, H31.
    replace (max_prefixlen (net_version n)
             - (max_prefixlen (net_version n) - 1)) with 1 by lia.
    destruct (net_version n); simpl;
      split; intros [? ?]; (split; [done|lia]). }
  destruct (net_version n); simpl in *; rewrite elem_of_addresses;
    rewrite (proj2 (Z.leb_le (prefixlen n) _)) by lia;
    split; intros [? ?]; (split; [done|lia]).
Qed.

Lemma parse_ipv4_prefix_bounds s p :
  parse_ipv4_prefix s = Some p -> 0 <= p <= 32.
Proof.
  assert (Hmask : forall m,
            parse_ipv4 s ≫= prefix_of_mask = Some m -> 0 <= m <= 32).
  { intros m. destruct (parse_ipv4 s) as [x|]; [|done]. simpl.
    unfold prefix_of_mask.
    assert (Hfind : forall f q, List.find f (seqZ 0 33) = Some q -> 0 <= q <= 32).
    { intros f q Hq. apply List.find_some in Hq as [Hin _].
      apply list_elem_of_In, elem_of_seqZ in Hin. lia. }
    destruct (List.find _ _) as [q|] eqn:Hq.
    - intros [= <-]. by eapply Hfind.
    - apply Hfind. }
  unfold parse_ipv4_prefix.
  destruct (Py.digits s) as [q|] eqn:Hq; [|apply Hmask].
  destruct (Z.leb_spec q 32); [|apply Hmask]. intros [= <-]. split; [|done].
  destruct s; [done|]. by apply (digits_from_nonneg _ 0 q) in Hq.
Qed.

Lemma parse_ipv4_network_bounds s n :
  parse_ipv4_network s = Some n ->
  net_version n = V4 /\ 0 <= prefixlen n <= 32.
Proof.
  unfold parse_ipv4_network.
  destruct (Py.split "/" s) as [|a [|m [|? ?]]]; [done| | |done].
  - destruct (parse_ipv4 a); [|done]. simpl. intros [= <-]. simpl.
    split; [done|lia].
  - destruct (parse_ipv4 a); [|done]. simpl.
    destruct (parse_ipv4_prefix m) as [p|] eqn:Hp; [|done]. simpl.
    intros [= <-]. simpl. split; [done|]. by eapply parse_ipv4_prefix_bounds.
Qed.

Section TextFacts.

Variable parse_ipv6 : string -> option Z.

Lemma ip_address_bounds s a :
  ip_address parse_ipv6 s = Some a ->
  0 <= value a < 2 ^ max_prefixlen (version a).
Proof.
  unfold ip_address. destruct (parse_ipv4 s) as [x|] eqn:H4.
  - intros [= <-]. simpl. by apply parse_ipv4_bounds in H4.
  - destruct (parse_ipv6 s) as [x|]; [|done]. simpl.
    destruct (Z.leb_spec 0 x); [|done].
    destruct (Z.ltb_spec x (2 ^ 128)); [|done].
    intros [= <-]. simpl. lia.
Qed.

End TextFacts.

End IpAddress.

(** ** Health check: overall status of a device *)

Module Health.

Inductive HealthStatus := GOOD | WARNING | CRITICAL | UNKNOWN.

#[global] Instance HealthStatus_eq_dec : EqDecision HealthStatus.
Proof. solve_decision. Defined.

Inductive MetricValue :=
| Number (q : Q)
| Text (s : string).

(** Modelled from the spec: the declarations of HealthMetric and
    DeviceHealth (the head of health_check.py, which holds them, is not
    among the sources); the fields are those of the data model. *)
Record HealthMetric := {
  name : string;
  value : MetricValue;
  unit : string;
  status : HealthStatus;
  message : string
}.

Record DeviceHealth := {
  device_ip : string;
  hostname : string;
  vendor : string;
  model : string;
  reachable : bool;
  cpu_utilization : option HealthMetric;
  memory_usage : option HealthMetric;
  flash_usage : option HealthMetric;
  temperature_sensors : list HealthMetric;
  power_supplies : list HealthMetric;
  fans : list HealthMetric;
  interface_errors : list HealthMetric;
  interface_utilization : list HealthMetric;
  uptime : option HealthMetric;
  overall_status : HealthStatus;
  errors : list string;
  last_check : string;
  check_duration : Q
}.

(** [if m: all_metrics.append(m)] *)
Definition append_if_set (l : list HealthMetric) (m : option HealthMetric)
  : list HealthMetric :=
  match m with
  | Some x => l ++ [x]
  | None => l
  end.

(** The list [all_metrics] as the function builds it. *)
Definition all_metrics (health : DeviceHealth) : list HealthMetric :=
  let l := [] in
  let l := append_if_set l (cpu_utilization health) in
  let l := append_if_set l (memory_usage health) in
  let l := l ++ temperature_sensors health in
  let l := l ++ power_supplies health in
  let l := l ++ fans health in
  let l := l ++ interface_errors health in
  let l := l ++ interface_utilization health in
  l.

(** The counters of the loop over [all_metrics]. *)
Record counters := {
  critical_count : Z;
  warning_count : Z;
  total_metrics : Z
}.

Definition count_step (c : counters) (metric : HealthMetric) : counters :=
  let total := total_metrics c + 1 in
  if decide (status metric = CRITICAL) then
    {| critical_count := critical_count c + 1;
       warning_count := warning_count c;
       total_metrics := total |}
  else if decide (status metric = WARNING) then
    {| critical_count := critical_count c;
       warning_count := warning_count c + 1;
       total_metrics := total |}
  else
    {| critical_count := critical_count c;
       warning_count := warning_count c;
       total_metrics := total |}.

Definition count_all (l : list HealthMetric) : counters :=
  fold_left count_step l
    {| critical_count := 0; warning_count := 0; total_metrics := 0 |}.

Definition calculate_overall_status (health : DeviceHealth) : HealthStatus :=
  if negb (reachable health) then CRITICAL
  else
    let c := count_all (all_metrics health) in
    if total_metrics c =? 0 then UNKNOWN
    else if 0 <? critical_count c then CRITICAL
    else if 0 <? warning_count c then WARNING
    else GOOD.

(** The statement of the specification, field by field: whether some
    metric of the union has a given status, and whether the union is
    inhabited. *)
Definition has_status (s : HealthStatus) (m : HealthMetric) : bool :=
  bool_decide (status m = s).

Definition opt_any (p : HealthMetric -> bool) (m : option HealthMetric) : bool :=
  match m with
  | Some x => p x
  | None => false
  end.

Definition any_metric (p : HealthMetric -> bool) (h : DeviceHealth) : bool :=
  opt_any p (cpu_utilization h)
  || opt_any p (memory_usage h)
  || existsb p (temperature_sensors h)
  || existsb p (power_supplies h)
  || existsb p (fans h)
  || existsb p (interface_errors h)
  || existsb p (interface_utilization h).

Definition overall_status_spec (h : DeviceHealth) : HealthStatus :=
  if negb (reachable h) then CRITICAL
  else if any_metric (has_status CRITICAL) h then CRITICAL
  else if any_metric (has_status WARNING) h then WARNING
  else if any_metric (fun _ => true) h then GOOD
  else UNKNOWN.

(** *** Proofs *)

Fixpoint count_if (p : HealthMetric -> bool) (l : list HealthMetric) : Z :=
  match l with
  | [] => 0
  | m :: l' => (if p m then 1 else 0) + count_if p l'
  end.

Lemma count_if_nonneg p l : 0 <= count_if p l.
Proof. induction l as [|m l IH]; simpl; [lia|]. destruct (p m); lia. Qed.

Lemma count_if_cons p m l :
  count_if p (m :: l) = (if p m then 1 else 0) + count_if p l.
Proof. reflexivity. Qed.

Lemma count_if_pos p l : (0 <? count_if p l) = existsb p l.
Proof.
  induction l as [|m l IH]; [done|].
  rewrite count_if_cons. simpl.
  pose proof (count_if_nonneg p l).
  destruct (p m); simpl.
  - apply Z.ltb_lt. lia.
  - by rewrite <- IH.
Qed.

Lemma fold_count_step l c :
  fold_left count_step l c =
  {| critical_count := critical_count c + count_if (has_status CRITICAL) l;
     warning_count := warning_count c + count_if (has_status WARNING) l;
     total_metrics := total_metrics c + Z.of_nat (length l) |}.
Proof.
  revert c. induction l as [|m l IH]; intros c.
  - destruct c. simpl. f_equal; lia.
  - simpl fold_left. rewrite IH. rewrite !count_if_cons.
    unfold count_step, has_status.
    destruct (decide (status m = CRITICAL)) as [Hc|Hc].
    + rewrite (bool_decide_eq_true_2 _ Hc).
      rewrite bool_decide_eq_false_2 by (rewrite Hc; done).
      simpl. f_equal; lia.
    + rewrite (bool_decide_eq_false_2 _ Hc).
      destruct (decide (status m = WARNING)) as [Hw|Hw].
      * rewrite (bool_decide_eq_true_2 _ Hw). simpl. f_equal; lia.
      * rewrite (bool_decide_eq_false_2 _ Hw). simpl. f_equal; lia.
Qed.

Lemma existsb_all_metrics p h :
  existsb p (all_metrics h) = any_metric p h.
Proof.
  unfold all_metrics, any_metric.
  rewrite !existsb_app.
  destruct (cpu_utilization h), (memory_usage h); simpl;
    rewrite ?orb_false_r, ?orb_assoc; reflexivity.
Qed.

Lemma length_zero_existsb (l : list HealthMetric) :
  (Z.of_nat (length l) =? 0) = negb (existsb (fun _ => true) l).
Proof. by destruct l. Qed.

(** C1. For every device-health record, [calculate_overall_status] is
    CRITICAL when the device is unreachable; otherwise, over the union
    of the cpu, memory, temperature, power-supply, fan, interface-error
    and interface-utilization metrics, it is CRITICAL when some metric
    is CRITICAL, else WARNING when some metric is WARNING, else GOOD
    when the union has a metric, else UNKNOWN. *)
Theorem calculate_overall_status_correct (h : DeviceHealth) :
  calculate_overall_status h = overall_status_spec h.
Proof.
  unfold calculate_overall_status, overall_status_spec.
  destruct (negb (reachable h)); [done|].
  unfold count_all. rewrite fold_count_step.
  cbn [critical_count warning_count total_metrics]. rewrite !Z.add_0_l.
  rewrite !count_if_pos, length_zero_existsb, !existsb_all_metrics.
  destruct (any_metric (fun _ => true) h) eqn:Hany; simpl; [done|].
  assert (Hnone : forall p, any_metric p h = false).
  { intros p. rewrite <- existsb_all_metrics.
    rewrite <- existsb_all_metrics in Hany.
    destruct (all_metrics h); [done|discriminate]. }
  by rewrite !Hnone.
Qed.

End Health.

(** ** Retry policy: [retry_on_failure] of utils/common.py *)

Module Retry.

Section Wrapper.

(** [A]: what the wrapped function returns; [E]: what it can raise;
    [D]: the numbers delays are measured in, with the product of
    [current_delay *= backoff]. *)
Context {A E D : Type}.
Variable mul : D -> D -> D.

(** The decorator's arguments; [retryable e] is [isinstance(e, exceptions)]. *)
Variable max_attempts : Z.
Variable delay : D.
Variable backoff : D.
Variable retryable : E -> bool.

Inductive outcome :=
| Return (a : A)
| Raise (e : E).

(** The wrapped function is called with the same arguments every time;
    what the call does depends on the world, so it is given by the
    number of the attempt that makes it. *)
Variable func : Z -> outcome.

Inductive event :=
| Call (attempt : Z)
| Sleep (seconds : D)
| LogWarning (attempt : Z) (e : E) (seconds : D)
| LogError (e : E).

(** How a call of the wrapper ends: with the function's value, with the
    [None] after the loop, or with an exception. *)
Inductive wrapper_result :=
| Returned (a : A)
| ReturnedNone
| Raised (e : E).

(** The [while attempt <= max_attempts] loop; [None] only when the fuel
    runs out. *)
Fixpoint wrapper_loop (fuel : nat) (attempt : Z) (current_delay : D)
    (trace : list event) : option (wrapper_result * list event) :=
  match fuel with
  | O => None
  | S fuel' =>
      if attempt <=? max_attempts then
        let trace := trace ++ [Call attempt] in
        match func attempt with
        | Return a => Some (Returned a, trace)
        | Raise e =>
            if retryable e then
              if attempt =? max_attempts then
                Some (Raised e, trace ++ [LogError e])
              else
                wrapper_loop fuel' (attempt + 1) (mul current_delay backoff)
                  (trace ++ [LogWarning attempt e current_delay;
                             Sleep current_delay])
            else Some (Raised e, trace)
        end
      else Some (ReturnedNone, trace)
  end.

Definition wrapper : option (wrapper_result * list event) :=
  wrapper_loop (S (Z.to_nat max_attempts)) 1 delay [].

(** What the specification speaks of: the calls made and the sleeps
    taken, in the order they happen. *)
Definition is_action (ev : event) : bool :=
  match ev with
  | Call _ | Sleep _ => true
  | LogWarning _ _ _ | LogError _ => false
  end.

Definition timeline (trace : list event) : list event :=
  List.filter is_action trace.

(** [n] failed attempts, each followed by a sleep whose length is the
    previous one times [backoff], and then one more attempt. *)
Fixpoint schedule (n : nat) (attempt : Z) (d : D) : list event :=
  match n with
  | O => [Call attempt]
  | S n' => Call attempt :: Sleep d :: schedule n' (attempt + 1) (mul d backoff)
  end.

Definition fails_retryably (o : outcome) : Prop :=
  exists e, o = Raise e /\ retryable e = true.

(** How the wrapper ends when attempt [k] is the last one made. *)
Definition ending (o : outcome) : wrapper_result :=
  match o with
  | Return a => Returned a
  | Raise e => Raised e
  end.

(** Attempt [k] ends the loop: the function returned, or raised
    something that is not retried, or it was the last attempt allowed. *)
Definition ends_loop (k : Z) : Prop :=
  match func k with
  | Return _ => True
  | Raise e => retryable e = false \/ k = max_attempts
  end.

(** *** Proofs *)

Lemma timeline_app t1 t2 : timeline (t1 ++ t2) = timeline t1 ++ timeline t2.
Proof. unfold timeline. apply List.filter_app. Qed.

Lemma wrapper_loop_ends (n : nat) : forall fuel attempt d trace,
  attempt + Z.of_nat n <= max_attempts ->
  (n < fuel)%nat ->
  (forall i, attempt <= i < attempt + Z.of_nat n -> fails_retryably (func i)) ->
  ends_loop (attempt + Z.of_nat n) ->
  exists trace',
    wrapper_loop fuel attempt d trace
      = Some (ending (func (attempt + Z.of_nat n)), trace') /\
    timeline trace' = timeline trace ++ schedule n attempt d.
Proof.
  induction n as [|n IH]; intros fuel attempt d trace Hle Hfuel Hfail Hend.
  - replace (attempt + Z.of_nat 0) with attempt in * by lia.
    destruct fuel as [|fuel]; [lia|]. simpl.
    rewrite (proj2 (Z.leb_le _ _) Hle).
    unfold ends_loop in Hend.
    destruct (func attempt) as [a|e]; simpl.
    + eexists. split; [reflexivity|]. by rewrite timeline_app.
    + destruct (retryable e) eqn:Hr.
      * destruct Hend as [?| ->]; [done|]. rewrite Z.eqb_refl.
        eexists. split; [reflexivity|]. rewrite !timeline_app. simpl.
        by rewrite app_nil_r.
      * eexists. split; [reflexivity|]. by rewrite timeline_app.
  - destruct fuel as [|fuel]; [lia|]. simpl wrapper_loop.
    rewrite (proj2 (Z.leb_le attempt max_attempts)) by lia.
    destruct (Hfail attempt) as (e & He & Hr); [lia|].
    rewrite He, Hr.
    rewrite (proj2 (Z.eqb_neq attempt max_attempts)) by lia.
    replace (attempt + Z.of_nat (S n)) with ((attempt + 1) + Z.of_nat n) in * by lia.
    destruct (IH fuel (attempt + 1) (mul d backoff)
                ((trace ++ [Call attempt]) ++ [LogWarning attempt e d; Sleep d]))
      as (trace' & Hrun & Htl); [lia|lia| |done|].
    { intros i Hi. apply Hfail. lia. }
    exists trace'. split; [done|].
    rewrite Htl, !timeline_app. simpl. by rewrite <- !app_assoc.
Qed.

(** The loop always comes to an end. *)
Lemma wrapper_loop_total (n : nat) : forall fuel attempt d trace,
  max_attempts - attempt < Z.of_nat n ->
  (n < fuel)%nat ->
  is_Some (wrapper_loop fuel attempt d trace).
Proof.
  induction n as [|n IH]; intros fuel attempt d trace Hn Hfuel;
    (destruct fuel as [|fuel]; [lia|]); simpl.
  - rewrite (proj2 (Z.leb_gt _ _)) by lia. done.
  - destruct (attempt <=? max_attempts); [|done].
    destruct (func attempt) as [a|e]; [done|].
    destruct (retryable e); [|done].
    destruct (attempt =? max_attempts); [done|].
    apply IH; lia.
Qed.

Lemma wrapper_total : is_Some wrapper.
Proof. apply (wrapper_loop_total (Z.to_nat max_attempts)); lia. Qed.

Lemma wrapper_ends_at (k : Z) :
  1 <= k <= max_attempts ->
  (forall i, 1 <= i < k -> fails_retryably (func i)) ->
  ends_loop k ->
  exists trace,
    wrapper = Some (ending (func k), trace) /\
    timeline trace = schedule (Z.to_nat (k - 1)) 1 delay.
Proof.
  intros Hk Hfail Hend. unfold wrapper.
  destruct (wrapper_loop_ends (Z.to_nat (k - 1)) (S (Z.to_nat max_attempts))
              1 delay []) as (trace & Hrun & Htl).
  - lia.
  - lia.
  - intros i Hi. apply Hfail. lia.
  - replace (1 + Z.of_nat (Z.to_nat (k - 1))) with k by lia. done.
  - replace (1 + Z.of_nat (Z.to_nat (k - 1))) with k in Hrun by lia.
    exists trace. done.
Qed.

End Wrapper.

Arguments Return {A E} a.
Arguments Raise {A E} e.
Arguments Returned {A E} a.
Arguments ReturnedNone {A E}.
Arguments Raised {A E} e.

(** C4. For every operation wrapped by the retry utility: when the
    operation succeeds on attempt [k <= max_attempts] after retryable
    failures on attempts 1 to [k-1], the wrapper returns that result,
    having slept [delay], [delay*backoff], ... between the attempts;
    when all [max_attempts] attempts fail retryably, the last failure
    is raised again; a failure that is not retryable is raised at once,
    with no attempt after it. *)
Theorem retry_on_failure_correct {A E D : Type} (mul : D -> D -> D)
    (max_attempts : Z) (delay backoff : D) (retryable : E -> bool)
    (func : Z -> outcome (A:=A) (E:=E)) :
  (forall k a,
     1 <= k <= max_attempts ->
     (forall i, 1 <= i < k -> fails_retryably retryable (func i)) ->
     func k = Return a ->
     exists trace,
       wrapper mul max_attempts delay backoff retryable func
         = Some (Returned a, trace) /\
       timeline trace = schedule mul backoff (Z.to_nat (k - 1)) 1 delay)
  /\
  (forall e,
     1 <= max_attempts ->
     (forall i, 1 <= i < max_attempts -> fails_retryably retryable (func i)) ->
     func max_attempts = Raise e -> retryable e = true ->
     exists trace,
       wrapper mul max_attempts delay backoff retryable func
         = Some (Raised e, trace) /\
       timeline trace
         = schedule mul backoff (Z.to_nat (max_attempts - 1)) 1 delay)
  /\
  (forall k e,
     1 <= k <= max_attempts ->
     (forall i, 1 <= i < k -> fails_retryably retryable (func i)) ->
     func k = Raise e -> retryable e = false ->
     exists trace,
       wrapper mul max_attempts delay backoff retryable func
         = Some (Raised e, trace) /\
       timeline trace = schedule mul backoff (Z.to_nat (k - 1)) 1 delay).
Proof.
  split; [|split].
  - intros k a Hk Hfail Hret.
    destruct (wrapper_ends_at mul max_attempts delay backoff retryable func k)
      as (trace & Hrun & Htl); [done|done| |].
    + unfold ends_loop. by rewrite Hret.
    + rewrite Hret in Hrun. by exists trace.
  - intros e Hmax Hfail Hraise Hr.
    destruct (wrapper_ends_at mul max_attempts delay backoff retryable func
                max_attempts) as (trace & Hrun & Htl); [lia|done| |].
    + unfold ends_loop. rewrite Hraise. by right.
    + rewrite Hraise in Hrun. by exists trace.
  - intros k e Hk Hfail Hraise Hr.
    destruct (wrapper_ends_at mul max_attempts delay backoff retryable func k)
      as (trace & Hrun & Htl); [done|done| |].
    + unfold ends_loop. rewrite Hraise. by left.
    + rewrite Hraise in Hrun. by exists trace.
Qed.

(** With no attempt allowed the function is never called and the
    wrapper returns [None]. *)
Lemma wrapper_no_attempts {A E D : Type} (mul : D -> D -> D)
    (max_attempts : Z) (delay backoff : D) (retryable : E -> bool)
    (func : Z -> outcome (A:=A) (E:=E)) :
  max_attempts <= 0 ->
  wrapper mul max_attempts delay backoff retryable func
    = Some (ReturnedNone, []).
Proof.
  intros Hle. unfold wrapper. simpl.
  by rewrite (proj2 (Z.leb_gt 1 max_attempts)) by lia.
Qed.

(** The three runs of the specification's example, with
    [max_attempts = 3], [delay = 1] and [backoff = 2]. *)
Inductive failure := Timeout | Refused.

Definition is_timeout (e : failure) : bool :=
  match e with
  | Timeout => true
  | Refused => false
  end.

Definition third_time_lucky (attempt : Z) : outcome (A:=string) (E:=failure) :=
  if attempt <? 3 then Raise Timeout else Return "up".

Definition never_up (attempt : Z) : outcome (A:=string) (E:=failure) :=
  Raise Timeout.

Definition refused_second (attempt : Z) : outcome (A:=string) (E:=failure) :=
  if attempt <? 2 then Raise Timeout else Raise Refused.

Lemma retry_on_failure_witness :
  (exists trace,
     wrapper Z.mul 3 1 2 is_timeout third_time_lucky
       = Some (Returned "up", trace) /\
     timeline trace = [Call 1; Sleep 1; Call 2; Sleep 2; Call 3])
  /\
  (exists trace,
     wrapper Z.mul 3 1 2 is_timeout never_up = Some (Raised Timeout, trace) /\
     timeline trace = [Call 1; Sleep 1; Call 2; Sleep 2; Call 3])
  /\
  (exists trace,
     wrapper Z.mul 3 1 2 is_timeout refused_second
       = Some (Raised Refused, trace) /\
     timeline trace = [Call 1; Sleep 1; Call 2]).
Proof.
  split; [|split].
  - apply (proj1 (retry_on_failure_correct Z.mul 3 1 2 is_timeout
                    third_time_lucky) 3 "up").
    + lia.
    + intros i Hi. exists Timeout. unfold third_time_lucky.
      destruct (Z.ltb_spec i 3); [split; reflexivity | lia].
    + reflexivity.
  - apply (proj1 (proj2 (retry_on_failure_correct Z.mul 3 1 2 is_timeout
                           never_up)) Timeout).
    + lia.
    + intros i Hi. exists Timeout. split; reflexivity.
    + reflexivity.
    + reflexivity.
  - apply (proj2 (proj2 (retry_on_failure_correct Z.mul 3 1 2 is_timeout
                           refused_second)) 2 Refused).
    + lia.
    + intros i Hi. exists Timeout. unfold refused_second.
      destruct (Z.ltb_spec i 2); [split; reflexivity | lia].
    + reflexivity.
    + reflexivity.
Defined.

End Retry.

(** ** Credential manager: [CredentialManager.get_credentials] *)

Module Credentials.

(** The dictionary the manager hands out: [secret] is present only when
    an enable password is configured. *)
Record credentials := {
  username : option string;
  password : string;
  secret : option string
}.

Inductive error :=
| CredentialError (msg : string)
| EOFError.

(** The manager's cache together with the world it reads: the process
    environment, the answers the operator will type, and the prompts
    shown so far. *)
Record state := {
  credentials_cache : gmap (option string) credentials;
  environ : gmap string string;
  terminal : list string;
  prompts : list string
}.

Definition M (A : Type) : Type := state -> result error A * state.

Definition ret {A : Type} (a : A) : M A := fun st => (Ok a, st).

Definition raise {A : Type} (e : error) : M A := fun st => (Err e, st).

Definition bind {A B : Type} (m : M A) (k : A -> M B) : M B :=
  fun st =>
    match m st with
    | (Ok a, st') => k a st'
    | (Err e, st') => (Err e, st')
    end.

Notation "'do' x <- m ; k" := (bind m (fun x => k))
  (at level 10, x name, m at level 100, k at level 200, only parsing).

(** [os.environ.get(key)] *)
Definition getenv (key : string) : M (option string) :=
  fun st => (Ok (environ st !! key), st).

(** [input(prompt)] and [getpass.getpass(prompt)]: show the prompt and
    read one line; at end of input both raise [EOFError]. *)
Definition read_line (prompt : string) : M string :=
  fun st =>
    let shown := prompts st ++ [prompt] in
    match terminal st with
    | [] =>
        (Err EOFError,
         {| credentials_cache := credentials_cache st; environ := environ st;
            terminal := []; prompts := shown |})
    | answer :: rest =>
        (Ok answer,
         {| credentials_cache := credentials_cache st; environ := environ st;
            terminal := rest; prompts := shown |})
    end.

Definition cache_get (key : option string) : M (option credentials) :=
  fun st => (Ok (credentials_cache st !! key), st).

Definition cache_set (key : option string) (c : credentials) : M unit :=
  fun st =>
    (Ok tt,
     {| credentials_cache := <[key := c]> (credentials_cache st);
        environ := environ st; terminal := terminal st;
        prompts := prompts st |}).

(** The first block of [get_credentials]: the username the call is for. *)
Definition resolve_username (username : option string)
    (prompt_for_password : bool) : M (option string) :=
  if negb (Py.truthy_opt username) then
    do a <- getenv "NETWORK_USERNAME";
    do b <- getenv "DEFAULT_USERNAME";
    let username := Py.or_else a b in
    if (negb (Py.truthy_opt username) && prompt_for_password)%bool then
      do line <- read_line "Enter username: ";
      ret (Some (Py.strip line))
    else ret username
  else ret username.

Definition get_credentials (username : option string)
    (prompt_for_password : bool) : M credentials :=
  do username <- resolve_username username prompt_for_password;
  do cached <- cache_get username;
  match cached with
  | Some c => ret c
  | None =>
      do p1 <- getenv "NETWORK_PASSWORD";
      do p2 <- getenv "DEFAULT_PASSWORD";
      let password := Py.or_else p1 p2 in
      do s1 <- getenv "ENABLE_PASSWORD";
      do s2 <- getenv "DEFAULT_SECRET";
      let secret := Py.or_else s1 s2 in
      do password <-
        (if (negb (Py.truthy_opt password) && prompt_for_password)%bool then
           do line <- read_line ("Enter password for "
                                 +:+ Py.str_of_opt username +:+ ": ");
           ret (Some line)
         else ret password);
      match password with
      | Some pw =>
          if Py.truthy pw then
            let c := {| username := username; password := pw;
                        secret := if Py.truthy_opt secret then secret else None |} in
            do _ <- cache_set username c;
            ret c
          else raise (CredentialError "No password available")
      | None => raise (CredentialError "No password available")
      end
  end.

(** *** Proofs *)

Definition set_terminal (st : state) (t : list string) (shown : list string)
  : state :=
  {| credentials_cache := credentials_cache st; environ := environ st;
     terminal := t; prompts := shown |}.

Definition set_cache (st : state) (key : option string) (c : credentials)
  : state :=
  {| credentials_cache := <[key := c]> (credentials_cache st);
     environ := environ st; terminal := terminal st; prompts := prompts st |}.

Definition env_username (st : state) : option string :=
  Py.or_else (environ st !! "NETWORK_USERNAME") (environ st !! "DEFAULT_USERNAME").

Definition env_password (st : state) : option string :=
  Py.or_else (environ st !! "NETWORK_PASSWORD") (environ st !! "DEFAULT_PASSWORD").

Definition env_secret (st : state) : option string :=
  let s := Py.or_else (environ st !! "ENABLE_PASSWORD")
                      (environ st !! "DEFAULT_SECRET") in
  if Py.truthy_opt s then s else None.

Definition password_prompt (u : option string) : string :=
  "Enter password for " +:+ Py.str_of_opt u +:+ ": ".

Ltac run := unfold bind, ret, raise, getenv, cache_get, cache_set, read_line.

Lemma state_eta st :
  {| credentials_cache := credentials_cache st; environ := environ st;
     terminal := terminal st; prompts := prompts st |} = st.
Proof. by destruct st. Qed.

(** Resolving the username reads the terminal at most; the cache and
    the environment are as before. *)
Lemma resolve_username_frame arg p st r st' :
  resolve_username arg p st = (r, st') ->
  credentials_cache st' = credentials_cache st /\ environ st' = environ st.
Proof.
  unfold resolve_username. run.
  destruct (Py.truthy_opt arg); simpl; [by intros [= _ <-]|].
  destruct (negb _ && p)%bool; simpl; [|by intros [= _ <-]].
  destruct (terminal st); intros [= _ <-]; done.
Qed.

Lemma resolve_username_explicit arg p st :
  Py.truthy_opt arg = true -> resolve_username arg p st = (Ok arg, st).
Proof. intros H. unfold resolve_username. by rewrite H. Qed.

Lemma resolve_username_env arg p st :
  Py.truthy_opt arg = false ->
  Py.truthy_opt (env_username st) = true ->
  resolve_username arg p st = (Ok (env_username st), st).
Proof.
  intros Ha He. unfold resolve_username. run. rewrite Ha. simpl.
  fold (env_username st). by rewrite He.
Qed.

Lemma resolve_username_prompt arg st answer rest :
  Py.truthy_opt arg = false ->
  Py.truthy_opt (env_username st) = false ->
  terminal st = answer :: rest ->
  resolve_username arg true st
    = (Ok (Some (Py.strip answer)),
       set_terminal st rest (prompts st ++ ["Enter username: "])).
Proof.
  intros Ha He Ht. unfold resolve_username. run. rewrite Ha. simpl.
  fold (env_username st). rewrite He. simpl. by rewrite Ht.
Qed.

Lemma get_credentials_hit arg p st u st' c :
  resolve_username arg p st = (Ok u, st') ->
  credentials_cache st' !! u = Some c ->
  get_credentials arg p st = (Ok c, st').
Proof.
  intros Hu Hc. unfold get_credentials. unfold bind at 1. rewrite Hu.
  run. by rewrite Hc.
Qed.

(** A call that misses the cache, from the state [st'] that resolving
    the username leaves. *)
Definition after_miss (p : bool) (u : option string) (st' : state)
  : result error credentials * state :=
  let make pw := {| username := u; password := pw; secret := env_secret st' |} in
  match env_password st' with
  | Some pw =>
      if Py.truthy pw then (Ok (make pw), set_cache st' u (make pw))
      else if p then
        match terminal st' with
        | [] => (Err EOFError,
                 set_terminal st' [] (prompts st' ++ [password_prompt u]))
        | answer :: rest =>
            let st2 := set_terminal st' rest (prompts st' ++ [password_prompt u]) in
            if Py.truthy answer
            then (Ok (make answer), set_cache st2 u (make answer))
            else (Err (CredentialError "No password available"), st2)
        end
      else (Err (CredentialError "No password available"), st')
  | None =>
      if p then
        match terminal st' with
        | [] => (Err EOFError,
                 set_terminal st' [] (prompts st' ++ [password_prompt u]))
        | answer :: rest =>
            let st2 := set_terminal st' rest (prompts st' ++ [password_prompt u]) in
            if Py.truthy answer
            then (Ok (make answer), set_cache st2 u (make answer))
            else (Err (CredentialError "No password available"), st2)
        end
      else (Err (CredentialError "No password available"), st')
  end.

Lemma get_credentials_miss arg p st u st' :
  resolve_username arg p st = (Ok u, st') ->
  credentials_cache st' !! u = None ->
  get_credentials arg p st = after_miss p u st'.
Proof.
  intros Hu Hc. unfold get_credentials. unfold bind at 1. rewrite Hu.
  unfold bind at 1. unfold cache_get at 1. rewrite Hc.
  unfold after_miss, env_password, env_secret, password_prompt. run.
  destruct (Py.or_else (environ st' !! "NETWORK_PASSWORD") _) as [pw|] eqn:Hpw;
    simpl.
  - destruct (Py.truthy pw) eqn:Ht; simpl.
    + rewrite Ht. reflexivity.
    + destruct p; simpl.
      * destruct (terminal st') as [|answer rest]; [done|].
        destruct (Py.truthy answer); reflexivity.
      * rewrite Ht. reflexivity.
  - destruct p; simpl; [|done].
    destruct (terminal st') as [|answer rest]; [done|].
    destruct (Py.truthy answer); reflexivity.
Qed.

Lemma truthy_opt_some (u : string) : u <> "" -> Py.truthy_opt (Some u) = true.
Proof.
  intros Hu. simpl. unfold Py.truthy.
  destruct (String.eqb_spec u ""); done.
Qed.

Lemma truthy_true (u : string) : Py.truthy u = true -> u <> "".
Proof. unfold Py.truthy. destruct (String.eqb_spec u ""); done. Qed.

Lemma truthy_false (u : string) : Py.truthy u = false -> u = "".
Proof. unfold Py.truthy. destruct (String.eqb_spec u ""); done. Qed.

Lemma env_password_frame arg p st r st' :
  resolve_username arg p st = (r, st') -> env_password st' = env_password st.
Proof.
  intros H. destruct (resolve_username_frame _ _ _ _ _ H) as [_ He].
  unfold env_password. by rewrite He.
Qed.

(** The sentence of the specification about the second call, read as
    it stands: a second call that resolves to the same username returns
    the same set and shows no prompt at all. *)
Definition second_call_shows_no_prompt : Prop :=
  forall arg1 p1 st u st' c st1 arg2 p2 st2',
    resolve_username arg1 p1 st = (Ok u, st') ->
    get_credentials arg1 p1 st = (Ok c, st1) ->
    resolve_username arg2 p2 st1 = (Ok u, st2') ->
    exists st2,
      get_credentials arg2 p2 st1 = (Ok c, st2) /\ prompts st2 = prompts st1.

(** An operator with nothing in the environment, who types the name,
    the password, and the name again. *)
Definition bare_terminal : state :=
  {| credentials_cache := ∅; environ := ∅;
     terminal := ["admin"; "s3cret"; "admin"]; prompts := [] |}.

Definition admin_credentials : credentials :=
  {| username := Some "admin"; password := "s3cret"; secret := None |}.

Definition after_first_call : state :=
  {| credentials_cache := {[ Some "admin" := admin_credentials ]};
     environ := ∅; terminal := ["admin"];
     prompts := ["Enter username: "; "Enter password for admin: "] |}.

Definition after_second_call : state :=
  {| credentials_cache := {[ Some "admin" := admin_credentials ]};
     environ := ∅; terminal := [];
     prompts := ["Enter username: "; "Enter password for admin: ";
                 "Enter username: "] |}.

Lemma first_call_run :
  get_credentials None true bare_terminal = (Ok admin_credentials, after_first_call).
Proof. reflexivity. Qed.

Lemma second_call_run :
  get_credentials None true after_first_call
    = (Ok admin_credentials, after_second_call).
Proof. reflexivity. Qed.

(** C5, as the specification words its last clause: refuted. The
    second call below resolves to the same username and returns the
    same credential set, but only after asking for the username again. *)
Lemma get_credentials_prompts_again : ~ second_call_shows_no_prompt.
Proof.
  intros H.
  destruct (H None true bare_terminal (Some "admin") _ admin_credentials
              after_first_call None true _ eq_refl first_call_run eq_refl)
    as (st2 & Hrun & Hprompts).
  rewrite second_call_run in Hrun.
  injection Hrun as <-. discriminate Hprompts.
Qed.

Lemma get_credentials_hit_before arg p st u st' c :
  resolve_username arg p st = (Ok u, st') ->
  credentials_cache st !! u = Some c ->
  get_credentials arg p st = (Ok c, st').
Proof.
  intros Hu Hc. apply (get_credentials_hit _ _ _ u); [done|].
  by destruct (resolve_username_frame _ _ _ _ _ Hu) as [-> _].
Qed.

Lemma get_credentials_miss_before arg p st u st' :
  resolve_username arg p st = (Ok u, st') ->
  credentials_cache st !! u = None ->
  get_credentials arg p st = after_miss p u st' /\
  credentials_cache st' = credentials_cache st /\
  env_password st' = env_password st.
Proof.
  intros Hu Hc.
  destruct (resolve_username_frame _ _ _ _ _ Hu) as [Hcache _].
  split; [|split; [done|by eapply env_password_frame]].
  apply get_credentials_miss; [done|]. by rewrite Hcache.
Qed.

(** What [after_miss] yields, case by case. *)
Lemma after_miss_error p u st' e st1 :
  after_miss p u st' = (Err e, st1) ->
  (e = CredentialError "No password available" <->
   Py.truthy_opt (env_password st') = false /\
   (p = false \/ exists rest, terminal st' = "" :: rest)).
Proof.
  unfold after_miss. intros Hrun.
  assert (Hprompt :
    forall r : result error credentials * state,
      (if p then
         match terminal st' with
         | [] => (Err EOFError,
                  set_terminal st' [] (prompts st' ++ [password_prompt u]))
         | answer :: rest =>
             let st2 := set_terminal st' rest
                          (prompts st' ++ [password_prompt u]) in
             if Py.truthy answer
             then (Ok {| username := u; password := answer;
                         secret := env_secret st' |},
                   set_cache st2 u {| username := u; password := answer;
                                      secret := env_secret st' |})
             else (Err (CredentialError "No password available"), st2)
         end
       else (Err (CredentialError "No password available"), st')) = (Err e, st1) ->
      (e = CredentialError "No password available" <->
       (p = false \/ exists rest, terminal st' = "" :: rest))).
  { intros _ Hp. destruct p.
    - destruct (terminal st') as [|answer rest].
      + injection Hp as <- _. split; [done|]. intros [?|[? ?]]; done.
      + simpl in Hp. destruct (Py.truthy answer) eqn:Hans; [done|].
        injection Hp as <- _. apply truthy_false in Hans. subst.
        split; [|done]. intros _. right. by exists rest.
    - injection Hp as <- _. split; [|done]. intros _. by left. }
  destruct (env_password st') as [pw|]; simpl.
  - destruct (Py.truthy pw); [done|].
    rewrite (Hprompt (Err e, st1) Hrun). split; [done|by intros [_ ?]].
  - rewrite (Hprompt (Err e, st1) Hrun). split; [done|by intros [_ ?]].
Qed.

Lemma after_miss_success p u st' c st1 :
  after_miss p u st' = (Ok c, st1) ->
  username c = u /\ password c <> "" /\
  credentials_cache st1 = <[u := c]> (credentials_cache st') /\
  (Py.truthy_opt (env_password st') = true ->
   env_password st' = Some (password c) /\ prompts st1 = prompts st') /\
  (Py.truthy_opt (env_password st') = false ->
   p = true /\
   (exists rest, terminal st' = password c :: rest) /\
   prompts st1 = prompts st' ++ [password_prompt u]).
Proof.
  unfold after_miss. intros Hrun.
  destruct (env_password st') as [pw|]; simpl;
    [destruct (Py.truthy pw) eqn:Hpw|].
  - injection Hrun as <- <-. simpl.
    split; [done|]. split; [by apply truthy_true|]. split; [done|].
    split; [done|]. intros [=].
  - destruct p; [|done].
    destruct (terminal st') as [|answer rest]; [done|]. simpl in Hrun.
    destruct (Py.truthy answer) eqn:Hans; [|done].
    injection Hrun as <- <-. simpl.
    split; [done|]. split; [by apply truthy_true|]. split; [done|].
    split; [intros [=]|]. intros _. split; [done|]. split; [by exists rest|done].
  - destruct p; [|done].
    destruct (terminal st') as [|answer rest]; [done|]. simpl in Hrun.
    destruct (Py.truthy answer) eqn:Hans; [|done].
    injection Hrun as <- <-. simpl.
    split; [done|]. split; [by apply truthy_true|]. split; [done|].
    split; [intros [=]|]. intros _. split; [done|]. split; [by exists rest|done].
Qed.

(** A successful call leaves the set it returns in the cache, under the
    username it resolved. *)
Lemma get_credentials_cached arg p st u st' c st1 :
  resolve_username arg p st = (Ok u, st') ->
  get_credentials arg p st = (Ok c, st1) ->
  credentials_cache st1 !! u = Some c.
Proof.
  intros Hu Hrun.
  destruct (resolve_username_frame _ _ _ _ _ Hu) as [Hcache _].
  destruct (credentials_cache st !! u) as [c0|] eqn:Hc0.
  - rewrite (get_credentials_hit_before _ _ _ _ _ _ Hu Hc0) in Hrun.
    injection Hrun as <- <-. by rewrite Hcache.
  - destruct (get_credentials_miss_before _ _ _ _ _ Hu Hc0) as (Hmiss & _ & _).
    rewrite Hmiss in Hrun.
    destruct (after_miss_success _ _ _ _ _ Hrun) as (_ & _ & -> & _).
    apply lookup_insert_eq.
Qed.

(** C5, amended. For every call of [get_credentials]:
    - the username is the explicit argument when one is given, else
      NETWORK_USERNAME, else DEFAULT_USERNAME, else (when prompting is
      enabled) the stripped answer to the username prompt;
    - when the cache holds a credential set for that username, the call
      returns it and does nothing else, whatever the prompt flag;
    - otherwise the password is taken from NETWORK_PASSWORD or
      DEFAULT_PASSWORD, else from the password prompt, the call raises
      CredentialError (No password available) exactly when the
      environment gives no password and either prompting is disabled
      or the answer typed is empty, and a successful call stores the
      set in the cache under the username;
    - a later call that resolves to the same username returns the same
      set without asking for the password: it does what resolving the
      username does and nothing more (so a username that is itself
      typed at the prompt is asked for again). *)
Theorem get_credentials_correct :
  (forall arg p st,
     Py.truthy_opt arg = true -> resolve_username arg p st = (Ok arg, st))
  /\
  (forall arg p st u,
     Py.truthy_opt arg = false ->
     environ st !! "NETWORK_USERNAME" = Some u -> u <> "" ->
     resolve_username arg p st = (Ok (Some u), st))
  /\
  (forall arg p st u,
     Py.truthy_opt arg = false ->
     Py.truthy_opt (environ st !! "NETWORK_USERNAME") = false ->
     environ st !! "DEFAULT_USERNAME" = Some u -> u <> "" ->
     resolve_username arg p st = (Ok (Some u), st))
  /\
  (forall arg st answer rest,
     Py.truthy_opt arg = false ->
     Py.truthy_opt (environ st !! "NETWORK_USERNAME") = false ->
     Py.truthy_opt (environ st !! "DEFAULT_USERNAME") = false ->
     terminal st = answer :: rest ->
     resolve_username arg true st
       = (Ok (Some (Py.strip answer)),
          set_terminal st rest (prompts st ++ ["Enter username: "])))
  /\
  (forall arg p st u st' c,
     resolve_username arg p st = (Ok u, st') ->
     credentials_cache st !! u = Some c ->
     get_credentials arg p st = (Ok c, st'))
  /\
  (forall arg p st u st',
     resolve_username arg p st = (Ok u, st') ->
     credentials_cache st !! u = None ->
     (forall e,
        (get_credentials arg p st).1 = Err e ->
        (e = CredentialError "No password available" <->
         Py.truthy_opt (env_password st) = false /\
         (p = false \/ exists rest, terminal st' = "" :: rest)))
     /\
     (forall c st1,
        get_credentials arg p st = (Ok c, st1) ->
        username c = u /\ password c <> "" /\
        credentials_cache st1 = <[u := c]> (credentials_cache st) /\
        (Py.truthy_opt (env_password st) = true ->
         env_password st = Some (password c) /\ prompts st1 = prompts st') /\
        (Py.truthy_opt (env_password st) = false ->
         p = true /\
         (exists rest, terminal st' = password c :: rest) /\
         prompts st1 = prompts st' ++ [password_prompt u])))
  /\
  (forall arg1 p1 st u st' c st1,
     resolve_username arg1 p1 st = (Ok u, st') ->
     get_credentials arg1 p1 st = (Ok c, st1) ->
     credentials_cache st1 !! u = Some c /\
     (forall arg2 p2 st2 st2',
        credentials_cache st2 = credentials_cache st1 ->
        resolve_username arg2 p2 st2 = (Ok u, st2') ->
        get_credentials arg2 p2 st2 = (Ok c, st2'))).
Proof.
  split; [|split; [|split; [|split; [|split; [|split]]]]].
  - apply resolve_username_explicit.
  - intros arg p st u Ha Hn Hu.
    assert (He : env_username st = Some u).
    { unfold env_username, Py.or_else. rewrite Hn.
      by rewrite (truthy_opt_some u Hu). }
    rewrite <- He. apply resolve_username_env; [done|].
    rewrite He. by apply truthy_opt_some.
  - intros arg p st u Ha Hn Hd Hu.
    assert (He : env_username st = Some u).
    { unfold env_username, Py.or_else. by rewrite Hn. }
    rewrite <- He. apply resolve_username_env; [done|].
    rewrite He. by apply truthy_opt_some.
  - intros arg st answer rest Ha Hn Hd Ht.
    apply resolve_username_prompt; [done| |done].
    unfold env_username, Py.or_else. by rewrite Hn.
  - apply get_credentials_hit_before.
  - intros arg p st u st' Hu Hc.
    destruct (get_credentials_miss_before _ _ _ _ _ Hu Hc)
      as (Hmiss & Hcache & Henv).
    rewrite Hmiss, <- Henv, <- Hcache. split.
    + intros e He. destruct (after_miss p u st') as [r st1] eqn:Hrun.
      simpl in He. subst r. by eapply after_miss_error.
    + intros c st1 Hrun. by apply after_miss_success.
  - intros arg1 p1 st u st' c st1 Hu Hrun.
    pose proof (get_credentials_cached _ _ _ _ _ _ _ Hu Hrun) as Hc.
    split; [done|].
    intros arg2 p2 st2 st2' Hsame Hu2.
    apply (get_credentials_hit_before _ _ _ u); [done|]. by rewrite Hsame.
Qed.

(** A host provisioned through the environment: the first call fills
    the cache, the second is served from it, and a call with prompting
    disabled and no password anywhere raises CredentialError. *)
Definition provisioned : state :=
  {| credentials_cache := ∅;
     environ := {[ "NETWORK_USERNAME" := "netops";
                   "NETWORK_PASSWORD" := "hunter2" ]};
     terminal := []; prompts := [] |}.

Definition netops_credentials : credentials :=
  {| username := Some "netops"; password := "hunter2"; secret := None |}.

Definition provisioned_cached : state :=
  set_cache provisioned (Some "netops") netops_credentials.

Definition unprovisioned : state :=
  {| credentials_cache := ∅; environ := ∅; terminal := []; prompts := [] |}.

Lemma get_credentials_witness :
  get_credentials None true provisioned
    = (Ok netops_credentials, provisioned_cached)
  /\ get_credentials (Some "netops") false provisioned_cached
    = (Ok netops_credentials, provisioned_cached)
  /\ (get_credentials (Some "netops") false unprovisioned).1
    = Err (CredentialError "No password available").
Proof.
  destruct get_credentials_correct
    as (Hexplicit & _ & _ & _ & _ & Hmiss & Hsecond).
  assert (Hfirst : get_credentials None true provisioned
                   = (Ok netops_credentials, provisioned_cached))
    by reflexivity.
  assert (Hname : resolve_username None true provisioned
                  = (Ok (Some "netops"), provisioned))
    by reflexivity.
  split; [exact Hfirst|]. split.
  - destruct (Hsecond None true provisioned (Some "netops") provisioned
                netops_credentials provisioned_cached Hname Hfirst)
      as [_ Hagain].
    apply Hagain; [reflexivity|].
    apply Hexplicit. reflexivity.
  - destruct (Hmiss (Some "netops") false unprovisioned (Some "netops")
                unprovisioned
                (Hexplicit (Some "netops") false unprovisioned eq_refl)
                eq_refl) as [Herr _].
    destruct (get_credentials (Some "netops") false unprovisioned) as [r st1]
      eqn:Hrun.
    destruct r as [c|e].
    + discriminate Hrun.
    + simpl. f_equal. apply (Herr e eq_refl). split; [reflexivity|by left].
Defined.

End Credentials.

(** ** Output formatters: [format_output] of utils/output_formatters.py *)

Module Formatter.

Inductive exn :=
| ValueError (msg : string)
| OtherError (what : string).

(** What a call does to the file system, in order: a directory made, a
    file opened for writing (created or emptied), text written to it. *)
Inductive fs_event :=
| Mkdir (path : string)
| Truncate (path : string)
| Write (path content : string).

(** What the call meets: the clock, rendered as the default file name
    wants it, and the file system's answer to making a directory and to
    opening a file for writing ([None]: no error). *)
Record world := {
  stamp : string;
  mkdir_error : string -> option exn;
  open_error : string -> option exn
}.

Definition supported : list string := ["json"; "csv"; "html"; "excel"; "pdf"].

Definition is_file_event (ev : fs_event) : bool :=
  match ev with
  | Mkdir _ => false
  | Truncate _ | Write _ _ => true
  end.

Definition event_path (ev : fs_event) : string :=
  match ev with
  | Mkdir path | Truncate path | Write path _ => path
  end.

Section Format.

(** The payload and the renderings that libraries produce from it: the
    JSON dump, the CSV and Excel forms of the data frame, the page the
    HTML template gives. Each may raise. *)
Context {payload : Type}.
Variable json_dumps : payload -> result exn string.
Variable csv_text : payload -> result exn string.
Variable html_page : payload -> result exn string.
Variable excel_book : payload -> result exn string.

Definition outcome : Type := result exn string * list fs_event.

(** Render, then open the file and write. *)
Definition render_then_write (render : payload -> result exn string)
    (data : payload) (filepath : string) (w : world) : outcome :=
  match render data with
  | Err e => (Err e, [])
  | Ok content =>
      match open_error w filepath with
      | Some e => (Err e, [])
      | None => (Ok filepath, [Truncate filepath; Write filepath content])
      end
  end.

(** [_format_json] opens the file before it dumps. *)
Definition _format_json (data : payload) (filepath : string) (w : world)
  : outcome :=
  match open_error w filepath with
  | Some e => (Err e, [])
  | None =>
      match json_dumps data with
      | Err e => (Err e, [Truncate filepath])
      | Ok text => (Ok filepath, [Truncate filepath; Write filepath text])
      end
  end.

Definition _format_csv := render_then_write csv_text.

Definition _format_html := render_then_write html_page.

Definition _format_excel := render_then_write excel_book.

Definition _format_pdf (data : payload) (filepath : string) (w : world)
  : outcome :=
  match PyPath.with_suffix filepath ".html" with
  | None => (Err (ValueError "path has an empty name"), [])
  | Some html_path =>
      match _format_html data html_path w with
      | (Ok _, evs) => (Ok html_path, evs)
      | (Err e, evs) => (Err e, evs)
      end
  end.

(** The file name used: the one given, or [output_<stamp>]. *)
Definition base_name (filename : option string) (w : world) : string :=
  match filename with
  | Some f => if Py.truthy f then f else "output_" +:+ stamp w
  | None => "output_" +:+ stamp w
  end.

Definition dispatch (data : payload) (format_type : string)
    (output_path filename : string) (w : world) : outcome :=
  let kind := Py.lower format_type in
  if String.eqb kind "json" then
    _format_json data (PyPath.join output_path (filename +:+ ".json")) w
  else if String.eqb kind "csv" then
    _format_csv data (PyPath.join output_path (filename +:+ ".csv")) w
  else if String.eqb kind "html" then
    _format_html data (PyPath.join output_path (filename +:+ ".html")) w
  else if String.eqb kind "excel" then
    _format_excel data (PyPath.join output_path (filename +:+ ".xlsx")) w
  else if String.eqb kind "pdf" then
    _format_pdf data (PyPath.join output_path (filename +:+ ".pdf")) w
  else (Err (ValueError ("Unsupported format type: " +:+ format_type)), []).

Definition format_output (data : payload) (format_type : string)
    (filename : option string) (output_dir : string) (w : world) : outcome :=
  match mkdir_error w output_dir with
  | Some e => (Err e, [])
  | None =>
      let '(r, evs) :=
        dispatch data format_type output_dir (base_name filename w) w in
      (r, Mkdir output_dir :: evs)
  end.

(** *** Proofs *)

Lemma pdf_path_assoc (dir base : string) :
  PyPath.join dir (base +:+ ".pdf") = PyPath.join dir base +:+ ".pdf".
Proof. unfold PyPath.join. by rewrite !PyPath.app_assoc. Qed.

Lemma html_path_assoc (dir base : string) :
  PyPath.join dir (base +:+ ".html") = PyPath.join dir base +:+ ".html".
Proof. unfold PyPath.join. by rewrite !PyPath.app_assoc. Qed.

Lemma _format_html_path data filepath w r evs :
  _format_html data filepath w = (Ok r, evs) -> r = filepath.
Proof.
  unfold _format_html, render_then_write.
  destruct (html_page data); [|done].
  destruct (open_error w filepath); [done|]. by intros [= <- _].
Qed.

(** [_format_pdf] is [_format_html] on the path with its suffix
    exchanged. *)
Lemma _format_pdf_html data filepath html_path w :
  PyPath.with_suffix filepath ".html" = Some html_path ->
  _format_pdf data filepath w = _format_html data html_path w.
Proof.
  intros Hpath. unfold _format_pdf. rewrite Hpath.
  destruct (_format_html data html_path w) as [[r|e] evs] eqn:Hrun; [|done].
  by rewrite (_format_html_path _ _ _ _ _ Hrun).
Qed.

Lemma dispatch_pdf data output_path filename w :
  dispatch data "pdf" output_path filename w
    = _format_pdf data (PyPath.join output_path (filename +:+ ".pdf")) w.
Proof. reflexivity. Qed.

Lemma dispatch_html data output_path filename w :
  dispatch data "html" output_path filename w
    = _format_html data (PyPath.join output_path (filename +:+ ".html")) w.
Proof. reflexivity. Qed.

Lemma dispatch_unsupported data format_type output_path filename w :
  Py.lower format_type ∉ supported ->
  dispatch data format_type output_path filename w
    = (Err (ValueError ("Unsupported format type: " +:+ format_type)), []).
Proof.
  intros Hnot. unfold dispatch. cbv zeta.
  assert (Hne : forall k, k ∈ supported ->
                          String.eqb (Py.lower format_type) k = false).
  { intros k Hk. destruct (String.eqb_spec (Py.lower format_type) k) as [Heq|];
      [|done]. by rewrite <- Heq in Hk. }
  rewrite !Hne by (unfold supported; set_solver). reflexivity.
Qed.

(** The dispatch looks at the lower-cased format only. *)
Lemma dispatch_lower_pdf data format_type output_path filename w :
  Py.lower format_type = "pdf" ->
  dispatch data format_type output_path filename w
    = dispatch data "pdf" output_path filename w.
Proof. intros Hl. unfold dispatch. cbv zeta. by rewrite Hl. Qed.

End Format.

(** C8. For every payload, [format_output] with format [pdf] does what
    the HTML formatter does on the path whose suffix is [.html]: it
    writes the HTML rendering there and returns that path, and opens or
    writes no file whose name ends in [.pdf]. For every format outside
    json, csv, html, excel and pdf (compared in lower case; [xml] is
    one), it raises ValueError (InvalidInput) having opened and written
    no file. *)
Theorem format_output_pdf_and_unsupported {payload : Type}
    (json_dumps csv_text html_page excel_book : payload -> result exn string)
    (data : payload) (filename : option string) (output_dir : string)
    (w : world) :
  let run := format_output json_dumps csv_text html_page excel_book data in
  let base := base_name filename w in
  (mkdir_error w output_dir = None ->
   exists html_path,
     PyPath.with_suffix (PyPath.join output_dir (base +:+ ".pdf")) ".html"
       = Some html_path /\
     Py.ends_with ".html" html_path = true /\
     Py.ends_with ".pdf" html_path = false /\
     (PyPath.name (PyPath.join output_dir base) <> "" ->
      html_path = PyPath.join output_dir (base +:+ ".html")) /\
     run "pdf" filename output_dir w
       = (let '(r, evs) := _format_html html_page data html_path w in
          (r, Mkdir output_dir :: evs)) /\
     run "PDF" filename output_dir w = run "pdf" filename output_dir w /\
     (forall ev,
        ev ∈ (run "pdf" filename output_dir w).2 ->
        is_file_event ev = true -> event_path ev = html_path) /\
     (forall content,
        html_page data = Ok content ->
        open_error w html_path = None ->
        run "pdf" filename output_dir w
          = (Ok html_path,
             [Mkdir output_dir; Truncate html_path; Write html_path content])))
  /\
  (forall format_type,
     Py.lower format_type ∉ supported ->
     List.filter is_file_event (run format_type filename output_dir w).2 = [] /\
     (mkdir_error w output_dir = None ->
      run format_type filename output_dir w
        = (Err (ValueError ("Unsupported format type: " +:+ format_type)),
           [Mkdir output_dir])))
  /\
  (Py.lower "xml" ∉ supported) /\ (Py.lower "XML" ∉ supported).
Proof.
  intros run base. split; [|split].
  - intros Hmk.
    destruct (PyPath.with_suffix_pdf_any (PyPath.join output_dir base))
      as [stem Hstem].
    rewrite <- pdf_path_assoc in Hstem.
    exists (stem +:+ ".html").
    assert (Hrun : run "pdf" filename output_dir w
              = (let '(r, evs) := _format_html html_page data
                                    (stem +:+ ".html") w in
                 (r, Mkdir output_dir :: evs))).
    { unfold run, format_output. rewrite Hmk. fold base.
      rewrite dispatch_pdf. by rewrite (_format_pdf_html _ _ _ _ _ Hstem). }
    split; [done|]. split; [apply PyPath.ends_with_app|].
    split; [apply PyPath.ends_with_pdf_html|].
    split; [|split; [done|split; [|split]]].
    + intros Hname. rewrite pdf_path_assoc in Hstem.
      rewrite (PyPath.with_suffix_pdf _ Hname) in Hstem.
      injection Hstem as <-. by rewrite html_path_assoc.
    + unfold run, format_output. rewrite Hmk. fold base.
      by rewrite (dispatch_lower_pdf _ _ _ _ _ "PDF").
    + intros ev. rewrite Hrun. unfold _format_html, render_then_write.
      destruct (html_page data) as [content|e];
        [destruct (open_error w (stem +:+ ".html"))|]; simpl;
        rewrite ?elem_of_cons, ?elem_of_nil;
        intros Hev Hfile; repeat destruct Hev as [->|Hev]; done.
    + intros content Hpage Hopen. rewrite Hrun.
      unfold _format_html, render_then_write. by rewrite Hpage, Hopen.
  - intros format_type Hnot. unfold run, format_output.
    destruct (mkdir_error w output_dir) as [e|]; [done|].
    fold base. rewrite dispatch_unsupported by done. done.
  - change (Py.lower "xml") with "xml". change (Py.lower "XML") with "xml".
    unfold supported. rewrite !not_elem_of_cons.
    split; repeat (split; [done|]); apply not_elem_of_nil.
Qed.

(** A run on a file system that refuses nothing, with a payload of
    plain text and renderings that wrap it. *)
Definition willing : world :=
  {| stamp := "20250101_120000";
     mkdir_error := fun _ => None;
     open_error := fun _ => None |}.

Definition as_json (d : string) : result exn string := Ok ("{" +:+ d +:+ "}").

Definition as_page (d : string) : result exn string :=
  Ok ("<html>" +:+ d +:+ "</html>").

Lemma format_output_witness :
  format_output as_json as_json as_page as_json "up" "pdf"
      (Some "inventory") "output" willing
    = (Ok "output/inventory.html",
       [Mkdir "output"; Truncate "output/inventory.html";
        Write "output/inventory.html" "<html>up</html>"])
  /\
  format_output as_json as_json as_page as_json "up" "xml"
      (Some "inventory") "output" willing
    = (Err (ValueError "Unsupported format type: xml"), [Mkdir "output"]).
Proof.
  destruct (format_output_pdf_and_unsupported as_json as_json as_page as_json
              "up" (Some "inventory") "output" willing)
    as (Hpdf & Hbad & Hxml & _).
  split.
  - destruct (Hpdf eq_refl)
      as (html_path & _ & _ & _ & Hexact & _ & _ & _ & Hwrite).
    assert (Hpath : html_path = "output/inventory.html").
    { apply Hexact. vm_compute. discriminate. }
    subst html_path. apply Hwrite; reflexivity.
  - apply (Hbad "xml" Hxml). reflexivity.
Defined.

End Formatter.

(** ** Configuration: [load_config] of utils/common.py *)

Module Config.

(** What the YAML and JSON parsers raise on a file they cannot read.
    [json.JSONDecodeError] and [UnicodeDecodeError] are subclasses of
    ValueError; [yaml.YAMLError] is not; for anything else a library
    raises, [value_error] tells whether it is an instance of
    ValueError. *)
Inductive parse_error :=
| JSONDecodeError (msg : string)
| UnicodeDecodeError (msg : string)
| YAMLError (msg : string)
| LibraryError (value_error : bool) (msg : string).

(** [ValueError] is the error [load_config] itself raises for an
    unsupported extension (InvalidInput in the specification);
    [Raised] is what a parser raised, passed on unchanged; [OSError] is
    what [open] raises on a path it cannot read. *)
Inductive exn :=
| FileNotFoundError (msg : string)
| ValueError (msg : string)
| OSError (path : string)
| Raised (e : parse_error).

(** [isinstance(e, ValueError)] *)
Definition is_ValueError (e : exn) : bool :=
  match e with
  | ValueError _ => true
  | Raised (JSONDecodeError _) | Raised (UnicodeDecodeError _) => true
  | Raised (LibraryError value_error _) => value_error
  | Raised (YAMLError _) | FileNotFoundError _ | OSError _ => false
  end.

(** What a path names on disk. *)
Inductive entry :=
| File (content : string)
| Directory
| Unreadable.

Section Load.

(** The mapping a configuration file holds, and the two parsers on the
    content of a file. *)
Context {config : Type}.
Variable yaml_safe_load : string -> result parse_error config.
Variable json_load : string -> result parse_error config.

(** [Path.exists] *)
Definition path_exists (fs : gmap string entry) (path : string) : bool :=
  bool_decide (is_Some (fs !! path)).

(** [open(path, 'r')] *)
Definition open_read (fs : gmap string entry) (path : string)
  : result exn string :=
  match fs !! path with
  | Some (File content) => Ok content
  | Some Directory | Some Unreadable | None => Err (OSError path)
  end.

(** A call of a parser: what it raises leaves [load_config] as it is. *)
Definition parsed (r : result parse_error config) : result exn config :=
  match r with
  | Ok c => Ok c
  | Err e => Err (Raised e)
  end.

Definition load_config (config_file : string) (fs : gmap string entry)
  : result exn config :=
  if negb (path_exists fs config_file) then
    Err (FileNotFoundError ("Configuration file not found: " +:+ config_file))
  else
    match open_read fs config_file with
    | Err e => Err e
    | Ok f =>
        let suffix := PyPath.suffix config_file in
        if bool_decide (suffix ∈ [".yaml"; ".yml"]) then
          parsed (yaml_safe_load f)
        else if String.eqb suffix ".json" then
          parsed (json_load f)
        else
          Err (ValueError ("Unsupported configuration file format: " +:+ suffix))
    end.

Definition supported_suffix (path : string) : Prop :=
  PyPath.suffix path ∈ [".yaml"; ".yml"; ".json"].

(** *** Proofs *)

Lemma load_config_missing path fs :
  fs !! path = None ->
  load_config path fs
    = Err (FileNotFoundError ("Configuration file not found: " +:+ path)).
Proof.
  intros Hnone. unfold load_config, path_exists. rewrite Hnone.
  rewrite bool_decide_eq_false_2; [done|]. by intros [? ?].
Qed.

Lemma load_config_file path fs content :
  fs !! path = Some (File content) ->
  load_config path fs =
    if bool_decide (PyPath.suffix path ∈ [".yaml"; ".yml"]) then
      parsed (yaml_safe_load content)
    else if String.eqb (PyPath.suffix path) ".json" then
      parsed (json_load content)
    else
      Err (ValueError ("Unsupported configuration file format: "
                       +:+ PyPath.suffix path)).
Proof.
  intros Hfile. unfold load_config, path_exists, open_read. rewrite Hfile.
  rewrite bool_decide_eq_true_2 by eauto. reflexivity.
Qed.

Lemma supported_split (s : string) :
  s ∈ [".yaml"; ".yml"; ".json"] <-> s ∈ [".yaml"; ".yml"] \/ s = ".json".
Proof. rewrite !elem_of_cons, !elem_of_nil. tauto. Qed.

(** An error of [load_config] on a path that names something other
    than a file is the one [open] raises. *)
Lemma load_config_not_file path fs e :
  (forall content, fs !! path <> Some (File content)) ->
  load_config path fs = Err e ->
  is_ValueError e = false.
Proof.
  intros Hnot. destruct (fs !! path) as [[content| |]|] eqn:Hentry.
  - by destruct (Hnot content).
  - unfold load_config, path_exists, open_read. rewrite Hentry.
    rewrite bool_decide_eq_true_2 by eauto. by intros [= <-].
  - unfold load_config, path_exists, open_read. rewrite Hentry.
    rewrite bool_decide_eq_true_2 by eauto. by intros [= <-].
  - rewrite load_config_missing by done. by intros [= <-].
Qed.

Lemma load_config_value_error path fs msg :
  load_config path fs = Err (ValueError msg) ->
  (exists content, fs !! path = Some (File content)) /\
  ~ supported_suffix path /\
  msg = "Unsupported configuration file format: " +:+ PyPath.suffix path.
Proof.
  unfold supported_suffix. intros Hrun.
  destruct (fs !! path) as [[content| |]|] eqn:Hentry;
    [|by apply load_config_not_file in Hrun; [|by rewrite Hentry]..].
  revert Hrun. rewrite (load_config_file _ _ _ Hentry).
  case_bool_decide as Hyaml.
  { destruct (yaml_safe_load content); done. }
  destruct (String.eqb_spec (PyPath.suffix path) ".json") as [Hjson|Hjson].
  { destruct (json_load content); done. }
  intros [= <-]. split; [by exists content|]. split; [|done].
  rewrite supported_split. tauto.
Qed.

Lemma load_config_unsupported path fs content :
  fs !! path = Some (File content) ->
  ~ supported_suffix path ->
  load_config path fs
    = Err (ValueError ("Unsupported configuration file format: "
                       +:+ PyPath.suffix path)).
Proof.
  intros Hfile Hnot. rewrite (load_config_file _ _ _ Hfile).
  unfold supported_suffix in Hnot. rewrite supported_split in Hnot.
  rewrite bool_decide_eq_false_2 by tauto.
  destruct (String.eqb_spec (PyPath.suffix path) ".json") as [Hjson|]; [|done].
  tauto.
Qed.

(** Where an instance of ValueError comes from: the unsupported
    extension of an existing file, or the parser of an existing file
    with a supported extension. *)
Lemma load_config_value_error_class path fs e :
  load_config path fs = Err e ->
  is_ValueError e = true ->
  exists content,
    fs !! path = Some (File content) /\
    ((~ supported_suffix path /\
      e = ValueError ("Unsupported configuration file format: "
                      +:+ PyPath.suffix path)) \/
     (exists cause,
        e = Raised cause /\
        ((PyPath.suffix path ∈ [".yaml"; ".yml"] /\
          yaml_safe_load content = Err cause) \/
         (PyPath.suffix path = ".json" /\ json_load content = Err cause)))).
Proof.
  intros Hrun Hclass.
  destruct (fs !! path) as [[content| |]|] eqn:Hentry;
    [|apply load_config_not_file in Hrun; [congruence|by rewrite Hentry]..].
  exists content. split; [done|]. revert Hrun.
  rewrite (load_config_file _ _ _ Hentry).
  case_bool_decide as Hyaml.
  { destruct (yaml_safe_load content) as [c|cause] eqn:Hparse; [done|].
    intros [= <-]. right. exists cause. split; [done|]. by left. }
  destruct (String.eqb_spec (PyPath.suffix path) ".json") as [Hjson|Hjson].
  { destruct (json_load content) as [c|cause] eqn:Hparse; [done|].
    intros [= <-]. right. exists cause. split; [done|]. by right. }
  intros [= <-]. left. split; [|done].
  unfold supported_suffix. rewrite supported_split. tauto.
Qed.

End Load.

(** The last sentence of the claim, read as it stands, InvalidInput
    being the class ValueError: whenever [load_config] raises an
    instance of ValueError, the path names an existing file whose
    extension is none of [.yaml], [.yml], [.json]. *)
Definition value_error_only_for_unsupported_extension : Prop :=
  forall (config : Type)
         (yaml_safe_load json_load : string -> result parse_error config)
         (path : string) (fs : gmap string entry) (e : exn),
    load_config yaml_safe_load json_load path fs = Err e ->
    is_ValueError e = true ->
    (exists content, fs !! path = Some (File content)) /\
    ~ supported_suffix path.

(** A disk with a text file and a JSON file cut short after its first
    brace. *)
Definition two_files : gmap string entry :=
  {[ "config/notes.txt" := File "level: INFO";
     "config/broken.json" := File "{" ]}.

(** The JSON parser on the two texts it meets here: the empty object,
    and the lone brace, on which [json.load] raises JSONDecodeError. *)
Definition json_of_braces (text : string)
  : result parse_error (list string) :=
  if String.eqb text "{}" then Ok []
  else Err (JSONDecodeError
              "Expecting property name enclosed in double quotes: line 1 column 2 (char 1)").

Definition no_yaml (text : string) : result parse_error (list string) :=
  Err (YAMLError "no document").

Lemma broken_json_run :
  load_config no_yaml json_of_braces "config/broken.json" two_files
  = Err (Raised (JSONDecodeError
                   "Expecting property name enclosed in double quotes: line 1 column 2 (char 1)"))
  /\ PyPath.suffix "config/broken.json" = ".json".
Proof. split; reflexivity. Qed.

(** C10, as the specification words its last sentence: refuted. The
    file config/broken.json exists and has a supported extension, yet
    [load_config] raises JSONDecodeError on it, which is a
    ValueError. *)
Lemma malformed_json_raises_value_error :
  ~ value_error_only_for_unsupported_extension.
Proof.
  intros Hall. destruct broken_json_run as [Hrun Hsuffix].
  destruct (Hall _ no_yaml json_of_braces "config/broken.json" two_files _
              Hrun eq_refl) as [_ Hnot].
  apply Hnot. unfold supported_suffix. rewrite Hsuffix.
  by apply (bool_decide_unpack _).
Qed.

(** C10, amended. For every path that names nothing on disk,
    [load_config] raises FileNotFoundError (NotFound), whatever the
    extension: the test for existence comes first, so a missing [.txt]
    file gives NotFound and not InvalidInput. The ValueError
    (InvalidInput) that [load_config] raises itself is raised only for
    an existing file whose suffix is none of [.yaml], [.yml], [.json],
    and is raised for every such file. Any other instance of
    ValueError that leaves [load_config] was raised by the parser of
    an existing file with a supported suffix. *)
Theorem load_config_errors {config : Type}
    (yaml_safe_load json_load : string -> result parse_error config)
    (path : string) (fs : gmap string entry) :
  (fs !! path = None ->
   load_config yaml_safe_load json_load path fs
     = Err (FileNotFoundError ("Configuration file not found: " +:+ path)))
  /\
  (forall msg,
     load_config yaml_safe_load json_load path fs = Err (ValueError msg) ->
     (exists content, fs !! path = Some (File content)) /\
     ~ supported_suffix path)
  /\
  (forall content,
     fs !! path = Some (File content) ->
     ~ supported_suffix path ->
     exists msg,
       load_config yaml_safe_load json_load path fs = Err (ValueError msg))
  /\
  (forall e,
     load_config yaml_safe_load json_load path fs = Err e ->
     is_ValueError e = true ->
     exists content,
       fs !! path = Some (File content) /\
       ((~ supported_suffix path /\
         e = ValueError ("Unsupported configuration file format: "
                         +:+ PyPath.suffix path)) \/
        (exists cause,
           e = Raised cause /\
           ((PyPath.suffix path ∈ [".yaml"; ".yml"] /\
             yaml_safe_load content = Err cause) \/
            (PyPath.suffix path = ".json" /\
             json_load content = Err cause)))))
  /\
  PyPath.suffix "config/notes.txt" = ".txt" /\
  ~ supported_suffix "config/notes.txt".
Proof.
  split; [apply load_config_missing|]. split; [|split; [|split; [|split]]].
  - intros msg Hrun.
    destruct (load_config_value_error _ _ _ _ _ Hrun) as (Hfile & Hnot & _).
    done.
  - intros content Hfile Hnot. eexists.
    by apply (load_config_unsupported _ _ _ _ content).
  - apply load_config_value_error_class.
  - reflexivity.
  - unfold supported_suffix. change (PyPath.suffix "config/notes.txt") with ".txt".
    rewrite !not_elem_of_cons. repeat (split; [done|]). apply not_elem_of_nil.
Qed.

Lemma load_config_witness :
  load_config no_yaml json_of_braces "config/missing.txt" two_files
    = Err (FileNotFoundError
             "Configuration file not found: config/missing.txt")
  /\
  load_config no_yaml json_of_braces "config/notes.txt" two_files
    = Err (ValueError "Unsupported configuration file format: .txt")
  /\
  exists cause,
    load_config no_yaml json_of_braces "config/broken.json" two_files
      = Err (Raised cause) /\
    json_of_braces "{" = Err cause.
Proof.
  split; [|split].
  - apply (proj1 (load_config_errors no_yaml json_of_braces
                    "config/missing.txt" two_files)).
    reflexivity.
  - destruct (load_config_errors no_yaml json_of_braces "config/notes.txt"
                two_files) as (_ & Honly & Hall & _ & _ & Htxt).
    destruct (Hall "level: INFO" eq_refl Htxt) as [msg Hmsg].
    rewrite Hmsg. f_equal. f_equal.
    destruct (load_config_value_error _ _ _ _ _ Hmsg) as (_ & _ & ->).
    reflexivity.
  - destruct (load_config_errors no_yaml json_of_braces "config/broken.json"
                two_files) as (_ & _ & _ & Hclass & _).
    destruct broken_json_run as [Hrun _].
    destruct (Hclass _ Hrun eq_refl)
      as (content & Hfile & [[Hnot _]|(cause & Hcause & Hparser)]).
    + destruct Hnot. by apply (bool_decide_unpack _).
    + exists cause. split; [by rewrite Hrun, Hcause|].
      injection Hfile as <-.
      destruct Hparser as [[Hyaml _]|[_ Hjson]]; [|exact Hjson].
      by apply (bool_decide_pack _) in Hyaml.
Defined.

End Config.

(** ** Device types: utils/device_types.py *)

Module DeviceTypes.

Record DeviceCapabilities := {
  vendor : string;
  model : option string;
  version : option string;
  supports_enable_mode : bool;
  supports_config_mode : bool;
  supports_commit : bool;
  supports_rollback : bool;
  supports_archive : bool;
  supports_scp : bool;
  supports_https : bool;
  max_vlan_id : Z;
  features : list string;
  command_syntax : string
}.

(** A capability set that differs from the defaults in the fields the
    detector assigns. *)
Definition capabilities_of (vendor : string)
    (enable config commit rollback archive : bool) (syntax : string)
  : DeviceCapabilities :=
  {| vendor := vendor; model := None; version := None;
     supports_enable_mode := enable; supports_config_mode := config;
     supports_commit := commit; supports_rollback := rollback;
     supports_archive := archive; supports_scp := false;
     supports_https := false; max_vlan_id := 4094; features := [];
     command_syntax := syntax |}.

Definition _detect_capabilities (device_type version_output : string)
  : DeviceCapabilities :=
  if Py.str_in "cisco" device_type then
    if Py.str_in "IOS XR" version_output then
      capabilities_of "cisco" true true true true false "cisco"
    else if (Py.str_in "IOS" version_output
             || Py.str_in "IOS-XE" version_output)%bool then
      capabilities_of "cisco" true true false false true "cisco"
    else capabilities_of "cisco" true true false false false "cisco"
  else if String.eqb device_type "arista_eos" then
    capabilities_of "arista" true true false true false "cisco"
  else if String.eqb device_type "juniper_junos" then
    capabilities_of "juniper" true true true true false "junos"
  else if String.eqb device_type "linux" then
    capabilities_of "linux" false false false false false "linux"
  else capabilities_of device_type true true false false false "cisco".

Definition device_types : list string :=
  ["cisco_ios"; "cisco_xe"; "cisco_xr"; "cisco_nxos"; "cisco_asa";
   "arista_eos"; "juniper_junos"; "hp_procurve"; "hp_comware"; "fortinet";
   "paloalto_panos"; "vyos"; "linux"].

(** What a login attempt with one driver meets: no session, or a
    session with the answer to [show version] ([None]: the command
    raises) and whether the session closes cleanly. *)
Inductive login :=
| LoginFails
| LoggedIn (show_version : option string) (disconnects : bool).

(** The loop of [detect_device_type] over the candidate drivers. *)
Fixpoint detect_among (attempt : string -> login) (candidates : list string)
  : option (string * DeviceCapabilities) :=
  match candidates with
  | [] => None
  | device_type :: rest =>
      match attempt device_type with
      | LoggedIn output true =>
          Some (device_type,
                _detect_capabilities device_type (default "" output))
      | LoggedIn _ false | LoginFails => detect_among attempt rest
      end
  end.

Definition detect_device_type (attempt : string -> login)
  : option (string * DeviceCapabilities) :=
  detect_among attempt device_types.

Definition get_device_commands (vendor : string) : PyDict.t string :=
  if String.eqb vendor "cisco" then
    [("version", "show version"); ("interfaces", "show interfaces");
     ("inventory", "show inventory"); ("cpu", "show processes cpu sorted");
     ("memory", "show memory statistics"); ("config", "show running-config")]
  else if String.eqb vendor "arista" then
    [("version", "show version"); ("interfaces", "show interfaces");
     ("inventory", "show inventory"); ("cpu", "show processes top once");
     ("memory", "show version detail"); ("config", "show running-config")]
  else if String.eqb vendor "juniper" then
    [("version", "show version"); ("interfaces", "show interfaces terse");
     ("inventory", "show chassis hardware");
     ("cpu", "show chassis routing-engine");
     ("memory", "show chassis routing-engine");
     ("config", "show configuration")]
  else if String.eqb vendor "linux" then
    [("version", "uname -a"); ("interfaces", "ip addr show");
     ("inventory", "dmidecode -t system"); ("cpu", "top -bn1 | head -20");
     ("memory", "free -m"); ("config", "cat /etc/network/interfaces")]
  else [].

End DeviceTypes.

(** ** Device discovery: scripts/device_discovery.py *)

Module Discovery.

Record DeviceInfo := {
  ip_address : string;
  hostname : string;
  vendor : string;
  model : string;
  serial : string;
  os_version : string;
  device_type : string;
  role : string;
  location : string;
  uptime : string;
  management_ip : string;
  interfaces_count : Z;
  vlans_count : Z;
  mac_address : string;
  snmp_community : string;
  ssh_enabled : bool;
  telnet_enabled : bool;
  https_enabled : bool;
  discovery_method : string;
  last_seen : string;
  reachable : bool;
  response_time : Q;
  capabilities : option DeviceTypes.DeviceCapabilities
}.

(** [DeviceInfo(ip_address=ip, discovery_method=method)]: every other
    field at its default. *)
Definition new_device (ip method : string) : DeviceInfo :=
  {| ip_address := ip; hostname := ""; vendor := ""; model := "";
     serial := ""; os_version := ""; device_type := ""; role := "";
     location := ""; uptime := ""; management_ip := "";
     interfaces_count := 0; vlans_count := 0; mac_address := "";
     snmp_community := ""; ssh_enabled := false; telnet_enabled := false;
     https_enabled := false; discovery_method := method; last_seen := "";
     reachable := false; response_time := 0%Q; capabilities := None |}.

(** Assignment to one field of a record, one function a field. *)
Definition set_hostname (v : string) (d : DeviceInfo) : DeviceInfo :=
  {| ip_address := ip_address d; hostname := v; vendor := vendor d;
     model := model d; serial := serial d; os_version := os_version d;
     device_type := device_type d; role := role d; location := location d;
     uptime := uptime d; management_ip := management_ip d;
     interfaces_count := interfaces_count d; vlans_count := vlans_count d;
     mac_address := mac_address d; snmp_community := snmp_community d;
     ssh_enabled := ssh_enabled d; telnet_enabled := telnet_enabled d;
     https_enabled := https_enabled d;
     discovery_method := discovery_method d; last_seen := last_seen d;
     reachable := reachable d; response_time := response_time d;
     capabilities := capabilities d |}.

Definition set_vendor (v : string) (d : DeviceInfo) : DeviceInfo :=
  {| ip_address := ip_address d; hostname := hostname d; vendor := v;
     model := model d; serial := serial d; os_version := os_version d;
     device_type := device_type d; role := role d; location := location d;
     uptime := uptime d; management_ip := management_ip d;
     interfaces_count := interfaces_count d; vlans_count := vlans_count d;
     mac_address := mac_address d; snmp_community := snmp_community d;
     ssh_enabled := ssh_enabled d; telnet_enabled := telnet_enabled d;
     https_enabled := https_enabled d;
     discovery_method := discovery_method d; last_seen := last_seen d;
     reachable := reachable d; response_time := response_time d;
     capabilities := capabilities d |}.

Definition set_model (v : string) (d : DeviceInfo) : DeviceInfo :=
  {| ip_address := ip_address d; hostname := hostname d; vendor := vendor d;
     model := v; serial := serial d; os_version := os_version d;
     device_type := device_type d; role := role d; location := location d;
     uptime := uptime d; management_ip := management_ip d;
     interfaces_count := interfaces_count d; vlans_count := vlans_count d;
     mac_address := mac_address d; snmp_community := snmp_community d;
     ssh_enabled := ssh_enabled d; telnet_enabled := telnet_enabled d;
     https_enabled := https_enabled d;
     discovery_method := discovery_method d; last_seen := last_seen d;
     reachable := reachable d; response_time := response_time d;
     capabilities := capabilities d |}.

Definition set_serial (v : string) (d : DeviceInfo) : DeviceInfo :=
  {| ip_address := ip_address d; hostname := hostname d; vendor := vendor d;
     model := model d; serial := v; os_version := os_version d;
     device_type := device_type d; role := role d; location := location d;
     uptime := uptime d; management_ip := management_ip d;
     interfaces_count := interfaces_count d; vlans_count := vlans_count d;
     mac_address := mac_address d; snmp_community := snmp_community d;
     ssh_enabled := ssh_enabled d; telnet_enabled := telnet_enabled d;
     https_enabled := https_enabled d;
     discovery_method := discovery_method d; last_seen := last_seen d;
     reachable := reachable d; response_time := response_time d;
     capabilities := capabilities d |}.

Definition set_os_version (v : string) (d : DeviceInfo) : DeviceInfo :=
  {| ip_address := ip_address d; hostname := hostname d; vendor := vendor d;
     model := model d; serial := serial d; os_version := v;
     device_type := device_type d; role := role d; location := location d;
     uptime := uptime d; management_ip := management_ip d;
     interfaces_count := interfaces_count d; vlans_count := vlans_count d;
     mac_address := mac_address d; snmp_community := snmp_community d;
     ssh_enabled := ssh_enabled d; telnet_enabled := telnet_enabled d;
     https_enabled := https_enabled d;
     discovery_method := discovery_method d; last_seen := last_seen d;
     reachable := reachable d; response_time := response_time d;
     capabilities := capabilities d |}.

Definition set_device_type (v : string) (d : DeviceInfo) : DeviceInfo :=
  {| ip_address := ip_address d; hostname := hostname d; vendor := vendor d;
     model := model d; serial := serial d; os_version := os_version d;
     device_type := v; role := role d; location := location d;
     uptime := uptime d; management_ip := management_ip d;
     interfaces_count := interfaces_count d; vlans_count := vlans_count d;
     mac_address := mac_address d; snmp_community := snmp_community d;
     ssh_enabled := ssh_enabled d; telnet_enabled := telnet_enabled d;
     https_enabled := https_enabled d;
     discovery_method := discovery_method d; last_seen := last_seen d;
     reachable := reachable d; response_time := response_time d;
     capabilities := capabilities d |}.

Definition set_role (v : string) (d : DeviceInfo) : DeviceInfo :=
  {| ip_address := ip_address d; hostname := hostname d; vendor := vendor d;
     model := model d; serial := serial d; os_version := os_version d;
     device_type := device_type d; role := v; location := location d;
     uptime := uptime d; management_ip := management_ip d;
     interfaces_count := interfaces_count d; vlans_count := vlans_count d;
     mac_address := mac_address d; snmp_community := snmp_community d;
     ssh_enabled := ssh_enabled d; telnet_enabled := telnet_enabled d;
     https_enabled := https_enabled d;
     discovery_method := discovery_method d; last_seen := last_seen d;
     reachable := reachable d; response_time := response_time d;
     capabilities := capabilities d |}.

Definition set_location (v : string) (d : DeviceInfo) : DeviceInfo :=
  {| ip_address := ip_address d; hostname := hostname d; vendor := vendor d;
     model := model d; serial := serial d; os_version := os_version d;
     device_type := device_type d; role := role d; location := v;
     uptime := uptime d; management_ip := management_ip d;
     interfaces_count := interfaces_count d; vlans_count := vlans_count d;
     mac_address := mac_address d; snmp_community := snmp_community d;
     ssh_enabled := ssh_enabled d; telnet_enabled := telnet_enabled d;
     https_enabled := https_enabled d;
     discovery_method := discovery_method d; last_seen := last_seen d;
     reachable := reachable d; response_time := response_time d;
     capabilities := capabilities d |}.

Definition set_uptime (v : string) (d : DeviceInfo) : DeviceInfo :=
  {| ip_address := ip_address d; hostname := hostname d; vendor := vendor d;
     model := model d; serial := serial d; os_version := os_version d;
     device_type := device_type d; role := role d; location := location d;
     uptime := v; management_ip := management_ip d;
     interfaces_count := interfaces_count d; vlans_count := vlans_count d;
     mac_address := mac_address d; snmp_community := snmp_community d;
     ssh_enabled := ssh_enabled d; telnet_enabled := telnet_enabled d;
     https_enabled := https_enabled d;
     discovery_method := discovery_method d; last_seen := last_seen d;
     reachable := reachable d; response_time := response_time d;
     capabilities := capabilities d |}.

Definition set_interfaces_count (v : Z) (d : DeviceInfo) : DeviceInfo :=
  {| ip_address := ip_address d; hostname := hostname d; vendor := vendor d;
     model := model d; serial := serial d; os_version := os_version d;
     device_type := device_type d; role := role d; location := location d;
     uptime := uptime d; management_ip := management_ip d;
     interfaces_count := v; vlans_count := vlans_count d;
     mac_address := mac_address d; snmp_community := snmp_community d;
     ssh_enabled := ssh_enabled d; telnet_enabled := telnet_enabled d;
     https_enabled := https_enabled d;
     discovery_method := discovery_method d; last_seen := last_seen d;
     reachable := reachable d; response_time := response_time d;
     capabilities := capabilities d |}.

Definition set_snmp_community (v : string) (d : DeviceInfo) : DeviceInfo :=
  {| ip_address := ip_address d; hostname := hostname d; vendor := vendor d;
     model := model d; serial := serial d; os_version := os_version d;
     device_type := device_type d; role := role d; location := location d;
     uptime := uptime d; management_ip := management_ip d;
     interfaces_count := interfaces_count d; vlans_count := vlans_count d;
     mac_address := mac_address d; snmp_community := v;
     ssh_enabled := ssh_enabled d; telnet_enabled := telnet_enabled d;
     https_enabled := https_enabled d;
     discovery_method := discovery_method d; last_seen := last_seen d;
     reachable := reachable d; response_time := response_time d;
     capabilities := capabilities d |}.

Definition set_ssh_enabled (v : bool) (d : DeviceInfo) : DeviceInfo :=
  {| ip_address := ip_address d; hostname := hostname d; vendor := vendor d;
     model := model d; serial := serial d; os_version := os_version d;
     device_type := device_type d; role := role d; location := location d;
     uptime := uptime d; management_ip := management_ip d;
     interfaces_count := interfaces_count d; vlans_count := vlans_count d;
     mac_address := mac_address d; snmp_community := snmp_community d;
     ssh_enabled := v; telnet_enabled := telnet_enabled d;
     https_enabled := https_enabled d;
     discovery_method := discovery_method d; last_seen := last_seen d;
     reachable := reachable d; response_time := response_time d;
     capabilities := capabilities d |}.

Definition set_telnet_enabled (v : bool) (d : DeviceInfo) : DeviceInfo :=
  {| ip_address := ip_address d; hostname := hostname d; vendor := vendor d;
     model := model d; serial := serial d; os_version := os_version d;
     device_type := device_type d; role := role d; location := location d;
     uptime := uptime d; management_ip := management_ip d;
     interfaces_count := interfaces_count d; vlans_count := vlans_count d;
     mac_address := mac_address d; snmp_community := snmp_community d;
     ssh_enabled := ssh_enabled d; telnet_enabled := v;
     https_enabled := https_enabled d;
     discovery_method := discovery_method d; last_seen := last_seen d;
     reachable := reachable d; response_time := response_time d;
     capabilities := capabilities d |}.

Definition set_https_enabled (v : bool) (d : DeviceInfo) : DeviceInfo :=
  {| ip_address := ip_address d; hostname := hostname d; vendor := vendor d;
     model := model d; serial := serial d; os_version := os_version d;
     device_type := device_type d; role := role d; location := location d;
     uptime := uptime d; management_ip := management_ip d;
     interfaces_count := interfaces_count d; vlans_count := vlans_count d;
     mac_address := mac_address d; snmp_community := snmp_community d;
     ssh_enabled := ssh_enabled d; telnet_enabled := telnet_enabled d;
     https_enabled := v; discovery_method := discovery_method d;
     last_seen := last_seen d; reachable := reachable d;
     response_time := response_time d; capabilities := capabilities d |}.

Definition set_last_seen (v : string) (d : DeviceInfo) : DeviceInfo :=
  {| ip_address := ip_address d; hostname := hostname d; vendor := vendor d;
     model := model d; serial := serial d; os_version := os_version d;
     device_type := device_type d; role := role d; location := location d;
     uptime := uptime d; management_ip := management_ip d;
     interfaces_count := interfaces_count d; vlans_count := vlans_count d;
     mac_address := mac_address d; snmp_community := snmp_community d;
     ssh_enabled := ssh_enabled d; telnet_enabled := telnet_enabled d;
     https_enabled := https_enabled d;
     discovery_method := discovery_method d; last_seen := v;
     reachable := reachable d; response_time := response_time d;
     capabilities := capabilities d |}.

Definition set_reachable (v : bool) (d : DeviceInfo) : DeviceInfo :=
  {| ip_address := ip_address d; hostname := hostname d; vendor := vendor d;
     model := model d; serial := serial d; os_version := os_version d;
     device_type := device_type d; role := role d; location := location d;
     uptime := uptime d; management_ip := management_ip d;
     interfaces_count := interfaces_count d; vlans_count := vlans_count d;
     mac_address := mac_address d; snmp_community := snmp_community d;
     ssh_enabled := ssh_enabled d; telnet_enabled := telnet_enabled d;
     https_enabled := https_enabled d;
     discovery_method := discovery_method d; last_seen := last_seen d;
     reachable := v; response_time := response_time d;
     capabilities := capabilities d |}.

Definition set_response_time (v : Q) (d : DeviceInfo) : DeviceInfo :=
  {| ip_address := ip_address d; hostname := hostname d; vendor := vendor d;
     model := model d; serial := serial d; os_version := os_version d;
     device_type := device_type d; role := role d; location := location d;
     uptime := uptime d; management_ip := management_ip d;
     interfaces_count := interfaces_count d; vlans_count := vlans_count d;
     mac_address := mac_address d; snmp_community := snmp_community d;
     ssh_enabled := ssh_enabled d; telnet_enabled := telnet_enabled d;
     https_enabled := https_enabled d;
     discovery_method := discovery_method d; last_seen := last_seen d;
     reachable := reachable d; response_time := v;
     capabilities := capabilities d |}.

Definition set_capabilities (v : option DeviceTypes.DeviceCapabilities) (d : DeviceInfo) : DeviceInfo :=
  {| ip_address := ip_address d; hostname := hostname d; vendor := vendor d;
     model := model d; serial := serial d; os_version := os_version d;
     device_type := device_type d; role := role d; location := location d;
     uptime := uptime d; management_ip := management_ip d;
     interfaces_count := interfaces_count d; vlans_count := vlans_count d;
     mac_address := mac_address d; snmp_community := snmp_community d;
     ssh_enabled := ssh_enabled d; telnet_enabled := telnet_enabled d;
     https_enabled := https_enabled d;
     discovery_method := discovery_method d; last_seen := last_seen d;
     reachable := reachable d; response_time := response_time d;
     capabilities := v |}.

(** *** What the network answers *)

Inductive probe_result :=
| Probed (connected : bool) (milliseconds : Q)
| ProbeRaises.

Inductive snmp_reply :=
| SnmpValue (text : string)
| SnmpError
| SnmpRaises.

(** [datetime.now()] *)
Record datetime := {
  year : Z;
  month : Z;
  day : Z;
  hour : Z;
  minute : Z;
  second : Z;
  microsecond : Z
}.

(** The world one address is discovered in: the TCP probe of port 22,
    the port scan, the SNMP agent (by community and OID), the SSH side
    (a login by driver, user and password; the pooled connection, none
    when opening it raises; the answer to a command, none when it
    raises; whether the session closes cleanly), and the clock when
    the record of an address is stamped. *)
Record world := {
  probe : string -> probe_result;
  port_open : string -> Z -> bool;
  snmp_get : string -> string -> string -> snmp_reply;
  ssh_login : string -> option string -> string -> string -> DeviceTypes.login;
  create_connection : string -> string -> bool;
  send_command : string -> string -> option string;
  disconnect : string -> bool;
  now : string -> datetime
}.

(** *** Text *)

(** A number in at least [width] digits, as [%0<width>d] prints it. *)
Fixpoint zeros (n : nat) : string :=
  match n with
  | O => ""
  | S n' => "0" +:+ zeros n'
  end.

Definition padded (width : nat) (x : Z) : string :=
  let s := pretty x in
  zeros (width - String.length s) +:+ s.

(** [dt.isoformat()] *)
Definition isoformat (dt : datetime) : string :=
  padded 4 (year dt) +:+ "-" +:+ padded 2 (month dt) +:+ "-"
  +:+ padded 2 (day dt) +:+ "T" +:+ padded 2 (hour dt) +:+ ":"
  +:+ padded 2 (minute dt) +:+ ":" +:+ padded 2 (second dt)
  +:+ (if microsecond dt =? 0 then "" else "." +:+ padded 6 (microsecond dt)).

Definition parse_snmp_description (description : string) : string * string :=
  let description := Py.lower description in
  let has x := Py.str_in x description in
  if has "cisco" then
    ("Cisco",
     if has "catalyst" then "Catalyst"
     else if has "nexus" then "Nexus"
     else if has "asr" then "ASR"
     else if has "isr" then "ISR"
     else "Unknown")
  else if (has "arista" || has "eos")%bool then ("Arista", "EOS Switch")
  else if (has "juniper" || has "junos")%bool then
    ("Juniper",
     if has "ex" then "EX Series"
     else if has "qfx" then "QFX Series"
     else if has "mx" then "MX Series"
     else "Unknown")
  else if (has "hp" || has "hewlett")%bool then
    ("HP",
     if has "procurve" then "ProCurve"
     else if has "aruba" then "Aruba"
     else "Unknown")
  else if has "dell" then ("Dell", "PowerConnect")
  else ("Unknown", "Unknown").

Definition format_uptime (ticks : Z) : string :=
  let seconds := ticks / 100 in
  let days := seconds / 86400 in
  let hours := (seconds mod 86400) / 3600 in
  let minutes := (seconds mod 3600) / 60 in
  if 0 <? days then
    pretty days +:+ "d " +:+ pretty hours +:+ "h " +:+ pretty minutes +:+ "m"
  else if 0 <? hours then
    pretty hours +:+ "h " +:+ pretty minutes +:+ "m"
  else pretty minutes +:+ "m".

Definition determine_device_role (device_info : DeviceInfo) : string :=
  if 48 <? interfaces_count device_info then "core"
  else if 24 <? interfaces_count device_info then "distribution"
  else if 0 <? interfaces_count device_info then "access"
  else "unknown".

(** *** The discovery object *)

Record DeviceDiscovery := {
  max_workers : Z;
  timeout : Z;
  snmp_communities : list string;
  common_ports : list Z;
  discovered_devices : PyDict.t DeviceInfo;
  known_devices : PyDict.t DeviceInfo;
  inventory_file : string
}.

Definition is_host_reachable (w : world) (ip : string) : bool * Q :=
  match probe w ip with
  | Probed connected ms => (connected, ms)
  | ProbeRaises => (false, 0%Q)
  end.

Definition scan_ports (self : DeviceDiscovery) (w : world) (ip : string)
  : gmap Z bool :=
  list_to_map ((fun port => (port, port_open w ip port)) <$> common_ports self).

(** [open_ports.get(port, False)] *)
Definition port_is_open (open_ports : gmap Z bool) (port : Z) : bool :=
  default false (open_ports !! port).

(** *** SNMP *)

Definition oids : list (string * string) :=
  [("sysDescr", "1.3.6.1.2.1.1.1.0"); ("sysName", "1.3.6.1.2.1.1.5.0");
   ("sysUpTime", "1.3.6.1.2.1.1.3.0"); ("sysContact", "1.3.6.1.2.1.1.4.0");
   ("sysLocation", "1.3.6.1.2.1.1.6.0")].

(** What one value does to the record; [None] when [int(value)]
    raises. *)
Definition store_value (name value : string) (d : DeviceInfo)
  : option DeviceInfo :=
  if String.eqb name "sysDescr" then
    let '(vendor, model) := parse_snmp_description value in
    Some (set_model model (set_vendor vendor (set_os_version value d)))
  else if String.eqb name "sysName" then Some (set_hostname value d)
  else if String.eqb name "sysLocation" then Some (set_location value d)
  else if String.eqb name "sysUpTime" then
    ticks ← Py.int_of_string value;
    Some (set_uptime (format_uptime ticks) d)
  else Some d.

(** The loop over the OIDs for one community; [None] when something
    raises, which abandons the community. *)
Fixpoint query_oids (get : string -> snmp_reply) (l : list (string * string))
    (d : DeviceInfo) : option DeviceInfo :=
  match l with
  | [] => Some d
  | (name, oid) :: rest =>
      match get oid with
      | SnmpRaises => None
      | SnmpError => query_oids get rest d
      | SnmpValue value => store_value name value d ≫= query_oids get rest
      end
  end.

Fixpoint snmp_try (w : world) (ip : string) (communities : list string)
  : option DeviceInfo :=
  match communities with
  | [] => None
  | community :: rest =>
      let device_info := set_snmp_community community (new_device ip "SNMP") in
      match query_oids (snmp_get w ip community) oids device_info with
      | Some device_info =>
          if Py.truthy (vendor device_info)
          then Some (set_reachable true device_info)
          else snmp_try w ip rest
      | None => snmp_try w ip rest
      end
  end.

(** The body of [snmp_discovery], before the decorator. *)
Definition snmp_discovery_body (self : DeviceDiscovery) (w : world)
    (ip : string) : option DeviceInfo :=
  snmp_try w ip (snmp_communities self).

(** A function that catches every exception itself, under
    [@retry_on_failure(max_attempts, delay)]: nothing it raises reaches
    the wrapper. *)
Definition nothing_raised (e : Empty_set) : bool := match e with end.

Definition decorated {A : Type} (max_attempts : Z) (delay : Q)
    (body : option A) : option A :=
  match Retry.wrapper Qmult max_attempts delay 2%Q nothing_raised
          (fun _ => Retry.Return body) with
  | Some (Retry.Returned r, _) => r
  | Some (Retry.ReturnedNone, _) | Some (Retry.Raised _, _) | None => None
  end.

Definition snmp_discovery (self : DeviceDiscovery) (w : world) (ip : string)
  : option DeviceInfo :=
  decorated 3 1%Q (snmp_discovery_body self w ip).

(** *** SSH *)

(** The value a loop over lines returns at the first line that gives
    one, or the value after the loop. *)
Fixpoint first_line (pick : string -> option string) (lines : list string)
    (otherwise : string) : string :=
  match lines with
  | [] => otherwise
  | line :: rest =>
      match pick line with
      | Some found => found
      | None => first_line pick rest otherwise
      end
  end.

(** [line.split(':')[1].strip()] *)
Definition after_colon (line : string) : string :=
  Py.strip (nth 1 (Py.split ":" line) "").

Definition parse_version_output (output vendor : string) : string :=
  let lines := Py.lines (Py.lower output) in
  let vendor := Py.lower vendor in
  if String.eqb vendor "cisco" then
    first_line
      (fun line =>
         if (Py.str_in "version" line
             && (Py.str_in "ios" line || Py.str_in "nx-os" line))%bool
         then Some (Py.strip line) else None)
      lines "Unknown"
  else if String.eqb vendor "arista" then
    first_line
      (fun line =>
         if Py.str_in "software image version" line
         then Some (if Py.char_in ":" line then after_colon line
                    else Py.strip line)
         else None)
      lines "Unknown"
  else if String.eqb vendor "juniper" then
    first_line
      (fun line =>
         if (Py.str_in "junos" line && Py.str_in "version" line)%bool
         then Some (Py.strip line) else None)
      lines "Unknown"
  else "Unknown".

Definition parse_hostname (output vendor : string) : string :=
  let vendor := Py.lower vendor in
  first_line
    (fun line =>
       let line := Py.strip line in
       if String.eqb vendor "cisco" then
         if Py.ends_with " uptime is" line
         then Some (Py.before " uptime is" line) else None
       else if String.eqb vendor "arista" then
         if Py.str_in "hostname" (Py.lower line)
         then Some (if Py.char_in ":" line then after_colon line else "")
         else None
       else None)
    (Py.lines output) "".

Definition parse_model (output vendor : string) : string :=
  let lines := Py.lines (Py.lower output) in
  let vendor := Py.lower vendor in
  if String.eqb vendor "cisco" then
    first_line
      (fun line =>
         if (Py.str_in "cisco" line
             && (Py.str_in "catalyst" line || Py.str_in "nexus" line
                 || Py.str_in "asr" line))%bool
         then Some (Py.strip line) else None)
      lines "Unknown"
  else if String.eqb vendor "arista" then
    first_line
      (fun line =>
         if Py.str_in "hardware version" line
         then Some (if Py.char_in ":" line then after_colon line else "")
         else None)
      lines "Unknown"
  else "Unknown".

(** The inner loop of [parse_serial]: the word after the first word
    that names the serial and has a word after it. *)
Fixpoint word_after_serial (parts : list string) : option string :=
  match parts with
  | part :: ((next :: _) as rest) =>
      if Py.str_in "serial" (Py.lower part)
      then Some (Py.strip_chars ":" next)
      else word_after_serial rest
  | _ => None
  end.

Definition parse_serial (output vendor : string) : string :=
  first_line
    (fun line =>
       let line_lower := Py.lower line in
       if (Py.str_in "serial" line_lower && Py.str_in "number" line_lower)%bool
       then word_after_serial (Py.words line)
       else None)
    (Py.lines output) "".

Definition starts_with_any (prefixes : list string) (line : string) : bool :=
  existsb (fun prefix => String.prefix prefix line) prefixes.

Definition count_interfaces (output vendor : string) : Z :=
  let vendor := Py.lower vendor in
  fold_left
    (fun count line =>
       let line := Py.strip line in
       if negb (Py.truthy line) then count
       else if String.eqb vendor "cisco" then
         if starts_with_any ["GigabitEthernet"; "FastEthernet";
                             "TenGigabitEthernet"; "Ethernet"] line
         then count + 1 else count
       else if String.eqb vendor "arista" then
         if String.prefix "Ethernet" line then count + 1 else count
       else if String.eqb vendor "juniper" then
         if starts_with_any ["ge-"; "xe-"; "et-"] line
         then count + 1 else count
       else count)
    (Py.lines output) 0.

Section Discover.

(** The text of IPv6 addresses (see [IpAddress]). *)
Variable parse_ipv6 : string -> option Z.
Variable parse_ipv6_network : string -> option (Z * Z).
Variable str_ipv6 : Z -> string.

(** The part of [ssh_discovery] that talks to the device once its type
    is known; [None] when a step raises. *)
Definition ssh_collect (w : world) (ip device_type : string)
    (capabilities : DeviceTypes.DeviceCapabilities) : option DeviceInfo :=
  if negb (create_connection w ip device_type) then None
  else
    let device_info := new_device ip "SSH" in
    let device_info := set_device_type device_type device_info in
    let device_info := set_capabilities (Some capabilities) device_info in
    let device_info := set_ssh_enabled true device_info in
    let device_info := set_reachable true device_info in
    let vendor := DeviceTypes.vendor capabilities in
    let commands := DeviceTypes.get_device_commands vendor in
    device_info ←
      match PyDict.get "version" commands with
      | Some command =>
          output ← send_command w ip command;
          let d := set_os_version (parse_version_output output vendor) device_info in
          let d := set_hostname (parse_hostname output vendor) d in
          let d := set_model (parse_model output vendor) d in
          let d := set_serial (parse_serial output vendor) d in
          Some (set_vendor vendor d)
      | None => Some device_info
      end;
    device_info ←
      match PyDict.get "interfaces" commands with
      | Some command =>
          output ← send_command w ip command;
          Some (set_interfaces_count (count_interfaces output vendor) device_info)
      | None => Some device_info
      end;
    let device_info := set_role (determine_device_role device_info) device_info in
    if disconnect w ip then Some device_info else None.

(** The body of [ssh_discovery], before the decorator; it reads and
    fills the credential cache. *)
Definition ssh_discovery_body (self : DeviceDiscovery) (w : world)
    (ip : string) (creds : Credentials.state)
  : option DeviceInfo * Credentials.state :=
  match Credentials.get_credentials None true creds with
  | (Err _, creds') => (None, creds')
  | (Ok credentials, creds') =>
      let attempt :=
        ssh_login w ip (Credentials.username credentials)
                  (Credentials.password credentials) in
      match DeviceTypes.detect_device_type attempt with
      | None => (None, creds')
      | Some (device_type, capabilities) =>
          (ssh_collect w ip device_type capabilities, creds')
      end
  end.

Definition ssh_discovery (self : DeviceDiscovery) (w : world) (ip : string)
    (creds : Credentials.state) : option DeviceInfo * Credentials.state :=
  let '(r, creds') := ssh_discovery_body self w ip creds in
  (decorated 2 2%Q r, creds').

(** *** One address *)

(** The four assignments made to a record before it is returned. *)
Definition stamp (w : world) (ip : string) (response_time : Q)
    (open_ports : gmap Z bool) (device_info : DeviceInfo) : DeviceInfo :=
  let device_info := set_response_time response_time device_info in
  let device_info := set_last_seen (isoformat (now w ip)) device_info in
  let device_info := set_https_enabled (port_is_open open_ports 443) device_info in
  set_telnet_enabled (port_is_open open_ports 23) device_info.

Definition discover_single_device (self : DeviceDiscovery) (w : world)
    (ip : string) (creds : Credentials.state)
  : option DeviceInfo * Credentials.state :=
  let '(reachable, response_time) := is_host_reachable w ip in
  if negb reachable then (None, creds)
  else
    let open_ports := scan_ports self w ip in
    let by_snmp :=
      if port_is_open open_ports 161 then snmp_discovery self w ip else None in
    match by_snmp with
    | Some device_info =>
        (Some (stamp w ip response_time open_ports device_info), creds)
    | None =>
        if port_is_open open_ports 22 then
          let '(by_ssh, creds') := ssh_discovery self w ip creds in
          (stamp w ip response_time open_ports <$> by_ssh, creds')
        else (None, creds)
    end.

(** *** Ranges *)

(** [str(ip)] *)
Definition address_text : IpAddress.address -> string :=
  IpAddress.str str_ipv6.

(** The [while current <= end] loop on the list [all_ips]; the flag
    says whether the loop ended by raising (the comparison of two
    versions, or the step past the last address). [None] only when the
    fuel runs out. *)
Fixpoint range_loop (fuel : nat) (current last : IpAddress.address)
    (all_ips : list string) : option (list string * bool) :=
  match fuel with
  | O => None
  | S fuel' =>
      match IpAddress.le current last with
      | None => Some (all_ips, true)
      | Some false => Some (all_ips, false)
      | Some true =>
          let all_ips := all_ips ++ [address_text current] in
          match IpAddress.succ current with
          | None => Some (all_ips, true)
          | Some next => range_loop fuel' next last all_ips
          end
      end
  end.

Definition range_fuel (first last : IpAddress.address) : nat :=
  S (Z.to_nat (IpAddress.value last - IpAddress.value first + 1)).

(** One pass of the loop over [ip_ranges]: the list [all_ips] after
    the token, and whether an error was logged for it. *)
Definition expand_token (all_ips : list string) (ip_range : string)
  : list string * bool :=
  if Py.char_in "/" ip_range then
    match IpAddress.ip_network parse_ipv6_network ip_range with
    | Some network =>
        (all_ips ++ (address_text <$> IpAddress.hosts network), false)
    | None => (all_ips, true)
    end
  else if Py.char_in "-" ip_range then
    match Py.split "-" ip_range with
    | [start_ip; end_ip] =>
        match IpAddress.ip_address parse_ipv6 (Py.strip start_ip),
              IpAddress.ip_address parse_ipv6 (Py.strip end_ip) with
        | Some first, Some last =>
            match range_loop (range_fuel first last) first last all_ips with
            | Some r => r
            | None => (all_ips, true)
            end
        | _, _ => (all_ips, true)
        end
    | _ => (all_ips, true)
    end
  else (all_ips ++ [ip_range], false).

(** The whole loop: the addresses to scan and the tokens for which an
    error was logged. *)
Definition expand_ranges (ip_ranges : list string) : list string * list string :=
  fold_left
    (fun '(all_ips, invalid) ip_range =>
       let '(all_ips, failed) := expand_token all_ips ip_range in
       (all_ips, if failed then invalid ++ [ip_range] else invalid))
    ip_ranges ([], []).

(** *** The scan *)

(** [ip in self.known_devices] *)
Definition is_known (self : DeviceDiscovery) (ip : string) : bool :=
  bool_decide (ip ∈ PyDict.keys (known_devices self)).

(** The worker pool, with the tasks finishing in the order they were
    submitted: the dictionary [discovered]. *)
Fixpoint scan (self : DeviceDiscovery) (w : world) (all_ips : list string)
    (discovered : PyDict.t DeviceInfo) (creds : Credentials.state)
  : PyDict.t DeviceInfo * Credentials.state :=
  match all_ips with
  | [] => (discovered, creds)
  | ip :: rest =>
      let '(found, creds) := discover_single_device self w ip creds in
      let discovered :=
        match found with
        | Some device_info => PyDict.set ip device_info discovered
        | None => discovered
        end in
      scan self w rest discovered creds
  end.

Definition with_discovered (self : DeviceDiscovery)
    (discovered : PyDict.t DeviceInfo) : DeviceDiscovery :=
  {| max_workers := max_workers self; timeout := timeout self;
     snmp_communities := snmp_communities self;
     common_ports := common_ports self;
     discovered_devices := PyDict.update (discovered_devices self) discovered;
     known_devices := known_devices self;
     inventory_file := inventory_file self |}.

Definition discover_network (self : DeviceDiscovery) (w : world)
    (ip_ranges : list string) (incremental : bool) (creds : Credentials.state)
  : PyDict.t DeviceInfo * DeviceDiscovery * Credentials.state :=
  let all_ips := (expand_ranges ip_ranges).1 in
  let all_ips :=
    if incremental
    then List.filter (fun ip => negb (is_known self ip)) all_ips
    else all_ips in
  let '(discovered, creds) := scan self w all_ips [] creds in
  (discovered, with_discovered self discovered, creds).

End Discover.

(** *** Inventory and summary *)

Record export_data := {
  generated_at : string;
  total_devices : Z;
  export_method : string;
  export_version : string;
  devices : list DeviceInfo
}.

(** [{**self.known_devices, **self.discovered_devices}] *)
Definition all_devices (self : DeviceDiscovery) : PyDict.t DeviceInfo :=
  PyDict.merge (known_devices self) (discovered_devices self).

Definition inventory (self : DeviceDiscovery) (generated : string)
  : export_data :=
  let device_list := PyDict.values (all_devices self) in
  {| generated_at := generated;
     total_devices := Z.of_nat (length device_list);
     export_method := "network_discovery";
     export_version := "1.0";
     devices := device_list |}.

(** [os.path.dirname] *)
Fixpoint dirname (p : string) : string :=
  match p with
  | EmptyString => EmptyString
  | String c p' =>
      if Py.char_in "/" p' then String c (dirname p') else EmptyString
  end.

Section Save.

(** The renderings of the exported data (see [Formatter]). *)
Variable json_dumps : export_data -> result Formatter.exn string.
Variable csv_text : export_data -> result Formatter.exn string.
Variable html_page : export_data -> result Formatter.exn string.
Variable excel_book : export_data -> result Formatter.exn string.

(** The loop over the requested formats: a format that fails is logged
    and passed over. *)
Fixpoint save_formats (data : export_data) (fw : Formatter.world)
    (formats : list string)
  : list string * list Formatter.fs_event :=
  match formats with
  | [] => ([], [])
  | fmt :: rest =>
      let '(r, evs) :=
        Formatter.format_output json_dumps csv_text html_page excel_book data
          fmt (Some ("inventory_" +:+ Formatter.stamp fw)) "output" fw in
      let '(files, evs') := save_formats data fw rest in
      (match r with
       | Ok output_file => output_file :: files
       | Err _ => files
       end, evs ++ evs')
  end.

(** The main inventory file, read back by the next run. *)
Definition save_main_file (self : DeviceDiscovery) (data : export_data)
    (fw : Formatter.world) : list Formatter.fs_event :=
  let dir := dirname (inventory_file self) in
  match Formatter.mkdir_error fw dir with
  | Some _ => []
  | None =>
      Formatter.Mkdir dir ::
      match Formatter.open_error fw (inventory_file self) with
      | Some _ => []
      | None =>
          Formatter.Truncate (inventory_file self) ::
          match json_dumps data with
          | Ok text => [Formatter.Write (inventory_file self) text]
          | Err _ => []
          end
      end
  end.

(** [save_inventory]: the data exported, the files reported, and what
    was done to the file system. *)
Definition save_inventory (self : DeviceDiscovery) (fw : Formatter.world)
    (generated : string) (output_formats : option (list string))
  : export_data * list string * list Formatter.fs_event :=
  let output_formats := default ["json"; "csv"; "html"] output_formats in
  let data := inventory self generated in
  let '(output_files, evs) := save_formats data fw output_formats in
  (data, output_files, evs ++ save_main_file self data fw).

End Save.

Record summary := {
  summary_total_devices : Z;
  reachable_devices : Z;
  unreachable_devices : Z;
  vendor_distribution : PyDict.t Z;
  role_distribution : PyDict.t Z;
  discovery_timestamp : string;
  newly_discovered : Z
}.

(** [counts[key] = counts.get(key, 0) + 1] *)
Definition tally (key : string) (counts : PyDict.t Z) : PyDict.t Z :=
  PyDict.set key (default 0 (PyDict.get key counts) + 1) counts.

(** [text or 'Unknown'] *)
Definition or_unknown (text : string) : string :=
  if Py.truthy text then text else "Unknown".

Definition generate_summary_report (self : DeviceDiscovery)
    (timestamp : string) : summary :=
  let devices := PyDict.values (all_devices self) in
  let total := Z.of_nat (length devices) in
  let vendors :=
    fold_left (fun acc d => tally (or_unknown (vendor d)) acc) devices [] in
  let roles :=
    fold_left (fun acc d => tally (or_unknown (role d)) acc) devices [] in
  let reachable_count :=
    fold_left (fun n d => if reachable d then n + 1 else n) devices 0 in
  {| summary_total_devices := total;
     reachable_devices := reachable_count;
     unreachable_devices := total - reachable_count;
     vendor_distribution := vendors;
     role_distribution := roles;
     discovery_timestamp := timestamp;
     newly_discovered := Z.of_nat (length (discovered_devices self)) |}.

(** *** Proofs: uptime *)

Lemma uptime_parts_bounds (seconds : Z) :
  0 <= seconds ->
  0 <= seconds / 86400 /\
  0 <= (seconds mod 86400) / 3600 < 24 /\
  0 <= (seconds mod 3600) / 60 < 60 /\
  seconds = 86400 * (seconds / 86400) + 3600 * ((seconds mod 86400) / 3600)
            + 60 * ((seconds mod 3600) / 60) + seconds mod 60.
Proof. intros Hs. Z.div_mod_to_equations. lia. Qed.

(** C6. For every non-negative tick count, with seconds = ticks div
    100, days = seconds div 86400, hours = (seconds mod 86400) div 3600
    and minutes = (seconds mod 3600) div 60, [format_uptime] returns
    "<d>d <h>h <m>m" when days > 0, "<h>h <m>m" when days = 0 and
    hours > 0, and "<m>m" otherwise; the parts are the days, hours
    (under 24) and minutes (under 60) of the seconds; 8,640,000 ticks
    give "1d 0h 0m", 360,000 give "1h 0m", and 6,000 give "1m". *)
Theorem format_uptime_correct (ticks : Z) :
  0 <= ticks ->
  let seconds := ticks / 100 in
  let days := seconds / 86400 in
  let hours := (seconds mod 86400) / 3600 in
  let minutes := (seconds mod 3600) / 60 in
  (0 <= days /\ 0 <= hours < 24 /\ 0 <= minutes < 60 /\
   seconds = 86400 * days + 3600 * hours + 60 * minutes + seconds mod 60)
  /\
  (0 < days ->
   format_uptime ticks
     = pretty days +:+ "d " +:+ pretty hours +:+ "h " +:+ pretty minutes +:+ "m")
  /\
  (days = 0 -> 0 < hours ->
   format_uptime ticks = pretty hours +:+ "h " +:+ pretty minutes +:+ "m")
  /\
  (days = 0 -> hours = 0 -> format_uptime ticks = pretty minutes +:+ "m")
  /\
  format_uptime 8640000 = "1d 0h 0m" /\
  format_uptime 360000 = "1h 0m" /\
  format_uptime 6000 = "1m".
Proof.
  intros Hticks seconds days hours minutes.
  assert (0 <= seconds) as Hs by (apply Z.div_pos; lia).
  split; [apply (uptime_parts_bounds seconds Hs)|].
  unfold format_uptime. fold seconds. fold days. fold hours. fold minutes.
  split; [|split; [|split]].
  - intros Hd. by rewrite (proj2 (Z.ltb_lt 0 days) Hd).
  - intros Hd Hh. rewrite Hd. simpl. by rewrite (proj2 (Z.ltb_lt 0 hours) Hh).
  - intros Hd Hh. rewrite Hd, Hh. reflexivity.
  - repeat split; reflexivity.
Qed.

Lemma format_uptime_witness :
  format_uptime 9006100 = "1d 1h 1m" /\
  format_uptime 366099 = "1h 1m" /\
  format_uptime 5999 = "0m".
Proof.
  split; [|split].
  - destruct (format_uptime_correct 9006100) as (_ & Hdays & _); [lia|].
    apply Hdays. reflexivity.
  - destruct (format_uptime_correct 366099) as (_ & _ & Hhours & _); [lia|].
    apply Hhours; reflexivity.
  - destruct (format_uptime_correct 5999) as (_ & _ & _ & Hminutes & _); [lia|].
    apply Hminutes; reflexivity.
Defined.

(** *** Proofs: one address *)

Lemma app_nonempty (s t : string) : t <> "" -> s +:+ t <> "".
Proof.
  intros Ht Heq. apply (f_equal String.length) in Heq.
  rewrite PyPath.length_app in Heq. destruct t; [done|]. simpl in Heq. lia.
Qed.

Lemma isoformat_nonempty (dt : datetime) : isoformat dt <> "".
Proof. unfold isoformat. by apply app_nonempty. Qed.

(** The decorator hands on what the body returns. *)
Lemma decorated_body {A : Type} (max_attempts : Z) (delay : Q)
    (body : option A) :
  1 <= max_attempts -> decorated max_attempts delay body = body.
Proof.
  intros Hmax. unfold decorated, Retry.wrapper. simpl.
  by rewrite (proj2 (Z.leb_le 1 max_attempts) Hmax).
Qed.

Lemma store_value_method name value d d' :
  store_value name value d = Some d' ->
  discovery_method d' = discovery_method d.
Proof.
  unfold store_value. intros Hstore.
  repeat case_match; simplify_option_eq; done.
Qed.

Lemma query_oids_method get l : forall d d',
  query_oids get l d = Some d' -> discovery_method d' = discovery_method d.
Proof.
  induction l as [|[name oid] l IH]; intros d d' Hq; simpl in Hq.
  - by injection Hq as <-.
  - destruct (get oid) as [value| |]; [|by apply IH|done].
    destruct (store_value name value d) as [d1|] eqn:Hstore; [|done].
    simpl in Hq. rewrite (IH _ _ Hq). by eapply store_value_method.
Qed.

Lemma snmp_try_found w ip communities d :
  snmp_try w ip communities = Some d ->
  reachable d = true /\ discovery_method d = "SNMP".
Proof.
  induction communities as [|community rest IH]; [done|].
  cbn [snmp_try].
  destruct (query_oids (snmp_get w ip community) oids
              (set_snmp_community community (new_device ip "SNMP")))
    as [d1|] eqn:Hq; [|done].
  destruct (Py.truthy (vendor d1)); [|done].
  intros [= <-]. split; [done|]. simpl.
  by rewrite (query_oids_method _ _ _ _ Hq).
Qed.

Lemma snmp_discovery_found self w ip d :
  snmp_discovery self w ip = Some d ->
  reachable d = true /\ discovery_method d = "SNMP".
Proof.
  unfold snmp_discovery. rewrite decorated_body by lia. apply snmp_try_found.
Qed.

Lemma ssh_collect_found w ip device_type capabilities d :
  ssh_collect w ip device_type capabilities = Some d ->
  reachable d = true /\ discovery_method d = "SSH".
Proof.
  unfold ssh_collect. intros Hrun.
  repeat (case_match; simplify_option_eq); done.
Qed.

Lemma ssh_discovery_found self w ip creds d creds' :
  ssh_discovery self w ip creds = (Some d, creds') ->
  reachable d = true /\ discovery_method d = "SSH".
Proof.
  unfold ssh_discovery, ssh_discovery_body.
  destruct (Credentials.get_credentials None true creds) as [[c|e] creds1];
    [|by rewrite decorated_body by lia].
  destruct (DeviceTypes.detect_device_type _) as [[device_type capabilities]|];
    [|by rewrite decorated_body by lia].
  rewrite decorated_body by lia. intros [= Hrun _].
  by eapply ssh_collect_found.
Qed.

Lemma stamp_fields w ip ms open_ports d :
  let d' := stamp w ip ms open_ports d in
  reachable d' = reachable d /\
  discovery_method d' = discovery_method d /\
  response_time d' = ms /\
  last_seen d' = isoformat (now w ip).
Proof. done. Qed.

Lemma discover_single_device_found self w ip creds d creds' :
  discover_single_device self w ip creds = (Some d, creds') ->
  reachable d = true /\
  last_seen d = isoformat (now w ip) /\
  (exists ms, probe w ip = Probed true ms /\ response_time d = ms) /\
  (discovery_method d = "SNMP" \/ discovery_method d = "SSH").
Proof.
  unfold discover_single_device, is_host_reachable.
  destruct (probe w ip) as [[|] ms|]; simpl; try done.
  destruct (if port_is_open _ 161 then snmp_discovery self w ip else None)
    as [d0|] eqn:Hsnmp.
  - intros [= <- _].
    assert (snmp_discovery self w ip = Some d0) as Hfound.
    { by destruct (port_is_open _ 161). }
    destruct (snmp_discovery_found _ _ _ _ Hfound) as [Hr Hm].
    split; [done|]. split; [done|]. split; [by exists ms|by left].
  - destruct (port_is_open _ 22); [|done].
    destruct (ssh_discovery self w ip creds) as [[d0|] creds1] eqn:Hssh;
      [|done].
    simpl. intros [= <- _].
    destruct (ssh_discovery_found _ _ _ _ _ _ Hssh) as [Hr Hm].
    split; [done|]. split; [done|]. split; [by exists ms|by right].
Qed.

Lemma discover_single_device_unreachable self w ip creds :
  (forall ms, probe w ip <> Probed true ms) ->
  discover_single_device self w ip creds = (None, creds).
Proof.
  intros Hprobe. unfold discover_single_device, is_host_reachable.
  destruct (probe w ip) as [[|] ms|]; simpl; try done.
  by destruct (Hprobe ms).
Qed.

(** C9. Every record that [discover_single_device] returns has
    [reachable] true, a [last_seen] stamp that is not empty (the ISO
    form of the clock), the response time of the probe, and
    [discovery_method] either "SNMP" or "SSH"; an address whose TCP
    probe of port 22 fails yields no record. *)
Theorem discover_single_device_invariant (self : DeviceDiscovery) (w : world)
    (ip : string) (creds : Credentials.state) :
  let run := discover_single_device self w ip creds in
  (forall d creds',
     run = (Some d, creds') ->
     reachable d = true /\
     last_seen d <> "" /\
     last_seen d = isoformat (now w ip) /\
     (exists ms, probe w ip = Probed true ms /\ response_time d = ms) /\
     (discovery_method d = "SNMP" \/ discovery_method d = "SSH"))
  /\
  ((forall ms, probe w ip <> Probed true ms) -> run = (None, creds)).
Proof.
  intros run. split.
  - intros d creds' Hrun.
    destruct (discover_single_device_found _ _ _ _ _ _ Hrun)
      as (Hr & Hseen & Hms & Hmethod).
    split; [done|]. split; [|done].
    rewrite Hseen. apply isoformat_nonempty.
  - apply discover_single_device_unreachable.
Qed.

(** A switch that answers SNMP, and an address nothing answers at. *)
Definition default_discovery : DeviceDiscovery :=
  {| max_workers := 50; timeout := 10;
     snmp_communities := ["public"; "private"];
     common_ports := [22; 23; 80; 443; 161; 830];
     discovered_devices := []; known_devices := [];
     inventory_file := "output/inventory.json" |}.

Definition lab : world :=
  {| probe := fun ip =>
       if String.eqb ip "10.0.0.9" then Probed false 10000 else Probed true 12;
     port_open := fun ip port => bool_decide (port ∈ [22; 161; 443]);
     snmp_get := fun ip community oid =>
       if negb (String.eqb community "private") then SnmpError
       else if String.eqb oid "1.3.6.1.2.1.1.1.0"
            then SnmpValue "Cisco IOS Software, Catalyst L3 Switch"
       else if String.eqb oid "1.3.6.1.2.1.1.5.0"
            then SnmpValue ("sw-" +:+ ip)
       else if String.eqb oid "1.3.6.1.2.1.1.3.0" then SnmpValue "9006100"
       else SnmpError;
     ssh_login := fun _ _ _ _ => DeviceTypes.LoginFails;
     create_connection := fun _ _ => false;
     send_command := fun _ _ => None;
     disconnect := fun _ => true;
     now := fun _ =>
       {| year := 2025; month := 3; day := 9; hour := 7; minute := 5;
          second := 0; microsecond := 0 |} |}.

Definition no_credentials : Credentials.state :=
  {| Credentials.credentials_cache := ∅; Credentials.environ := ∅;
     Credentials.terminal := []; Credentials.prompts := [] |}.

Definition lab_switch : DeviceInfo :=
  {| ip_address := "10.0.0.1"; hostname := "sw-10.0.0.1"; vendor := "Cisco";
     model := "Catalyst"; serial := "";
     os_version := "Cisco IOS Software, Catalyst L3 Switch";
     device_type := ""; role := ""; location := ""; uptime := "1d 1h 1m";
     management_ip := ""; interfaces_count := 0; vlans_count := 0;
     mac_address := ""; snmp_community := "private"; ssh_enabled := false;
     telnet_enabled := false; https_enabled := true;
     discovery_method := "SNMP"; last_seen := "2025-03-09T07:05:00";
     reachable := true; response_time := 12; capabilities := None |}.

Lemma lab_switch_discovered :
  discover_single_device default_discovery lab "10.0.0.1" no_credentials
  = (Some lab_switch, no_credentials).
Proof. vm_compute. reflexivity. Qed.

(** A switch that answers SSH only, with credentials taken from the
    environment. *)
Definition line_break : string := String (ascii_of_nat 10) "".

Definition closet_version : string :=
  "Cisco IOS Software, C2960 Software, Version 15.0(2)SE" +:+ line_break
  +:+ "closet-sw uptime is" +:+ line_break
  +:+ "cisco Catalyst WS-C2960 processor" +:+ line_break
  +:+ "System serial number : FOC1234X".

Definition closet_interfaces : string :=
  "GigabitEthernet0/1 is up" +:+ line_break
  +:+ "  Hardware is Gigabit Ethernet" +:+ line_break
  +:+ "FastEthernet0/2 is down" +:+ line_break
  +:+ "Vlan1 is up".

Definition closet : world :=
  {| probe := fun _ => Probed true 3;
     port_open := fun ip port => bool_decide (port = 22);
     snmp_get := fun _ _ _ => SnmpRaises;
     ssh_login := fun ip user password device_type =>
       if String.eqb device_type "cisco_ios"
       then DeviceTypes.LoggedIn (Some closet_version) true
       else DeviceTypes.LoginFails;
     create_connection := fun _ _ => true;
     send_command := fun ip command =>
       if String.eqb command "show version" then Some closet_version
       else if String.eqb command "show interfaces" then Some closet_interfaces
       else None;
     disconnect := fun _ => true;
     now := fun _ =>
       {| year := 2025; month := 3; day := 9; hour := 7; minute := 5;
          second := 30; microsecond := 250 |} |}.

Definition closet_switch : DeviceInfo :=
  Eval vm_compute in
    default (new_device "" "")
      (discover_single_device default_discovery closet "10.0.0.3"
         Credentials.provisioned).1.

Lemma closet_switch_discovered :
  discover_single_device default_discovery closet "10.0.0.3"
    Credentials.provisioned
  = (Some closet_switch, Credentials.provisioned_cached)
  /\ discovery_method closet_switch = "SSH"
  /\ os_version closet_switch
     = "cisco ios software, c2960 software, version 15.0(2)se"
  /\ hostname closet_switch = "closet-sw"
  /\ interfaces_count closet_switch = 2
  /\ role closet_switch = "access"
  /\ last_seen closet_switch = "2025-03-09T07:05:30.000250".
Proof. vm_compute. repeat split; reflexivity. Qed.

Lemma discover_single_device_witness :
  (reachable lab_switch = true /\
   last_seen lab_switch <> "" /\
   (discovery_method lab_switch = "SNMP"
    \/ discovery_method lab_switch = "SSH"))
  /\
  discover_single_device default_discovery lab "10.0.0.9" no_credentials
  = (None, no_credentials).
Proof.
  split.
  - destruct (discover_single_device_invariant default_discovery lab
                "10.0.0.1" no_credentials) as [Hfound _].
    destruct (Hfound lab_switch no_credentials lab_switch_discovered)
      as (Hr & Hseen & _ & _ & Hmethod).
    done.
  - apply (proj2 (discover_single_device_invariant default_discovery lab
                    "10.0.0.9" no_credentials)).
    intros ms. discriminate.
Defined.

(** *** Proofs: ranges *)

(** What the specification says of a token: it is a CIDR network, a
    span from one address to another of the same version, a single
    address taken as it stands, or it does not parse. *)
Inductive token_form :=
| Cidr (network : IpAddress.network)
| Span (first last : IpAddress.address)
| Single
| Invalid.

Section RangeFacts.

Variable parse_ipv6 : string -> option Z.
Variable parse_ipv6_network : string -> option (Z * Z).
Variable str_ipv6 : Z -> string.

Local Abbreviation address_text := (address_text str_ipv6).
Local Abbreviation range_loop := (range_loop str_ipv6).
Local Abbreviation expand_token :=
  (expand_token parse_ipv6 parse_ipv6_network str_ipv6).
Local Abbreviation expand_ranges :=
  (expand_ranges parse_ipv6 parse_ipv6_network str_ipv6).

Definition read_token (ip_range : string) : token_form :=
  if Py.char_in "/" ip_range then
    match IpAddress.ip_network parse_ipv6_network ip_range with
    | Some network => Cidr network
    | None => Invalid
    end
  else if Py.char_in "-" ip_range then
    match Py.split "-" ip_range with
    | [start_ip; end_ip] =>
        match IpAddress.ip_address parse_ipv6 (Py.strip start_ip),
              IpAddress.ip_address parse_ipv6 (Py.strip end_ip) with
        | Some first, Some last =>
            if decide (IpAddress.version first = IpAddress.version last)
            then Span first last
            else Invalid
        | _, _ => Invalid
        end
    | _ => Invalid
    end
  else Single.

(** Every address from [first] to [last], both included. *)
Definition span (first last : IpAddress.address) : list IpAddress.address :=
  IpAddress.addresses (IpAddress.version first) (IpAddress.value first)
    (IpAddress.value last - IpAddress.value first + 1).

Definition token_addresses (ip_range : string) : list string :=
  match read_token ip_range with
  | Cidr network => address_text <$> IpAddress.hosts network
  | Span first last => address_text <$> span first last
  | Single => [ip_range]
  | Invalid => []
  end.

Lemma address_eta (a : IpAddress.address) :
  {| IpAddress.version := IpAddress.version a;
     IpAddress.value := IpAddress.value a |} = a.
Proof. by destruct a. Qed.

(** The loop appends the span and comes to an end within its fuel. *)
Lemma range_loop_span (n : nat) : forall fuel current last all_ips,
  IpAddress.version current = IpAddress.version last ->
  IpAddress.value last < 2 ^ IpAddress.max_prefixlen (IpAddress.version last) ->
  Z.to_nat (IpAddress.value last - IpAddress.value current + 1) = n ->
  (n < fuel)%nat ->
  exists raised,
    range_loop fuel current last all_ips
      = Some (all_ips ++ (address_text <$> span current last), raised).
Proof.
  induction n as [|n IH]; intros fuel current last all_ips Hv Hmax Hn Hfuel;
    (destruct fuel as [|fuel]; [lia|]); cbn [Discovery.range_loop];
    unfold IpAddress.le; rewrite decide_True by done; unfold span.
  - rewrite (proj2 (Z.leb_gt _ _)) by lia.
    rewrite IpAddress.addresses_nil by lia.
    exists false. by rewrite app_nil_r.
  - rewrite (proj2 (Z.leb_le _ _)) by lia.
    rewrite IpAddress.addresses_cons by lia. rewrite address_eta.
    unfold IpAddress.succ.
    destruct (Z.ltb_spec (IpAddress.value current + 1)
                (2 ^ IpAddress.max_prefixlen (IpAddress.version current)))
      as [Hnext|Hlast].
    + destruct (IH fuel
                  {| IpAddress.version := IpAddress.version current;
                     IpAddress.value := IpAddress.value current + 1 |}
                  last (all_ips ++ [address_text current]))
        as [raised Hrun]; [done|done|simpl; lia|lia|].
      exists raised. rewrite Hrun. unfold span.
      cbn [IpAddress.version IpAddress.value].
      replace (IpAddress.value last - (IpAddress.value current + 1) + 1)
        with (IpAddress.value last - IpAddress.value current + 1 - 1) by lia.
      by rewrite fmap_cons, <- app_assoc.
    + exists true. rewrite Hv in Hlast.
      rewrite IpAddress.addresses_nil by lia. done.
Qed.

Lemma expand_token_spec (all_ips : list string) (ip_range : string) :
  exists failed,
    expand_token all_ips ip_range
      = (all_ips ++ token_addresses ip_range, failed) /\
    (read_token ip_range = Invalid -> failed = true).
Proof.
  unfold Discovery.expand_token, token_addresses, read_token.
  destruct (Py.char_in "/" ip_range).
  { destruct (IpAddress.ip_network parse_ipv6_network ip_range).
    - by exists false.
    - exists true. by rewrite app_nil_r. }
  destruct (Py.char_in "-" ip_range); [|by exists false].
  destruct (Py.split "-" ip_range) as [|start_ip [|end_ip [|? ?]]];
    try (exists true; by rewrite app_nil_r).
  destruct (IpAddress.ip_address parse_ipv6 (Py.strip start_ip))
    as [first|] eqn:Hfirst; [|exists true; by rewrite app_nil_r].
  destruct (IpAddress.ip_address parse_ipv6 (Py.strip end_ip))
    as [last|] eqn:Hlast; [|exists true; by rewrite app_nil_r].
  destruct (decide (IpAddress.version first = IpAddress.version last))
    as [Hv|Hv].
  - apply IpAddress.ip_address_bounds in Hlast.
    destruct (range_loop_span
                (Z.to_nat (IpAddress.value last - IpAddress.value first + 1))
                (range_fuel first last) first last all_ips)
      as [raised Hrun]; [done|lia|done|unfold range_fuel; lia|].
    rewrite Hrun. by exists raised.
  - exists true. split; [|done]. unfold range_fuel.
    cbn [Discovery.range_loop]. unfold IpAddress.le.
    rewrite decide_False by done. by rewrite app_nil_r.
Qed.

Lemma expand_fold (ip_ranges : list string) : forall all_ips invalid,
  exists more,
    fold_left
      (fun '(all_ips, invalid) ip_range =>
         let '(all_ips, failed) := expand_token all_ips ip_range in
         (all_ips, if failed then invalid ++ [ip_range] else invalid))
      ip_ranges (all_ips, invalid)
    = (all_ips ++ concat (token_addresses <$> ip_ranges), invalid ++ more) /\
    (forall t, t ∈ ip_ranges -> read_token t = Invalid -> t ∈ more).
Proof.
  induction ip_ranges as [|ip_range rest IH]; intros all_ips invalid.
  - exists []. rewrite !app_nil_r. split; [done|]. by intros t Ht%elem_of_nil.
  - cbn [fold_left].
    destruct (expand_token_spec all_ips ip_range) as (failed & -> & Hfailed).
    destruct (IH (all_ips ++ token_addresses ip_range)
                 (if failed then invalid ++ [ip_range] else invalid))
      as (more & -> & Hmore).
    exists ((if failed then [ip_range] else []) ++ more).
    rewrite fmap_cons. cbn [concat]. rewrite <- !app_assoc. split.
    + by destruct failed; rewrite <- ?app_assoc.
    + intros t [->|Ht]%elem_of_cons Hinv.
      * rewrite (Hfailed Hinv). apply list_elem_of_here.
      * apply elem_of_app. right. by apply Hmore.
Qed.

Lemma expand_ranges_spec (ip_ranges : list string) :
  (expand_ranges ip_ranges).1 = concat (token_addresses <$> ip_ranges) /\
  (forall t, t ∈ ip_ranges -> read_token t = Invalid ->
             t ∈ (expand_ranges ip_ranges).2).
Proof.
  unfold Discovery.expand_ranges.
  destruct (expand_fold ip_ranges [] []) as (more & -> & Hmore). done.
Qed.

End RangeFacts.

(** The sentence of the specification about networks, read as it
    stands: whatever a token with a slash yields lies strictly between
    the network address and the broadcast address. *)
Definition cidr_leaves_out_both_ends : Prop :=
  forall (parse_ipv6_network : string -> option (Z * Z)) t network a,
    Py.char_in "/" t = true ->
    IpAddress.ip_network parse_ipv6_network t = Some network ->
    a ∈ IpAddress.hosts network ->
    IpAddress.network_address network < IpAddress.value a
      < IpAddress.broadcast_address network.

Definition no_ipv6 (s : string) : option Z := None.

Definition no_ipv6_network (s : string) : option (Z * Z) := None.

Definition ipv6_text (x : Z) : string := "::".

(** The point-to-point network 10.0.0.4/31. *)
Definition link_network : IpAddress.network :=
  {| IpAddress.net_version := IpAddress.V4;
     IpAddress.network_address := 167772164;
     IpAddress.prefixlen := 31 |}.

Lemma link_network_expanded :
  IpAddress.ip_network no_ipv6_network "10.0.0.4/31" = Some link_network /\
  expand_ranges no_ipv6 no_ipv6_network ipv6_text ["10.0.0.4/31"]
    = (["10.0.0.4"; "10.0.0.5"], []) /\
  IpAddress.str_ipv4 (IpAddress.network_address link_network) = "10.0.0.4" /\
  IpAddress.str_ipv4 (IpAddress.broadcast_address link_network) = "10.0.0.5".
Proof. vm_compute. repeat split; reflexivity. Qed.

(** C7, as the specification words the network case: refuted. The
    token 10.0.0.4/31 yields 10.0.0.4 and 10.0.0.5, the network address
    and the broadcast address of that network. *)
Lemma cidr_31_yields_both_ends : ~ cidr_leaves_out_both_ends.
Proof.
  intros Hall.
  destruct link_network_expanded as (Hparse & _).
  assert ({| IpAddress.version := IpAddress.V4; IpAddress.value := 167772164 |}
            ∈ IpAddress.hosts link_network) as Hin.
  { apply IpAddress.hosts_spec; [simpl; lia|].
    split; [reflexivity|]. vm_compute. split; discriminate. }
  pose proof (Hall no_ipv6_network "10.0.0.4/31" link_network _
                eq_refl Hparse Hin) as [Hlt _].
  simpl in Hlt. lia.
Qed.

(** C7, amended. For every list of range tokens, the addresses to scan
    are the addresses of the tokens one after the other, where
    - a token with a slash that parses as a network gives the hosts of
      that network as the library defines them: for an IPv4 prefix of
      at most 30 bits the addresses strictly between the network
      address and the broadcast address, so that 192.168.1.0/30 gives
      .1 and .2; for a prefix of 31 or 32 bits every address of the
      network;
    - a token with a hyphen that splits into two addresses gives every
      address from the first to the last, both included;
    - any other token gives itself;
    - a token that does not parse gives no address and is logged, and
      the tokens after it are still expanded. *)
Theorem expand_ranges_correct (parse_ipv6 : string -> option Z)
    (parse_ipv6_network : string -> option (Z * Z)) (str_ipv6 : Z -> string)
    (ip_ranges : list string) :
  let expanded :=
    expand_ranges parse_ipv6 parse_ipv6_network str_ipv6 ip_ranges in
  let addresses_of := token_addresses parse_ipv6 parse_ipv6_network str_ipv6 in
  let form_of := read_token parse_ipv6 parse_ipv6_network in
  let text := IpAddress.str str_ipv6 in
  expanded.1 = concat (addresses_of <$> ip_ranges)
  /\
  (forall t,
     match form_of t with
     | Cidr network =>
         Py.char_in "/" t = true /\
         addresses_of t = text <$> IpAddress.hosts network
     | Span first last =>
         Py.char_in "/" t = false /\ Py.char_in "-" t = true /\
         addresses_of t = text <$> span first last
     | Single =>
         Py.char_in "/" t = false /\ Py.char_in "-" t = false /\
         addresses_of t = [t]
     | Invalid =>
         addresses_of t = [] /\ (t ∈ ip_ranges -> t ∈ expanded.2)
     end)
  /\
  (forall t network,
     Py.char_in "/" t = true ->
     IpAddress.parse_ipv4_network t = Some network ->
     form_of t = Cidr network /\
     forall a, a ∈ IpAddress.hosts network <-> IpAddress.is_host network a)
  /\
  (forall network a,
     0 <= IpAddress.prefixlen network
       <= IpAddress.max_prefixlen (IpAddress.net_version network) ->
     (a ∈ IpAddress.hosts network <-> IpAddress.is_host network a))
  /\
  (forall first last a,
     a ∈ span first last <->
     IpAddress.version a = IpAddress.version first /\
     IpAddress.value first <= IpAddress.value a <= IpAddress.value last)
  /\
  (expand_ranges parse_ipv6 parse_ipv6_network str_ipv6 ["192.168.1.0/30"]
     = (["192.168.1.1"; "192.168.1.2"], []) /\
   expand_ranges parse_ipv6 parse_ipv6_network str_ipv6 ["10.0.0.1-10.0.0.3"]
     = (["10.0.0.1"; "10.0.0.2"; "10.0.0.3"], []) /\
   expand_ranges parse_ipv6 parse_ipv6_network str_ipv6
     ["10.0.0.1-10.0.0.2-10.0.0.3"; "10.0.0.7"]
     = (["10.0.0.7"], ["10.0.0.1-10.0.0.2-10.0.0.3"])).
Proof.
  intros expanded addresses_of form_of text.
  destruct (expand_ranges_spec parse_ipv6 parse_ipv6_network str_ipv6
              ip_ranges) as [Hall Hinvalid].
  split; [exact Hall|]. split; [|split; [|split; [|split]]].
  - intros t. unfold addresses_of, token_addresses. fold form_of.
    destruct (form_of t) eqn:Hform.
    + unfold form_of, read_token in Hform.
      destruct (Py.char_in "/" t); [done|].
      destruct (Py.char_in "-" t); [|done]. by repeat case_match.
    + unfold form_of, read_token in Hform.
      destruct (Py.char_in "/" t); [by repeat case_match|].
      destruct (Py.char_in "-" t); [done|done].
    + unfold form_of, read_token in Hform.
      destruct (Py.char_in "/" t); [by repeat case_match|].
      destruct (Py.char_in "-" t); [by repeat case_match|done].
    + split; [done|]. intros Ht. by apply Hinvalid.
  - intros t network Hslash Hparse. split.
    + unfold form_of, read_token, IpAddress.ip_network.
      by rewrite Hslash, Hparse.
    + intros a. apply IpAddress.hosts_spec.
      destruct (IpAddress.parse_ipv4_network_bounds _ _ Hparse) as [-> ?].
      done.
  - intros network a. apply IpAddress.hosts_spec.
  - intros first last a. unfold span. rewrite IpAddress.elem_of_addresses.
    split; intros [? ?]; (split; [done|lia]).
  - repeat split; vm_compute; reflexivity.
Qed.

(** The network 192.168.1.0/30: .1 is one of its hosts, the network
    address .0 is not; and a token of three parts is logged. *)
Definition lab_network : IpAddress.network :=
  {| IpAddress.net_version := IpAddress.V4;
     IpAddress.network_address := 3232235776;
     IpAddress.prefixlen := 30 |}.

Lemma expand_ranges_witness :
  ({| IpAddress.version := IpAddress.V4; IpAddress.value := 3232235777 |}
     ∈ IpAddress.hosts lab_network)
  /\
  ({| IpAddress.version := IpAddress.V4; IpAddress.value := 3232235776 |}
     ∉ IpAddress.hosts lab_network)
  /\
  ("1-2-3" ∈ (expand_ranges no_ipv6 no_ipv6_network ipv6_text
                ["10.0.0.7"; "1-2-3"]).2).
Proof.
  destruct (expand_ranges_correct no_ipv6 no_ipv6_network ipv6_text
              ["10.0.0.7"; "1-2-3"]) as (_ & Hforms & _ & Hhosts & _ & _).
  split; [|split].
  - apply Hhosts; [simpl; lia|].
    split; [reflexivity|]. vm_compute. split; reflexivity.
  - intros Hin. apply Hhosts in Hin; [|simpl; lia].
    destruct Hin as [_ Hends]. simpl in Hends. lia.
  - pose proof (Hforms "1-2-3") as Hform.
    change (read_token no_ipv6 no_ipv6_network "1-2-3") with Invalid in Hform.
    destruct Hform as [_ Hlogged]. apply Hlogged.
    apply list_elem_of_further, list_elem_of_here.
Defined.

(** *** Proofs: inventory and summary *)

Section SaveFacts.

Variable json_dumps : export_data -> result Formatter.exn string.
Variable csv_text : export_data -> result Formatter.exn string.
Variable html_page : export_data -> result Formatter.exn string.
Variable excel_book : export_data -> result Formatter.exn string.

(** Whatever happens to the files, the data [save_inventory] exports
    is the merged inventory. *)
Lemma save_inventory_data self fw generated output_formats :
  (save_inventory json_dumps csv_text html_page excel_book self fw generated
     output_formats).1.1
  = inventory self generated.
Proof.
  unfold save_inventory.
  by destruct (save_formats _ _ _ _ _ _ _) as [output_files evs].
Qed.

End SaveFacts.

(** The merge of a known inventory of one address with a discovery of
    that address and another: two records, the known one replaced. *)
Lemma merge_rediscovered (A B : string) (a_old a_new b : DeviceInfo)
    (discovered : PyDict.t DeviceInfo) :
  A <> B ->
  discovered = [(A, a_new); (B, b)] \/ discovered = [(B, b); (A, a_new)] ->
  PyDict.merge [(A, a_old)] discovered = [(A, a_new); (B, b)].
Proof.
  intros Hne Horder.
  assert (String.eqb B A = false) as HBA.
  { destruct (String.eqb_spec B A); [by subst|done]. }
  destruct Horder as [-> | ->]; unfold PyDict.merge, PyDict.update;
    cbn [fold_left PyDict.set fst snd];
    rewrite ?String.eqb_refl, ?HBA; cbn [PyDict.set];
    by rewrite ?String.eqb_refl, ?HBA.
Qed.

Lemma summary_counts_discovered self timestamp :
  newly_discovered (generate_summary_report self timestamp)
  = Z.of_nat (length (discovered_devices self)).
Proof. reflexivity. Qed.

(** An inventory that already holds 10.0.0.1, scanned again over
    10.0.0.1 and 10.0.0.2 in the lab above, where every address but
    10.0.0.9 answers SNMP. *)
Definition stale_switch : DeviceInfo :=
  set_last_seen "2024-12-31T23:59:59" (set_hostname "sw-old" lab_switch).

Definition known_lab : DeviceDiscovery :=
  {| max_workers := 50; timeout := 10;
     snmp_communities := ["public"; "private"];
     common_ports := [22; 23; 80; 443; 161; 830];
     discovered_devices := [];
     known_devices := [("10.0.0.1", stale_switch)];
     inventory_file := "output/inventory.json" |}.

Definition lab_switch_2 : DeviceInfo :=
  set_hostname "sw-10.0.0.2"
    {| ip_address := "10.0.0.2"; hostname := hostname lab_switch;
       vendor := vendor lab_switch; model := model lab_switch;
       serial := serial lab_switch; os_version := os_version lab_switch;
       device_type := device_type lab_switch; role := role lab_switch;
       location := location lab_switch; uptime := uptime lab_switch;
       management_ip := management_ip lab_switch;
       interfaces_count := interfaces_count lab_switch;
       vlans_count := vlans_count lab_switch;
       mac_address := mac_address lab_switch;
       snmp_community := snmp_community lab_switch;
       ssh_enabled := ssh_enabled lab_switch;
       telnet_enabled := telnet_enabled lab_switch;
       https_enabled := https_enabled lab_switch;
       discovery_method := discovery_method lab_switch;
       last_seen := last_seen lab_switch; reachable := reachable lab_switch;
       response_time := response_time lab_switch;
       capabilities := capabilities lab_switch |}.

Definition rescan (incremental : bool)
  : PyDict.t DeviceInfo * DeviceDiscovery * Credentials.state :=
  discover_network no_ipv6 no_ipv6_network ipv6_text
    known_lab lab ["10.0.0.1-10.0.0.2"] incremental no_credentials.

(** C2, on the code: after the full scan the merged inventory holds
    exactly the refreshed record of 10.0.0.1 and the record of
    10.0.0.2, and the summary reports 2 newly discovered devices, not
    1: the count is the size of [discovered_devices], which holds the
    address that was already known. *)
Theorem rediscovered_device_counted_as_new :
  let self := (rescan false).1.2 in
  PyDict.keys (rescan false).1.1 = ["10.0.0.1"; "10.0.0.2"] /\
  devices (inventory self "2025-03-09T07:05:01") = [lab_switch; lab_switch_2] /\
  total_devices (inventory self "2025-03-09T07:05:01") = 2 /\
  newly_discovered (generate_summary_report self "2025-03-09T07:05:01") = 2.
Proof. vm_compute. repeat split; reflexivity. Qed.

(** The incremental scan of the same ranges leaves the known address
    out: one device is discovered and counted, and the known record is
    kept as it was. *)
Lemma incremental_scan_counts_new_only :
  let self := (rescan true).1.2 in
  PyDict.keys (rescan true).1.1 = ["10.0.0.2"] /\
  devices (inventory self "2025-03-09T07:05:01") = [stale_switch; lab_switch_2] /\
  newly_discovered (generate_summary_report self "2025-03-09T07:05:01") = 1.
Proof. vm_compute. repeat split; reflexivity. Qed.

End Discovery.

(** ** Suite runner: run_monitoring.py *)

Module Runner.

(** The argument of [sys.exit]: nothing, a number, or a message. *)
Inductive exit_arg :=
| NoCode
| IntCode (n : Z)
| TextCode (s : string).

(** How the entry function of a tool ends: it returns, it leaves
    through [sys.exit], it raises an [Exception], or the operator
    interrupts it (KeyboardInterrupt, which is not an [Exception]). *)
Inductive tool_outcome :=
| Returns
| Exits (code : exit_arg)
| Raises (msg : string)
| Interrupts.

#[global] Instance exit_arg_eq_dec : EqDecision exit_arg.
Proof. solve_decision. Defined.

#[global] Instance tool_outcome_eq_dec : EqDecision tool_outcome.
Proof. solve_decision. Defined.

Record tool_run := {
  outcome : tool_outcome;
  elapsed : Q
}.

Inductive run_status := success | warning | error | unknown.

#[global] Instance run_status_eq_dec : EqDecision run_status.
Proof. solve_decision. Defined.

Record script_result := {
  name : string;
  status : run_status;
  duration : Q;
  exit_code : exit_arg;
  error_text : option string;
  output_files : list string
}.

(** [e.code in [0, None]] *)
Definition is_zero_or_none (code : exit_arg) : bool :=
  match code with
  | NoCode => true
  | IntCode n => n =? 0
  | TextCode _ => false
  end.

(** [e.code == 1] *)
Definition is_one (code : exit_arg) : bool :=
  match code with
  | IntCode n => n =? 1
  | NoCode | TextCode _ => false
  end.

(** [e.code or 0] *)
Definition code_or_zero (code : exit_arg) : exit_arg :=
  match code with
  | NoCode => IntCode 0
  | IntCode n => if n =? 0 then IntCode 0 else IntCode n
  | TextCode s => if Py.truthy s then TextCode s else IntCode 0
  end.

(** [run_script]: the tool is called with [sys.argv] set to
    [['script'] + args]; [None] when the interrupt passes through. *)
Definition run_script (script_name : string)
    (script_main : list string -> tool_run) (args : list string)
  : option script_result :=
  let run := script_main ("script" :: args) in
  match outcome run with
  | Returns =>
      Some {| name := script_name; status := success; duration := elapsed run;
              exit_code := IntCode 0; error_text := None; output_files := [] |}
  | Exits code =>
      Some {| name := script_name;
              status := if is_zero_or_none code then success
                        else if is_one code then warning
                        else error;
              duration := elapsed run;
              exit_code := code_or_zero code;
              error_text := None; output_files := [] |}
  | Raises msg =>
      Some {| name := script_name; status := error; duration := elapsed run;
              exit_code := IntCode 1; error_text := Some msg;
              output_files := [] |}
  | Interrupts => None
  end.

(** The keys of [script_mapping]. *)
Definition script_names : list string :=
  ["discovery"; "health"; "port"; "vlan"; "interface"; "change"; "stp"].

(** What the suite meets when it runs: whether building the suite
    object fails, and what each tool does; a tool is told apart by its
    key, by how many tools ran before it, and by its arguments. *)
Record world := {
  suite_init_error : option string;
  tool_main : string -> nat -> list string -> tool_run
}.

(** The loop of [run_monitoring_suite]. *)
Fixpoint run_scripts (w : world) (config_file : string)
    (common_args : list string) (scripts : list string) (ran : nat)
    (results : PyDict.t script_result) : option (PyDict.t script_result) :=
  match scripts with
  | [] => Some results
  | script :: rest =>
      if bool_decide (script ∈ script_names) then
        let script_args := common_args ++ ["--config"; config_file] in
        match run_script script (tool_main w script ran) script_args with
        | Some result =>
            run_scripts w config_file common_args rest (S ran)
              (PyDict.set script result results)
        | None => None
        end
      else run_scripts w config_file common_args rest ran results
  end.

Definition run_monitoring_suite (w : world) (config_file : string)
    (scripts common_args : list string) : option (PyDict.t script_result) :=
  run_scripts w config_file common_args scripts 0 [].

(** The parsed command line. *)
Record arguments := {
  arg_all : bool;
  arg_discovery : bool;
  arg_health : bool;
  arg_port : bool;
  arg_vlan : bool;
  arg_interface : bool;
  arg_change : bool;
  arg_stp : bool;
  arg_config : string;
  arg_output_formats : list string;
  arg_max_workers : Z;
  arg_timeout : Z;
  arg_site : option string;
  arg_vendor : option string;
  arg_role : option string;
  arg_send_alerts : bool;
  arg_continuous : bool;
  arg_interval : Z;
  arg_verbose : bool
}.

Definition when (b : bool) (l : list string) : list string :=
  if b then l else [].

Definition scripts_to_run (args : arguments) : list string :=
  if arg_all args then script_names
  else when (arg_discovery args) ["discovery"]
       ++ when (arg_health args) ["health"]
       ++ when (arg_port args) ["port"]
       ++ when (arg_vlan args) ["vlan"]
       ++ when (arg_interface args) ["interface"]
       ++ when (arg_change args) ["change"]
       ++ when (arg_stp args) ["stp"].

Definition option_args (flag : string) (value : option string) : list string :=
  match value with
  | Some v => when (Py.truthy v) [flag; v]
  | None => []
  end.

Definition common_args (args : arguments) : list string :=
  when (bool_decide (arg_output_formats args <> []))
       ("--output-formats" :: arg_output_formats args)
  ++ when (negb (arg_max_workers args =? 0))
       ["--max-workers"; pretty (arg_max_workers args)]
  ++ when (negb (arg_timeout args =? 0))
       ["--timeout"; pretty (arg_timeout args)]
  ++ option_args "--site" (arg_site args)
  ++ option_args "--vendor" (arg_vendor args)
  ++ option_args "--role" (arg_role args)
  ++ when (arg_send_alerts args) ["--send-alerts"]
  ++ when (arg_continuous args
           && bool_decide ("change" ∈ scripts_to_run args))
       ["--continuous"; "--interval"; pretty (arg_interval args)]
  ++ when (arg_verbose args) ["--verbose"].

Definition count_status (s : run_status) (results : PyDict.t script_result)
  : Z :=
  Z.of_nat (length (List.filter (fun r => bool_decide (status r = s))
                                (PyDict.values results))).

(** [main]: the exit code of the process. *)
Definition main (args : arguments) (w : world) : Z :=
  let scripts := scripts_to_run args in
  match scripts with
  | [] => 1
  | _ :: _ =>
      match suite_init_error w with
      | Some _ => 1
      | None =>
          match run_monitoring_suite w (arg_config args) scripts
                  (common_args args) with
          | None => 1
          | Some results =>
              let error_count := count_status error results in
              let warning_count := count_status warning results in
              if 0 <? error_count then 2
              else if 0 <? warning_count then 1
              else 0
          end
      end
  end.

(** The classification the specification gives. *)
Definition classify (o : tool_outcome) : run_status :=
  match o with
  | Returns => success
  | Exits NoCode => success
  | Exits (IntCode 0) => success
  | Exits (IntCode 1) => warning
  | Exits _ => error
  | Raises _ => error
  | Interrupts => unknown
  end.

(** What each selected tool does in a run of [main], in the order the
    tools are run. *)
Definition tool_args (args : arguments) : list string :=
  "script" :: common_args args ++ ["--config"; arg_config args].

Definition selected_outcomes (args : arguments) (w : world)
  : list tool_outcome :=
  imap (fun i script => outcome (tool_main w script i (tool_args args)))
       (scripts_to_run args).

Definition exit_code_of (statuses : list run_status) : Z :=
  if bool_decide (error ∈ statuses) then 2
  else if bool_decide (warning ∈ statuses) then 1
  else 0.

(** *** Proofs *)

Lemma run_script_classify script_name script_main args :
  match run_script script_name script_main args with
  | Some r =>
      outcome (script_main ("script" :: args)) <> Interrupts /\
      name r = script_name /\
      status r = classify (outcome (script_main ("script" :: args)))
  | None => outcome (script_main ("script" :: args)) = Interrupts
  end.
Proof.
  unfold run_script.
  destruct (outcome (script_main ("script" :: args))) as [|code|msg|]; simpl;
    try done.
  split; [done|]. split; [done|].
  destruct code as [|n|t]; simpl; try done.
  destruct (Z.eqb_spec n 0) as [->|H0]; [done|].
  destruct (Z.eqb_spec n 1) as [->|H1]; [done|].
  destruct n as [|[q|q|]|q]; done.
Qed.

Lemma when_sublist (b : bool) (l : list string) : when b l `sublist_of` l.
Proof. destruct b; [done|apply sublist_nil_l]. Qed.

Lemma scripts_to_run_sublist args : scripts_to_run args `sublist_of` script_names.
Proof.
  unfold scripts_to_run. destruct (arg_all args); [done|].
  change script_names
    with (["discovery"] ++ ["health"] ++ ["port"] ++ ["vlan"]
          ++ ["interface"] ++ ["change"] ++ ["stp"]).
  repeat apply sublist_app; apply when_sublist.
Qed.

Lemma script_names_NoDup : NoDup script_names.
Proof. by apply (bool_decide_unpack _). Qed.

Lemma scripts_to_run_names args s :
  s ∈ scripts_to_run args -> s ∈ script_names.
Proof. apply sublist_subseteq, scripts_to_run_sublist. Qed.

Lemma scripts_to_run_NoDup args : NoDup (scripts_to_run args).
Proof.
  eapply sublist_NoDup; [apply script_names_NoDup|apply scripts_to_run_sublist].
Qed.

Lemma count_filter_pos s (l : list script_result) :
  (0 <? Z.of_nat (length (List.filter (fun r => bool_decide (status r = s)) l)))
  = bool_decide (s ∈ status <$> l).
Proof.
  induction l as [|r l IH]; [done|].
  rewrite fmap_cons. cbn [List.filter].
  destruct (decide (status r = s)) as [Hs|Hs].
  - rewrite (bool_decide_eq_true_2 _ Hs).
    rewrite bool_decide_eq_true_2 by (rewrite Hs; apply list_elem_of_here).
    apply Z.ltb_lt. simpl. lia.
  - rewrite (bool_decide_eq_false_2 _ Hs). rewrite IH.
    apply bool_decide_ext. rewrite elem_of_cons.
    split; [by right|]. by intros [Heq|?]; [subst|].
Qed.

Lemma count_status_pos s results :
  (0 <? count_status s results)
  = bool_decide (s ∈ status <$> PyDict.values results).
Proof. apply count_filter_pos. Qed.

(** The loop runs the tools one after the other and keeps one result
    for each. *)
Lemma run_scripts_all w config_file cargs scripts : forall ran results,
  NoDup scripts ->
  (forall s, s ∈ scripts -> s ∈ script_names /\ s ∉ PyDict.keys results) ->
  Interrupts ∉
    imap (fun i script =>
            outcome (tool_main w script (ran + i)
                       ("script" :: cargs ++ ["--config"; config_file])))
         scripts ->
  exists added,
    run_scripts w config_file cargs scripts ran results
      = Some (results ++ added) /\
    PyDict.keys added = scripts /\
    status <$> PyDict.values added =
      classify <$>
        imap (fun i script =>
                outcome (tool_main w script (ran + i)
                           ("script" :: cargs ++ ["--config"; config_file])))
             scripts.
Proof.
  induction scripts as [|script rest IH]; intros ran results Hnd Hin Hint.
  - exists []. by rewrite app_nil_r.
  - apply NoDup_cons in Hnd as [Hfresh Hnd].
    destruct (Hin script) as [Hname Hkey]; [apply list_elem_of_here|].
    simpl run_scripts. rewrite (bool_decide_eq_true_2 _ Hname).
    rewrite imap_cons in Hint. apply not_elem_of_cons in Hint as [Hhead Htail].
    rewrite Nat.add_0_r in Hhead.
    pose proof (run_script_classify script (tool_main w script ran)
                  (cargs ++ ["--config"; config_file])) as Hrun.
    destruct (run_script script (tool_main w script ran)
                (cargs ++ ["--config"; config_file])) as [r|];
      [|by rewrite Hrun in Hhead].
    destruct Hrun as (_ & Hrname & Hrstatus).
    rewrite PyDict.set_fresh by done.
    destruct (IH (S ran) (results ++ [(script, r)])) as (added & Hgo & Hkeys & Hst).
    + done.
    + intros s Hs. destruct (Hin s) as [? ?]; [by apply list_elem_of_further|].
      split; [done|]. rewrite PyDict.keys_app.
      change (PyDict.keys [(script, r)]) with [script].
      rewrite elem_of_app, list_elem_of_singleton.
      intros [?|Heq]; [done|]. by subst s.
    + erewrite imap_ext; [exact Htail|]. intros i x _. unfold compose.
      by rewrite Nat.add_succ_comm.
    + exists ((script, r) :: added). rewrite Hgo, <- app_assoc.
      split; [done|]. split.
      * unfold PyDict.keys in *. rewrite fmap_cons. by rewrite Hkeys.
      * unfold PyDict.values in *.
        rewrite imap_cons, !fmap_cons, Nat.add_0_r. cbn [snd].
        rewrite Hrstatus. f_equal. rewrite Hst. f_equal.
        apply imap_ext. intros i x _. unfold compose.
        by rewrite Nat.add_succ_comm.
Qed.

Lemma main_exit_code args w :
  scripts_to_run args <> [] ->
  suite_init_error w = None ->
  Interrupts ∉ selected_outcomes args w ->
  main args w = exit_code_of (classify <$> selected_outcomes args w).
Proof.
  intros Hsel Hinit Hint. unfold main. rewrite Hinit.
  destruct (scripts_to_run args) as [|s0 rest] eqn:Hscripts; [done|].
  rewrite <- Hscripts. unfold run_monitoring_suite.
  destruct (run_scripts_all w (arg_config args) (common_args args)
              (scripts_to_run args) 0 [])
    as (added & Hrun & _ & Hstatus).
  - apply scripts_to_run_NoDup.
  - intros s Hs. split; [by eapply scripts_to_run_names|].
    apply not_elem_of_nil.
  - exact Hint.
  - rewrite Hrun. rewrite app_nil_l. rewrite !count_status_pos, Hstatus.
    reflexivity.
Qed.

(** C3. For every selected tool, the runner records success when the
    entry function returns or exits with code 0 or with no code,
    warning when it exits with code 1, and error when it exits with any
    other code or raises an exception; and the exit code of the suite
    is 2 when the result of some tool is error, else 1 when the result
    of some tool is warning, else 0. *)
Theorem suite_runner_classification_and_exit_code :
  (forall script_name script_main args,
     outcome (script_main ("script" :: args)) <> Interrupts ->
     exists r,
       run_script script_name script_main args = Some r /\
       status r = classify (outcome (script_main ("script" :: args))))
  /\
  (classify Returns = success /\
   classify (Exits NoCode) = success /\
   classify (Exits (IntCode 0)) = success /\
   classify (Exits (IntCode 1)) = warning /\
   (forall n, n <> 0 -> n <> 1 -> classify (Exits (IntCode n)) = error) /\
   (forall t, classify (Exits (TextCode t)) = error) /\
   (forall msg, classify (Raises msg) = error))
  /\
  (forall args w,
     scripts_to_run args <> [] ->
     suite_init_error w = None ->
     Interrupts ∉ selected_outcomes args w ->
     main args w = exit_code_of (classify <$> selected_outcomes args w)).
Proof.
  split; [|split].
  - intros script_name script_main args Hint.
    pose proof (run_script_classify script_name script_main args) as Hrun.
    destruct (run_script script_name script_main args) as [r|]; [|done].
    exists r. by destruct Hrun as (_ & _ & ?).
  - repeat split; try done.
    intros n H0 H1. destruct n as [|[q|q|]|q]; done.
  - apply main_exit_code.
Qed.

(** Three runs of the suite: discovery returns, the health check exits
    with code 1, and the port mapper raises. *)
Definition sample_tools (script : string) (ran : nat) (argv : list string)
  : tool_run :=
  {| outcome := if String.eqb script "health" then Exits (IntCode 1)
                else if String.eqb script "port" then Raises "no route to host"
                else Returns;
     elapsed := 1 |}.

Definition sample_world : world :=
  {| suite_init_error := None; tool_main := sample_tools |}.

Definition select (discovery health port : bool) : arguments :=
  {| arg_all := false; arg_discovery := discovery; arg_health := health;
     arg_port := port; arg_vlan := false; arg_interface := false;
     arg_change := false; arg_stp := false;
     arg_config := "config/config.yaml";
     arg_output_formats := ["json"; "html"];
     arg_max_workers := 10; arg_timeout := 60;
     arg_site := None; arg_vendor := None; arg_role := None;
     arg_send_alerts := false; arg_continuous := false;
     arg_interval := 300; arg_verbose := false |}.

Lemma suite_runner_witness :
  main (select true false false) sample_world = 0 /\
  main (select true true false) sample_world = 1 /\
  main (select true true true) sample_world = 2.
Proof.
  destruct suite_runner_classification_and_exit_code as (_ & _ & Hexit).
  assert (Hclean : forall l : list tool_outcome,
            bool_decide (Interrupts ∈ l) = false -> Interrupts ∉ l).
  { intros l Hl Hin. by rewrite (bool_decide_eq_true_2 _ Hin) in Hl. }
  split; [|split].
  - rewrite (Hexit (select true false false) sample_world);
      [reflexivity|discriminate|reflexivity|by apply Hclean].
  - rewrite (Hexit (select true true false) sample_world);
      [reflexivity|discriminate|reflexivity|by apply Hclean].
  - rewrite (Hexit (select true true true) sample_world);
      [reflexivity|discriminate|reflexivity|by apply Hclean].
Defined.

End Runner.

(** ** The inventory file: [DeviceInfo.to_dict] and
    [load_existing_inventory] of scripts/device_discovery.py

    A device read back from the inventory file is a [DeviceInfo] whose
    attributes hold whatever the file held: the constructor checks the
    names of the attributes, not their types. The objects of this
    section are therefore instances as Python has them, an attribute
    being a JSON value or, for [capabilities], the instance the
    detector built. *)

Module Inventory.

(** What [json.load] returns and [asdict] builds (numbers finite). *)
#[warnings="-register-all"]
Inductive json :=
| JNull
| JBool (b : bool)
| JInt (n : Z)
| JFloat (q : Q)
| JStr (s : string)
| JList (l : list json)
| JDict (d : list (string * json)).

Inductive exn :=
| TypeError (what : string)
| AttributeError (what : string).

(** Truthiness of a value. *)
Definition truthy (v : json) : bool :=
  match v with
  | JNull => false
  | JBool b => b
  | JInt n => negb (n =? 0)
  | JFloat q => negb (Qeq_bool q 0)
  | JStr s => Py.truthy s
  | JList l => match l with [] => false | _ :: _ => true end
  | JDict d => match d with [] => false | _ :: _ => true end
  end.

Definition of_option (o : option string) : json :=
  match o with
  | Some s => JStr s
  | None => JNull
  end.

(** [asdict] of a capability set. *)
Definition capabilities_dict (c : DeviceTypes.DeviceCapabilities)
  : PyDict.t json :=
  [("vendor", JStr (DeviceTypes.vendor c));
   ("model", of_option (DeviceTypes.model c));
   ("version", of_option (DeviceTypes.version c));
   ("supports_enable_mode", JBool (DeviceTypes.supports_enable_mode c));
   ("supports_config_mode", JBool (DeviceTypes.supports_config_mode c));
   ("supports_commit", JBool (DeviceTypes.supports_commit c));
   ("supports_rollback", JBool (DeviceTypes.supports_rollback c));
   ("supports_archive", JBool (DeviceTypes.supports_archive c));
   ("supports_scp", JBool (DeviceTypes.supports_scp c));
   ("supports_https", JBool (DeviceTypes.supports_https c));
   ("max_vlan_id", JInt (DeviceTypes.max_vlan_id c));
   ("features", JList (JStr <$> DeviceTypes.features c));
   ("command_syntax", JStr (DeviceTypes.command_syntax c))].

(** An attribute of an instance: a plain value, or a
    [DeviceCapabilities] instance. *)
Inductive attribute :=
| Value (v : json)
| Instance (c : DeviceTypes.DeviceCapabilities).

(** A [DeviceInfo] instance: its attributes in the order of the fields. *)
Definition device_object : Type := list (string * attribute).

(** The fields of the dataclass with their defaults; [ip_address] has
    none. *)
Definition field_defaults : list (string * option json) :=
  [("ip_address", None);
   ("hostname", Some (JStr ""));
   ("vendor", Some (JStr ""));
   ("model", Some (JStr ""));
   ("serial", Some (JStr ""));
   ("os_version", Some (JStr ""));
   ("device_type", Some (JStr ""));
   ("role", Some (JStr ""));
   ("location", Some (JStr ""));
   ("uptime", Some (JStr ""));
   ("management_ip", Some (JStr ""));
   ("interfaces_count", Some (JInt 0));
   ("vlans_count", Some (JInt 0));
   ("mac_address", Some (JStr ""));
   ("snmp_community", Some (JStr ""));
   ("ssh_enabled", Some (JBool false));
   ("telnet_enabled", Some (JBool false));
   ("https_enabled", Some (JBool false));
   ("discovery_method", Some (JStr ""));
   ("last_seen", Some (JStr ""));
   ("reachable", Some (JBool false));
   ("response_time", Some (JFloat 0));
   ("capabilities", Some JNull)].

Definition field_names : list string := field_defaults.*1.

(** The instance the discovery code builds, as a record holds it. *)
Definition of_record (d : Discovery.DeviceInfo) : device_object :=
  [("ip_address", Value (JStr (Discovery.ip_address d)));
   ("hostname", Value (JStr (Discovery.hostname d)));
   ("vendor", Value (JStr (Discovery.vendor d)));
   ("model", Value (JStr (Discovery.model d)));
   ("serial", Value (JStr (Discovery.serial d)));
   ("os_version", Value (JStr (Discovery.os_version d)));
   ("device_type", Value (JStr (Discovery.device_type d)));
   ("role", Value (JStr (Discovery.role d)));
   ("location", Value (JStr (Discovery.location d)));
   ("uptime", Value (JStr (Discovery.uptime d)));
   ("management_ip", Value (JStr (Discovery.management_ip d)));
   ("interfaces_count", Value (JInt (Discovery.interfaces_count d)));
   ("vlans_count", Value (JInt (Discovery.vlans_count d)));
   ("mac_address", Value (JStr (Discovery.mac_address d)));
   ("snmp_community", Value (JStr (Discovery.snmp_community d)));
   ("ssh_enabled", Value (JBool (Discovery.ssh_enabled d)));
   ("telnet_enabled", Value (JBool (Discovery.telnet_enabled d)));
   ("https_enabled", Value (JBool (Discovery.https_enabled d)));
   ("discovery_method", Value (JStr (Discovery.discovery_method d)));
   ("last_seen", Value (JStr (Discovery.last_seen d)));
   ("reachable", Value (JBool (Discovery.reachable d)));
   ("response_time", Value (JFloat (Discovery.response_time d)));
   ("capabilities",
    match Discovery.capabilities d with
    | Some c => Instance c
    | None => Value JNull
    end)].

(** [asdict(self)]: a deep copy, instances turned into dictionaries. *)
Definition asdict (self : device_object) : PyDict.t json :=
  (fun '(name, a) =>
     (name, match a with
            | Value v => v
            | Instance c => JDict (capabilities_dict c)
            end)) <$> self.

(** [asdict(x)] for an attribute: only an instance has fields. *)
Definition asdict_attribute (a : attribute) : result exn json :=
  match a with
  | Instance c => Ok (JDict (capabilities_dict c))
  | Value _ => Err (TypeError "asdict() should be called on dataclass instances")
  end.

Definition attribute_truthy (a : attribute) : bool :=
  match a with
  | Instance _ => true
  | Value v => truthy v
  end.

Definition to_dict (self : device_object) : result exn (PyDict.t json) :=
  let data := asdict self in
  match PyDict.get "capabilities" self with
  | Some capabilities =>
      if attribute_truthy capabilities then
        match asdict_attribute capabilities with
        | Ok c => Ok (PyDict.set "capabilities" c data)
        | Err e => Err e
        end
      else Ok data
  | None => Err (AttributeError "capabilities")
  end.

(** The constructor called with the entry as its keywords: every
    keyword must name a field, and [ip_address] must be given. *)
Fixpoint fill (fields : list (string * option json)) (kw : PyDict.t json)
  : result exn device_object :=
  match fields with
  | [] => Ok []
  | (name, default) :: rest =>
      match (match PyDict.get name kw with
             | Some v => Some v
             | None => default
             end) with
      | None => Err (TypeError "missing a required argument")
      | Some v =>
          match fill rest kw with
          | Ok o => Ok ((name, Value v) :: o)
          | Err e => Err e
          end
      end
  end.

Definition construct (device_data : json) : result exn device_object :=
  match device_data with
  | JDict kw =>
      if forallb (fun k => bool_decide (k ∈ field_names)) (PyDict.keys kw)
      then fill field_defaults kw
      else Err (TypeError "got an unexpected keyword argument")
  | _ => Err (TypeError "argument after ** must be a mapping")
  end.

(** Keys of [known_devices]: the hashable values, equal as Python
    compares them (a number is one key whether read as an integer, a
    float or a boolean). *)
Inductive key :=
| KNone
| KNum (q : Q)
| KStr (s : string).

Definition hashable (v : json) : option key :=
  match v with
  | JNull => Some KNone
  | JBool b => Some (KNum (if b then 1 else 0))
  | JInt n => Some (KNum (inject_Z n))
  | JFloat q => Some (KNum q)
  | JStr s => Some (KStr s)
  | JList _ | JDict _ => None
  end.

Definition key_eqb (a b : key) : bool :=
  match a, b with
  | KNone, KNone => true
  | KNum p, KNum q => Qeq_bool p q
  | KStr s, KStr t => String.eqb s t
  | _, _ => false
  end.

Definition known : Type := list (key * device_object).

(** [known_devices[k] = device] *)
Fixpoint store (k : key) (device : device_object) (d : known) : known :=
  match d with
  | [] => [(k, device)]
  | (k', device') :: d' =>
      if key_eqb k k' then (k', device) :: d'
      else (k', device') :: store k device d'
  end.

(** One pass of the loop of [load_existing_inventory]; [None] when the
    pass raises. *)
Definition load_device (device_data : json) (known_devices : known)
  : option known :=
  match construct device_data with
  | Err _ => None
  | Ok device =>
      match PyDict.get "ip_address" device with
      | Some (Value v) =>
          match hashable v with
          | Some k => Some (store k device known_devices)
          | None => None
          end
      | _ => None
      end
  end.

(** The loop: the first pass that raises ends it, and what was stored
    before stays. The flag says whether an error was logged. *)
Fixpoint load_devices (entries : list json) (known_devices : known)
  : known * bool :=
  match entries with
  | [] => (known_devices, false)
  | device_data :: rest =>
      match load_device device_data known_devices with
      | Some known_devices => load_devices rest known_devices
      | None => (known_devices, true)
      end
  end.

(** What is on disk at [inventory_file]: nothing, something that cannot
    be opened or parsed, or a JSON document. *)
Inductive on_disk :=
| Missing
| Unreadable
| Document (data : json).

(** [data.get('devices', [])] and the iteration over it: [None] when
    either raises. *)
Definition entries_of (data : json) : option (list json) :=
  match data with
  | JDict d =>
      match PyDict.get "devices" d with
      | None => Some []
      | Some (JList l) => Some l
      | Some (JDict entries) => Some (JStr <$> PyDict.keys entries)
      | Some (JStr s) =>
          Some ((fun c => JStr (String c "")) <$> String.list_ascii_of_string s)
      | Some _ => None
      end
  | _ => None
  end.

Definition load_existing_inventory (file : on_disk) (known_devices : known)
  : known * bool :=
  match file with
  | Missing => (known_devices, false)
  | Unreadable => (known_devices, true)
  | Document data =>
      match entries_of data with
      | Some entries => load_devices entries known_devices
      | None => (known_devices, true)
      end
  end.

(** [[device.to_dict() for device in all_devices.values()]] of
    [save_inventory]: the first device that raises ends it. *)
Fixpoint device_list (devices : list device_object)
  : result exn (list (PyDict.t json)) :=
  match devices with
  | [] => Ok []
  | device :: rest =>
      match to_dict device with
      | Err e => Err e
      | Ok data =>
          match device_list rest with
          | Ok l => Ok (data :: l)
          | Err e => Err e
          end
      end
  end.

(** *** Proofs *)

Lemma keys_asdict (self : device_object) :
  PyDict.keys (asdict self) = PyDict.keys self.
Proof.
  unfold PyDict.keys, asdict. rewrite <- list_fmap_compose.
  apply list_fmap_ext. by intros i [name a] _.
Qed.

Lemma keys_of_record (d : Discovery.DeviceInfo) :
  PyDict.keys (of_record d) = field_names.
Proof. reflexivity. Qed.

(** The dictionary a record is exported as. *)
Lemma to_dict_of_record (d : Discovery.DeviceInfo) :
  to_dict (of_record d) = Ok (asdict (of_record d)).
Proof.
  unfold to_dict.
  change (PyDict.get "capabilities" (of_record d))
    with (Some (match Discovery.capabilities d with
                | Some c => Instance c
                | None => Value JNull
                end)).
  destruct (Discovery.capabilities d) as [c|] eqn:Hc; [|done].
  cbn [attribute_truthy asdict_attribute].
  unfold asdict, of_record. rewrite Hc. reflexivity.
Qed.

(** Reading an exported record back gives an instance with the same
    attributes, the capability set being the dictionary it was
    exported as. *)
Lemma construct_exported (d : Discovery.DeviceInfo) :
  construct (JDict (asdict (of_record d)))
  = Ok ((fun '(name, v) => (name, Value v)) <$> asdict (of_record d)).
Proof. reflexivity. Qed.

Lemma construct_plain (d : Discovery.DeviceInfo) :
  Discovery.capabilities d = None ->
  construct (JDict (asdict (of_record d))) = Ok (of_record d).
Proof.
  intros Hc. rewrite construct_exported. unfold asdict, of_record.
  by rewrite Hc.
Qed.

(** A list that holds a device whose export raises cannot be exported. *)
Lemma device_list_raises (device : device_object) (e : exn) :
  to_dict device = Err e ->
  forall devices, device ∈ devices -> exists e', device_list devices = Err e'.
Proof.
  intros Hbad devices. induction devices as [|first rest IH]; intros Hin.
  - by apply elem_of_nil in Hin.
  - cbn [device_list]. apply elem_of_cons in Hin as [<-|Hin].
    + rewrite Hbad. by eexists.
    + destruct (to_dict first); [|by eexists].
      destruct (IH Hin) as [e' ->]. by eexists.
Qed.

(** Whether an entry loads does not depend on what was loaded before. *)
Lemma load_device_fails (device_data : json) (k1 k2 : known) :
  load_device device_data k1 = None -> load_device device_data k2 = None.
Proof.
  unfold load_device. destruct (construct device_data) as [device|]; [|done].
  destruct (PyDict.get "ip_address" device) as [[v|c]|]; try done.
  by destruct (hashable v).
Qed.

Lemma load_devices_app (good rest : list json) (known_devices : known) :
  (load_devices good known_devices).2 = false ->
  load_devices (good ++ rest) known_devices
  = load_devices rest (load_devices good known_devices).1.
Proof.
  revert known_devices. induction good as [|entry good IH]; intros k Hgood.
  - done.
  - cbn [load_devices app] in *.
    destruct (load_device entry k) as [k'|]; [by apply IH|done].
Qed.

(** X1. A device that was discovered over SSH, and so carries a
    capability set, is written to the inventory file with that set as a
    dictionary; read back by the next run it is an instance whose
    [capabilities] is that dictionary, and [to_dict] raises TypeError on
    it, so that no list of devices holding it can be exported. A device
    without a capability set is read back as the instance it was. *)
Theorem reloaded_device_export (d : Discovery.DeviceInfo) :
  exists exported reloaded,
    to_dict (of_record d) = Ok exported /\
    construct (JDict exported) = Ok reloaded /\
    match Discovery.capabilities d with
    | None => reloaded = of_record d /\ to_dict reloaded = Ok exported
    | Some c =>
        PyDict.get "capabilities" reloaded
          = Some (Value (JDict (capabilities_dict c))) /\
        to_dict reloaded
          = Err (TypeError "asdict() should be called on dataclass instances") /\
        forall devices,
          reloaded ∈ devices -> exists e, device_list devices = Err e
    end.
Proof.
  exists (asdict (of_record d)).
  exists ((fun '(name, v) => (name, Value v)) <$> asdict (of_record d)).
  split; [apply to_dict_of_record|]. split; [apply construct_exported|].
  destruct (Discovery.capabilities d) as [c|] eqn:Hc.
  - assert (Hget : PyDict.get "capabilities"
                     ((fun '(name, v) => (name, Value v)) <$> asdict (of_record d))
                   = Some (Value (JDict (capabilities_dict c)))).
    { unfold asdict, of_record. rewrite Hc. reflexivity. }
    assert (Hraise : to_dict
                       ((fun '(name, v) => (name, Value v)) <$> asdict (of_record d))
                     = Err (TypeError
                              "asdict() should be called on dataclass instances")).
    { unfold to_dict. rewrite Hget. reflexivity. }
    split; [exact Hget|]. split; [exact Hraise|].
    by apply device_list_raises with (e := TypeError
             "asdict() should be called on dataclass instances").
  - assert (Hsame : (fun '(name, v) => (name, Value v)) <$> asdict (of_record d)
                    = of_record d).
    { unfold asdict, of_record. by rewrite Hc. }
    rewrite Hsame. split; [done|apply to_dict_of_record].
Qed.

(** X2. The loop that reads the inventory back stops at the first
    entry it cannot load (an entry that is no dictionary, that has a key
    naming no field, that lacks [ip_address], or whose [ip_address]
    cannot be a dictionary key): the entries before it are kept, the
    entries after it are not loaded, and an error is logged. *)
Theorem load_stops_at_first_bad_entry (good : list json) (bad : json)
    (rest : list json) (known_devices : known) :
  (load_devices good known_devices).2 = false ->
  load_device bad [] = None ->
  load_devices (good ++ bad :: rest) known_devices
  = ((load_devices good known_devices).1, true).
Proof.
  intros Hgood Hbad. rewrite load_devices_app by done.
  cbn [load_devices].
  by rewrite (load_device_fails bad [] _ Hbad).
Qed.

(** An inventory of three entries, the second written by a later
    version with a field this one does not have. *)
Definition entry_for (ip : string) : json := JDict [("ip_address", JStr ip)].

Definition entry_with_site : json :=
  JDict [("ip_address", JStr "10.0.0.2"); ("site", JStr "lab")].

Lemma load_stops_at_first_bad_entry_witness :
  load_devices [entry_for "10.0.0.1"; entry_with_site; entry_for "10.0.0.3"] []
  = ((load_devices [entry_for "10.0.0.1"] []).1, true)
  /\ (fst <$> (load_devices [entry_for "10.0.0.1"] []).1) = [KStr "10.0.0.1"].
Proof.
  split; [|reflexivity].
  apply (load_stops_at_first_bad_entry [entry_for "10.0.0.1"] entry_with_site
           [entry_for "10.0.0.3"] []); reflexivity.
Defined.

End Inventory.

(** ** Command lines: the part of [argparse] the tools use

    Every tool builds a parser of options only (no positional
    argument), each option with one long name and at most a short one,
    and calls [parse_args] on the arguments after the program name. The
    behaviour is that of CPython 3.11. Text is ASCII: a token with a
    character outside ASCII, the token [--], a long option written with
    [=], and a token with a single dash that is neither an option nor a
    negative integer are outside what is modelled. *)

Module ArgParse.

Inductive value :=
| VNone
| VBool (b : bool)
| VStr (s : string)
| VInt (n : Z)
| VList (l : list string).

(** What [add_argument] declares: [store_true]; one argument, kept as
    text or read by [int]; [nargs='+'], with or without [choices]. *)
Inductive kind :=
| Flag
| Str
| Int
| Many (choices : option (list string)).

Record option_decl := {
  long : string;
  short : option string;
  dest : string;
  opt_kind : kind;
  required : bool;
  default : value
}.

Definition parser : Type := list option_decl.

Inductive outcome :=
| Parsed (namespace : PyDict.t value)
| Exit (code : Z).

(** How [_parse_optional] reads one token. *)
Inductive token_class :=
| Arg
| Opt (d : option_decl)
| HelpOpt
| Unknown
| Ambiguous
| Unmodelled.

(** The option strings of a parser with what they select ([None]: the
    help that every parser adds). *)
Definition option_strings (p : parser) : list (string * option option_decl) :=
  ("-h", None) :: ("--help", None) ::
  flat_map (fun d => (long d, Some d) ::
                     match short d with
                     | Some s => [(s, Some d)]
                     | None => []
                     end) p.

Definition selects (target : option option_decl) : token_class :=
  match target with
  | Some d => Opt d
  | None => HelpOpt
  end.

Definition is_ascii_text (s : string) : bool :=
  forallb (fun c => (nat_of_ascii c <? 128)%nat) (String.list_ascii_of_string s).

Definition tail (s : string) : string :=
  match s with
  | EmptyString => EmptyString
  | String _ s' => s'
  end.

Definition classify (p : parser) (t : string) : token_class :=
  if negb (is_ascii_text t) then Unmodelled
  else if negb (String.prefix "-" t) then Arg
  else
    match List.find (fun entry => String.eqb entry.1 t) (option_strings p) with
    | Some entry => selects entry.2
    | None =>
        if String.eqb t "-" then Arg
        else if String.prefix "--" t then
          if (String.eqb t "--" || Py.char_in "=" t)%bool then Unmodelled
          else
            match List.filter (fun entry => String.prefix t entry.1)
                              (option_strings p) with
            | [entry] => selects entry.2
            | _ :: _ :: _ => Ambiguous
            | [] => if Py.char_in " " t then Arg else Unknown
            end
        else
          match Py.digits (tail t) with
          | Some _ => Arg
          | None => Unmodelled
          end
    end.

(** [int(text)] on ASCII text: white space around, an optional sign,
    and digits, where single underscores may part the digits. *)
Fixpoint grouped_digits (acc : Z) (after_digit : bool) (s : string) : option Z :=
  match s with
  | EmptyString => if after_digit then Some acc else None
  | String c s' =>
      match Py.digit c with
      | Some d => grouped_digits (10 * acc + d) true s'
      | None =>
          if (Ascii.eqb c "_" && after_digit)%bool
          then match s' with
               | EmptyString => None
               | String c' _ =>
                   match Py.digit c' with
                   | Some _ => grouped_digits acc false s'
                   | None => None
                   end
               end
          else None
      end
  end.

(** The white space [int] passes over: tab, line feed, vertical tab,
    form feed, carriage return and space. *)
Definition int_space : string :=
  String (ascii_of_nat 9) (String (ascii_of_nat 10) (String (ascii_of_nat 11)
    (String (ascii_of_nat 12) (String (ascii_of_nat 13) " ")))).

Definition int (text : string) : option Z :=
  match Py.strip_chars int_space text with
  | String "-" r => Z.opp <$> grouped_digits 0 false r
  | String "+" r => grouped_digits 0 false r
  | r => grouped_digits 0 false r
  end.

(** The state of the parse: the namespace, the options seen, and the
    arguments no option took. *)
Record progress := {
  namespace : PyDict.t value;
  seen : list string;
  extras : list string
}.

Definition assign (d : option_decl) (v : value) (r : progress) : progress :=
  {| namespace := PyDict.set (dest d) v (namespace r);
     seen := seen r; extras := extras r |}.

Definition mark (d : option_decl) (r : progress) : progress :=
  {| namespace := namespace r; seen := long d :: seen r; extras := extras r |}.

Definition add_extra (t : string) (r : progress) : progress :=
  {| namespace := namespace r; seen := seen r; extras := extras r ++ [t] |}.

(** What the parser is waiting for: an option, the one argument of an
    option, or more arguments of an option that takes one or more. *)
Inductive state :=
| Top
| One (d : option_decl)
| Gather (d : option_decl) (got : list string).

Inductive step_result :=
| Continue (st : state) (r : progress)
| Stop (o : option outcome).

(** The arguments gathered for an option are checked against its
    choices and stored; [None] when the check fails. *)
Definition close (d : option_decl) (got : list string) (r : progress)
  : option progress :=
  match got with
  | [] => None
  | _ :: _ =>
      match opt_kind d with
      | Many (Some choices) =>
          if forallb (fun g => bool_decide (g ∈ choices)) got
          then Some (assign d (VList got) r)
          else None
      | _ => Some (assign d (VList got) r)
      end
  end.

Definition at_top (r : progress) (t : string) (c : token_class) : step_result :=
  match c with
  | Arg | Unknown => Continue Top (add_extra t r)
  | HelpOpt => Stop (Some (Exit 0))
  | Opt d =>
      match opt_kind d with
      | Flag => Continue Top (assign d (VBool true) (mark d r))
      | Str | Int => Continue (One d) (mark d r)
      | Many _ => Continue (Gather d []) (mark d r)
      end
  | Ambiguous | Unmodelled => Stop None
  end.

Definition step (p : parser) (st : state) (r : progress) (t : string)
  : step_result :=
  let c := classify p t in
  match st with
  | Top => at_top r t c
  | One d =>
      match c with
      | Arg =>
          match opt_kind d with
          | Int =>
              match int t with
              | Some n => Continue Top (assign d (VInt n) r)
              | None => Stop (Some (Exit 2))
              end
          | _ => Continue Top (assign d (VStr t) r)
          end
      | _ => Stop (Some (Exit 2))
      end
  | Gather d got =>
      match c with
      | Arg => Continue (Gather d (got ++ [t])) r
      | _ =>
          match close d got r with
          | Some r' => at_top r' t c
          | None => Stop (Some (Exit 2))
          end
      end
  end.

(** The end of the command line: a pending option must have its
    arguments, every required option must have been seen, and no
    argument may be left over. *)
Definition finish (p : parser) (st : state) (r : progress) : option outcome :=
  let settled :=
    match st with
    | Top => Some r
    | One _ => None
    | Gather d got => close d got r
    end in
  match settled with
  | None => Some (Exit 2)
  | Some r =>
      if existsb (fun d => (required d
                            && negb (bool_decide (long d ∈ seen r)))%bool) p
      then Some (Exit 2)
      else match extras r with
           | [] => Some (Parsed (namespace r))
           | _ :: _ => Some (Exit 2)
           end
  end.

Fixpoint consume (p : parser) (st : state) (r : progress) (tokens : list string)
  : option outcome :=
  match tokens with
  | [] => finish p st r
  | t :: rest =>
      match step p st r t with
      | Continue st' r' => consume p st' r' rest
      | Stop o => o
      end
  end.

Definition defaults (p : parser) : progress :=
  {| namespace := (fun d => (dest d, default d)) <$> p; seen := []; extras := [] |}.

Definition is_class (c c' : token_class) : bool :=
  match c, c' with
  | Ambiguous, Ambiguous | Unmodelled, Unmodelled => true
  | _, _ => false
  end.

(** [parser.parse_args(argv)]: every token is read first, and an
    ambiguous abbreviation ends the parse before any option acts;
    [None] when a token is outside what is modelled. *)
Definition parse_args (p : parser) (argv : list string) : option outcome :=
  if existsb (fun t => is_class Unmodelled (classify p t)) argv then None
  else if existsb (fun t => is_class Ambiguous (classify p t)) argv
  then Some (Exit 2)
  else consume p Top (defaults p) argv.

(** *** The parsers of the tools *)

Definition formats : list string := ["json"; "csv"; "html"; "excel"; "pdf"].

Definition flag (name : string) (dest : string) : option_decl :=
  {| long := name; short := None; dest := dest; opt_kind := Flag;
     required := false; default := VBool false |}.

Definition config_option : option_decl :=
  {| long := "--config"; short := None; dest := "config"; opt_kind := Str;
     required := false; default := VStr "config/config.yaml" |}.

Definition output_formats_option (default : list string) : option_decl :=
  {| long := "--output-formats"; short := None; dest := "output_formats";
     opt_kind := Many (Some formats); required := false;
     default := VList default |}.

Definition verbose_option : option_decl :=
  {| long := "--verbose"; short := Some "-v"; dest := "verbose";
     opt_kind := Flag; required := false; default := VBool false |}.

Definition int_option (name dest : string) (default : Z) : option_decl :=
  {| long := name; short := None; dest := dest; opt_kind := Int;
     required := false; default := VInt default |}.

Definition text_option (name dest : string) : option_decl :=
  {| long := name; short := None; dest := dest; opt_kind := Str;
     required := false; default := VNone |}.

Definition port_mapper : parser :=
  [config_option; output_formats_option ["json"; "csv"; "html"];
   flag "--unused-only" "unused_only"; verbose_option].

Definition vlan_audit : parser :=
  [config_option; output_formats_option ["json"; "csv"; "html"];
   flag "--consistency-only" "consistency_only";
   flag "--send-alerts" "send_alerts"; verbose_option].

Definition interface_monitor : parser :=
  [config_option; output_formats_option ["json"; "csv"; "html"];
   flag "--errors-only" "errors_only";
   flag "--send-alerts" "send_alerts"; verbose_option].

Definition change_logger : parser :=
  [config_option; output_formats_option ["json"; "csv"; "html"];
   flag "--continuous" "continuous"; int_option "--interval" "interval" 300;
   flag "--config-only" "config_only";
   flag "--send-alerts" "send_alerts"; verbose_option].

Definition stp_analyzer : parser :=
  [config_option; output_formats_option ["json"; "csv"; "html"];
   flag "--topology-only" "topology_only";
   flag "--send-alerts" "send_alerts"; verbose_option].

Definition health_check : parser :=
  [config_option; output_formats_option ["json"; "csv"; "html"];
   int_option "--max-workers" "max_workers" 20;
   int_option "--timeout" "timeout" 30;
   text_option "--site" "site"; text_option "--vendor" "vendor";
   text_option "--role" "role"; flag "--send-alerts" "send_alerts";
   flag "--dashboard-only" "dashboard_only"; verbose_option].

Definition ranges_option : option_decl :=
  {| long := "--ranges"; short := None; dest := "ranges";
     opt_kind := Many None; required := true; default := VNone |}.

Definition device_discovery : parser :=
  [ranges_option; config_option; output_formats_option ["json"; "csv"; "html"];
   flag "--incremental" "incremental";
   int_option "--max-workers" "max_workers" 50;
   int_option "--timeout" "timeout" 10;
   text_option "--site" "site"; text_option "--vendor" "vendor";
   text_option "--role" "role"; verbose_option].

(** The parser of each tool of the suite, by its key in the runner. *)
Definition parser_of (script : string) : parser :=
  if String.eqb script "discovery" then device_discovery
  else if String.eqb script "health" then health_check
  else if String.eqb script "port" then port_mapper
  else if String.eqb script "vlan" then vlan_audit
  else if String.eqb script "interface" then interface_monitor
  else if String.eqb script "change" then change_logger
  else if String.eqb script "stp" then stp_analyzer
  else [].

(** *** Proofs *)

(** A token that can be read: an argument, a declared option, or an
    option the parser does not know. *)
Definition readable (p : parser) (t : string) : bool :=
  match classify p t with
  | Arg | Opt _ | Unknown => true
  | HelpOpt | Ambiguous | Unmodelled => false
  end.

(** Text that cannot be taken for an option. *)
Definition plain (s : string) : bool :=
  (is_ascii_text s && negb (String.prefix "-" s))%bool.

Lemma classify_plain (p : parser) (t : string) :
  plain t = true -> classify p t = Arg.
Proof.
  unfold plain, classify. intros [Hascii Hdash]%andb_true_iff.
  by rewrite Hascii, Hdash.
Qed.

Lemma readable_plain (p : parser) (t : string) :
  plain t = true -> readable p t = true.
Proof. intros Hplain. unfold readable. by rewrite classify_plain. Qed.

Lemma digit_of_char (m : N) :
  (m < 10)%N -> Py.digit (pretty_N_char m) = Some (Z.of_N m).
Proof.
  intros Hm.
  assert (m = 0 \/ m = 1 \/ m = 2 \/ m = 3 \/ m = 4 \/ m = 5 \/ m = 6
          \/ m = 7 \/ m = 8 \/ m = 9)%N as Hcases by lia.
  repeat (destruct Hcases as [->|Hcases]; [reflexivity|]). by subst.
Qed.

(** Reading the digits that [pretty] wrote gives the number back. *)
Lemma digits_from_pretty_go (x : N) : forall s,
  Py.digits_from 0 (pretty_N_go x s) = Py.digits_from (Z.of_N x) s.
Proof.
  induction (N.lt_wf_0 x) as [x _ IH]; intros s.
  assert (x = 0 \/ 0 < x)%N as [->|Hpos] by lia.
  - by rewrite pretty_N_go_0.
  - rewrite pretty_N_go_step by done.
    rewrite IH by (by apply N.div_lt).
    cbn [Py.digits_from].
    rewrite digit_of_char by (apply N.mod_lt; lia).
    f_equal. rewrite N2Z.inj_div, N2Z.inj_mod. change (Z.of_N 10) with 10.
    Z.div_mod_to_equations. lia.
Qed.

Lemma digits_pretty (n : Z) : 0 <= n -> Py.digits (pretty n) = Some n.
Proof.
  intros Hn. destruct n as [|q|q]; [reflexivity| |lia].
  change (pretty (Z.pos q)) with (pretty_N_go (N.pos q) "").
  pose proof (digits_from_pretty_go (N.pos q) "") as Hgo.
  cbn [Py.digits_from] in Hgo. unfold Py.digits.
  destruct (pretty_N_go (N.pos q) "") as [|c s] eqn:Htext; [done|].
  exact Hgo.
Qed.

Lemma digit_plain (c : ascii) (d : Z) :
  Py.digit c = Some d ->
  (nat_of_ascii c <? 128)%nat = true /\ Ascii.eqb "-" c = false.
Proof.
  unfold Py.digit.
  destruct (Nat.leb_spec 48 (nat_of_ascii c)) as [H48|]; [|done].
  destruct (Nat.leb_spec (nat_of_ascii c) 57) as [H57|]; [|done].
  intros _. split; [apply Nat.ltb_lt; lia|].
  destruct (Ascii.eqb_spec "-" c) as [<-|]; [|done].
  change (nat_of_ascii "-") with 45%nat in H48. lia.
Qed.

Lemma digits_from_ascii (s : string) : forall acc n,
  Py.digits_from acc s = Some n -> is_ascii_text s = true.
Proof.
  induction s as [|c s IH]; intros acc n; [done|]. cbn [Py.digits_from].
  destruct (Py.digit c) as [d|] eqn:Hd; [|done]. intros Hrest.
  unfold is_ascii_text. cbn [String.list_ascii_of_string forallb].
  destruct (digit_plain c d Hd) as [-> _]. by eapply IH.
Qed.

Lemma prefix_dash (c : ascii) (s : string) :
  String.prefix "-" (String c s) = Ascii.eqb "-" c.
Proof.
  change (String.prefix "-" (String c s))
    with (if Ascii.ascii_dec "-" c then String.prefix "" s else false).
  destruct (Ascii.ascii_dec "-" c) as [<-|Hne].
  - rewrite Ascii.eqb_refl. by destruct s.
  - by destruct (Ascii.eqb_spec "-" c).
Qed.

Lemma digits_plain (s : string) (n : Z) : Py.digits s = Some n -> plain s = true.
Proof.
  unfold Py.digits, plain. destruct s as [|c s]; [done|]. intros Hd.
  rewrite (digits_from_ascii _ _ _ Hd). cbn [Py.digits_from] in Hd.
  destruct (Py.digit c) as [d|] eqn:Hc; [|done].
  destruct (digit_plain c d Hc) as [_ Hdash].
  by rewrite prefix_dash, Hdash.
Qed.

Lemma pretty_plain (n : Z) : 0 <= n -> plain (pretty n) = true.
Proof. intros Hn. by apply (digits_plain _ n), digits_pretty. Qed.

Lemma close_keeps (d : option_decl) (got : list string) (r r' : progress) :
  close d got r = Some r' -> seen r' = seen r /\ extras r' = extras r.
Proof.
  unfold close. destruct got; [done|].
  destruct (opt_kind d) as [| | |[choices|]]; try (by intros [= <-]).
  destruct (forallb _ _); [|done]. by intros [= <-].
Qed.

(** Why a parse cannot succeed: an argument is already left over, a
    token to come names no option of the parser, or a required option
    was not seen and no token to come selects it. *)
Definition doomed (p : parser) (r : progress) (tokens : list string) : Prop :=
  extras r <> [] \/
  (exists t, t ∈ tokens /\ classify p t = Unknown) \/
  (exists d, d ∈ p /\ required d = true /\ (long d ∉ seen r) /\
             forall t d', t ∈ tokens -> classify p t = Opt d' -> long d' <> long d).

Lemma add_extra_nonempty (t : string) (r : progress) : extras (add_extra t r) <> [].
Proof. simpl. by destruct (extras r). Qed.

Lemma finish_doomed (p : parser) (st : state) (r : progress) :
  doomed p r [] -> finish p st r = Some (Exit 2).
Proof.
  intros Hdoom. unfold finish.
  assert (Hsettled : forall r', seen r' = seen r -> extras r' = extras r ->
            (if existsb (fun d => (required d
                                  && negb (bool_decide (long d ∈ seen r')))%bool) p
             then Some (Exit 2)
             else match extras r' with
                  | [] => Some (Parsed (namespace r'))
                  | _ :: _ => Some (Exit 2)
                  end) = Some (Exit 2)).
  { intros r' Hseen Hextras. rewrite Hseen, Hextras.
    destruct (existsb _ p) eqn:Hreq; [done|].
    destruct Hdoom as [Hex|[(t & Ht & _)|(d & Hd & Hr & Hs & _)]].
    - by destruct (extras r).
    - by apply elem_of_nil in Ht.
    - assert (existsb (fun d => (required d
                 && negb (bool_decide (long d ∈ seen r)))%bool) p = true) as Hyes.
      { apply existsb_exists. exists d. split; [by apply list_elem_of_In|].
        rewrite Hr. by rewrite bool_decide_eq_false_2. }
      congruence. }
  destruct st as [|d|d got]; [by apply Hsettled|done|].
  destruct (close d got r) as [r'|] eqn:Hclose; [|done].
  destruct (close_keeps _ _ _ _ Hclose). by apply Hsettled.
Qed.

Lemma at_top_doomed (p : parser) (r : progress) (t : string) (rest : list string) :
  readable p t = true ->
  doomed p r (t :: rest) ->
  match at_top r t (classify p t) with
  | Continue st' r' => doomed p r' rest
  | Stop o => o = Some (Exit 2)
  end.
Proof.
  unfold readable. intros Hread Hdoom.
  destruct (classify p t) as [|d'| | | |] eqn:Hclass; try done; cbn [at_top].
  - left. apply add_extra_nonempty.
  - assert (doomed p (mark d' r) rest) as Hnext.
    { destruct Hdoom as [Hex|[(u & Hu & Hunknown)|(d & Hd & Hr & Hs & Hnone)]].
      - by left.
      - right. left. exists u. split; [|done].
        apply elem_of_cons in Hu as [->|Hu]; [congruence|done].
      - right. right. exists d. split; [done|]. split; [done|]. split.
        + simpl. apply not_elem_of_cons. split; [|done].
          intros Heq. apply (Hnone t d'); [apply list_elem_of_here|done|done].
        + intros u d'' Hu. apply Hnone. by apply list_elem_of_further. }
    by destruct (opt_kind d').
  - left. apply add_extra_nonempty.
Qed.

Lemma doomed_tail (p : parser) (r r' : progress) (t : string) (rest : list string) :
  seen r' = seen r -> extras r' = extras r ->
  classify p t = Arg ->
  doomed p r (t :: rest) -> doomed p r' rest.
Proof.
  intros Hseen Hextras Harg [Hex|[(u & Hu & Hunknown)|(d & Hd & Hr & Hs & Hnone)]].
  - left. by rewrite Hextras.
  - right. left. exists u. split; [|done].
    apply elem_of_cons in Hu as [->|Hu]; [congruence|done].
  - right. right. exists d. rewrite Hseen. repeat (split; [done|]).
    intros u d' Hu. apply Hnone. by apply list_elem_of_further.
Qed.

Lemma doomed_settled (p : parser) (r r' : progress) (tokens : list string) :
  seen r' = seen r -> extras r' = extras r ->
  doomed p r tokens -> doomed p r' tokens.
Proof.
  intros Hseen Hextras [Hex|[Hunknown|(d & Hd & Hr & Hs & Hnone)]].
  - left. by rewrite Hextras.
  - by right; left.
  - right. right. exists d. by rewrite Hseen.
Qed.

(** A parse that cannot succeed, and meets neither a request for help
    nor a token it cannot read, ends with exit status 2. *)
Lemma consume_doomed (p : parser) (tokens : list string) : forall st r,
  (forall t, t ∈ tokens -> readable p t = true) ->
  doomed p r tokens ->
  consume p st r tokens = Some (Exit 2).
Proof.
  induction tokens as [|t rest IH]; intros st r Hread Hdoom.
  - by apply finish_doomed.
  - cbn [consume].
    assert (readable p t = true) as Ht by (apply Hread, list_elem_of_here).
    assert (forall u, u ∈ rest -> readable p u = true) as Hrest.
    { intros u Hu. by apply Hread, list_elem_of_further. }
    unfold step. destruct st as [|d|d got].
    + pose proof (at_top_doomed p r t rest Ht Hdoom) as Htop.
      destruct (at_top r t (classify p t)) as [st' r'|o]; [by apply IH|done].
    + destruct (classify p t) eqn:Hclass; try done.
      destruct (opt_kind d);
        try (apply IH; [done|]; by apply (doomed_tail p r _ t)).
      destruct (int t); [|done].
      apply IH; [done|]. by apply (doomed_tail p r _ t).
    + destruct (classify p t) eqn:Hclass;
        try (destruct (close d got r) as [r'|] eqn:Hclose; [|done];
             destruct (close_keeps _ _ _ _ Hclose) as [Hseen Hextras];
             pose proof (at_top_doomed p r' t rest Ht
                           (doomed_settled p r r' _ Hseen Hextras Hdoom)) as Htop;
             rewrite Hclass in Htop;
             destruct (at_top r' t _) as [st' r''|o]; [by apply IH|done]).
      apply IH; [done|]. by apply (doomed_tail p r _ t).
Qed.

Lemma readable_not_special (p : parser) (argv : list string) (c : token_class) :
  (forall t, t ∈ argv -> readable p t = true) ->
  (c = Unmodelled \/ c = Ambiguous) ->
  existsb (fun t => is_class c (classify p t)) argv = false.
Proof.
  intros Hread Hc. apply not_true_is_false. intros Hex.
  apply existsb_exists in Hex as (t & Ht%list_elem_of_In & Hclass).
  specialize (Hread t Ht). unfold readable in Hread.
  destruct Hc as [-> | ->]; by destruct (classify p t).
Qed.

Lemma parse_args_doomed (p : parser) (argv : list string) :
  (forall t, t ∈ argv -> readable p t = true) ->
  doomed p (defaults p) argv ->
  parse_args p argv = Some (Exit 2).
Proof.
  intros Hread Hdoom. unfold parse_args.
  rewrite !readable_not_special by auto.
  by apply consume_doomed.
Qed.

End ArgParse.

(** ** The health report: [generate_summary_report] of
    scripts/health_check.py *)

Module HealthReport.

Record status_counts := {
  good : Z;
  warning : Z;
  critical : Z;
  unknown : Z
}.

Record summary := {
  timestamp : string;
  total_devices : Z;
  reachable_devices : Z;
  status_distribution : status_counts;
  critical_devices : list (string * string);
  warning_devices : list (string * string);
  average_cpu_utilization : Q;
  average_memory_usage : Q;
  health_score : Q
}.

(** [sum(1 for h in values if test(h))] *)
Definition count (test : Health.DeviceHealth -> bool)
    (values : list Health.DeviceHealth) : Z :=
  fold_left (fun n h => if test h then n + 1 else n) values 0.

Definition has_status (s : Health.HealthStatus) (h : Health.DeviceHealth) : bool :=
  bool_decide (Health.overall_status h = s).

(** [health.hostname or ip] *)
Definition display_name (ip : string) (h : Health.DeviceHealth) : string :=
  if Py.truthy (Health.hostname h) then Health.hostname h else ip.

(** [[(ip, health.hostname or ip) for ip, health in items if ...]] *)
Definition devices_with (s : Health.HealthStatus)
    (health_data : PyDict.t Health.DeviceHealth) : list (string * string) :=
  (fun '(ip, h) => (ip, display_name ip h))
    <$> List.filter (fun '(ip, h) => has_status s h) health_data.

(** The numeric values of one metric over the devices that have it. *)
Definition numeric_values (metric : Health.DeviceHealth -> option Health.HealthMetric)
    (values : list Health.DeviceHealth) : list Q :=
  omap (fun h =>
          match metric h with
          | Some m =>
              match Health.value m with
              | Health.Number q => Some q
              | Health.Text _ => None
              end
          | None => None
          end) values.

(** [sum(values) / len(values) if values else 0] *)
Definition average (values : list Q) : Q :=
  match values with
  | [] => 0%Q
  | _ :: _ => (fold_left Qplus values 0 / inject_Z (Z.of_nat (length values)))%Q
  end.

Section Report.

(** [round(x, 2)] on floating-point numbers. *)
Variable round2 : Q -> Q.

Definition generate_summary_report (health_data : PyDict.t Health.DeviceHealth)
    (now : string) : summary :=
  let values := PyDict.values health_data in
  let total_devices := Z.of_nat (length health_data) in
  let status_counts :=
    {| good := count (has_status Health.GOOD) values;
       warning := count (has_status Health.WARNING) values;
       critical := count (has_status Health.CRITICAL) values;
       unknown := count (has_status Health.UNKNOWN) values |} in
  {| timestamp := now;
     total_devices := total_devices;
     reachable_devices := count Health.reachable values;
     status_distribution := status_counts;
     critical_devices := devices_with Health.CRITICAL health_data;
     warning_devices := devices_with Health.WARNING health_data;
     average_cpu_utilization :=
       round2 (average (numeric_values Health.cpu_utilization values));
     average_memory_usage :=
       round2 (average (numeric_values Health.memory_usage values));
     health_score :=
       round2 (if 0 <? total_devices
               then (inject_Z (good status_counts) / inject_Z total_devices * 100)%Q
               else 0%Q) |}.

End Report.

(** *** Proofs *)

Lemma count_shift (test : Health.DeviceHealth -> bool) (values : list Health.DeviceHealth) : forall n,
  fold_left (fun n h => if test h then n + 1 else n) values n
  = n + count test values.
Proof.
  unfold count. induction values as [|h values IH]; intros n; cbn [fold_left].
  - lia.
  - rewrite IH, (IH (if test h then 0 + 1 else 0)). destruct (test h); lia.
Qed.

Lemma count_cons (test : Health.DeviceHealth -> bool) h (values : list Health.DeviceHealth) :
  count test (h :: values) = (if test h then 1 else 0) + count test values.
Proof.
  unfold count at 1. cbn [fold_left]. rewrite count_shift.
  by destruct (test h).
Qed.

Lemma count_filter (test : Health.DeviceHealth -> bool) (values : list Health.DeviceHealth) :
  count test values = Z.of_nat (length (List.filter test values)).
Proof.
  induction values as [|h values IH]; [done|].
  rewrite count_cons, IH. cbn [List.filter].
  destruct (test h); cbn [length]; lia.
Qed.

Lemma count_bounds (test : Health.DeviceHealth -> bool) (values : list Health.DeviceHealth) :
  0 <= count test values <= Z.of_nat (length values).
Proof.
  induction values as [|h values IH]; [done|].
  rewrite count_cons. cbn [length]. destruct (test h); lia.
Qed.

Lemma count_positive (test : Health.DeviceHealth -> bool) (values : list Health.DeviceHealth) :
  0 < count test values <-> exists h, h ∈ values /\ test h = true.
Proof.
  induction values as [|h values IH].
  - split; [done|]. by intros (h & Hh%elem_of_nil & _).
  - rewrite count_cons. pose proof (count_bounds test values).
    destruct (test h) eqn:Hh.
    + split; [|lia]. intros _. exists h. split; [apply list_elem_of_here|done].
    + rewrite Z.add_0_l, IH. split.
      * intros (h' & Hin & Ht). exists h'. split; [by apply list_elem_of_further|done].
      * intros (h' & [->|Hin]%elem_of_cons & Ht); [congruence|]. by exists h'.
Qed.

Lemma counts_partition (values : list Health.DeviceHealth) :
  count (has_status Health.GOOD) values
  + count (has_status Health.WARNING) values
  + count (has_status Health.CRITICAL) values
  + count (has_status Health.UNKNOWN) values
  = Z.of_nat (length values).
Proof.
  induction values as [|h values IH]; [done|].
  rewrite !count_cons. cbn [length]. unfold has_status at 1 3 5 7.
  destruct (Health.overall_status h); simpl; lia.
Qed.

Lemma length_devices_with s (health_data : PyDict.t Health.DeviceHealth) :
  Z.of_nat (length (devices_with s health_data))
  = count (has_status s) (PyDict.values health_data).
Proof.
  unfold devices_with. rewrite length_fmap, count_filter. f_equal.
  unfold PyDict.values. induction health_data as [|[ip h] rest IH]; [done|].
  rewrite fmap_cons. cbn [List.filter snd].
  destruct (has_status s h); cbn [length]; by rewrite IH.
Qed.

(** X7. In the summary of a health check the four status counts add up
    to the number of devices, the reachable devices are at most that
    many, and the lists of critical and of warning devices have as many
    entries as the counts say; every entry carries the address it is
    filed under and a name that is the host name, or the address when
    the host name is empty. *)
Theorem health_summary_counts (round2 : Q -> Q)
    (health_data : PyDict.t Health.DeviceHealth) (now : string) :
  let report := generate_summary_report round2 health_data now in
  let counts := status_distribution report in
  good counts + warning counts + critical counts + unknown counts
    = total_devices report /\
  0 <= reachable_devices report <= total_devices report /\
  Z.of_nat (length (critical_devices report)) = critical counts /\
  Z.of_nat (length (warning_devices report)) = warning counts /\
  (forall ip name,
     (ip, name) ∈ critical_devices report ++ warning_devices report ->
     exists h, (ip, h) ∈ health_data /\
               name = (if Py.truthy (Health.hostname h)
                       then Health.hostname h else ip)).
Proof.
  intros report counts. cbn.
  assert (length (PyDict.values health_data) = length health_data) as Hlen.
  { unfold PyDict.values. apply length_fmap. }
  split; [by rewrite counts_partition, Hlen|].
  split; [rewrite <- Hlen; apply count_bounds|].
  split; [apply length_devices_with|]. split; [apply length_devices_with|].
  intros ip name Hin.
  assert (forall s, (ip, name) ∈ devices_with s health_data ->
            exists h, (ip, h) ∈ health_data /\ name = display_name ip h) as Hone.
  { intros s. unfold devices_with. rewrite list_elem_of_fmap.
    intros ([ip' h] & [= -> ->] & Hfound).
    apply list_elem_of_In, List.filter_In in Hfound as [Hfound _].
    exists h. split; [by apply list_elem_of_In|done]. }
  apply elem_of_app in Hin as [Hin|Hin]; by eapply Hone.
Qed.

End HealthReport.

(** ** The entry functions of the tools

    Each tool reads its command line first; what it does afterwards is
    given by the world it runs in. *)

Module Tools.

(** How the guarded part of an entry function ends: it runs to its
    end, an exception is raised in it, or the operator interrupts it. *)
Inductive body_end (A : Type) :=
| Completed (a : A)
| Failed (msg : string)
| Interrupted.

Arguments Completed {A} a.
Arguments Failed {A} msg.
Arguments Interrupted {A}.

(** [args.config] *)
Definition config_of (namespace : PyDict.t ArgParse.value) : string :=
  match PyDict.get "config" namespace with
  | Some (ArgParse.VStr s) => s
  | _ => ""
  end.

Section Mains.

(** The configuration files and their parsers (see [Config]); the text
    of an exception of [load_config]; and what
    [setup_logging(name, config.get('logging', {}))] raises, if
    anything. *)
Context {config : Type}.
Variable yaml_safe_load : string -> result Config.parse_error config.
Variable json_load : string -> result Config.parse_error config.
Variable fs : gmap string Config.entry.
Variable describe : Config.exn -> string.
Variable setup_logging_error : string -> config -> option string.

(** The entry function of the five tools under development:
    port_mapper, vlan_audit, interface_monitor, change_logger and
    stp_analyzer. [None] when the command line is outside what is
    modelled. *)
Definition stub_main (p : ArgParse.parser) (logger_name : string)
    (argv : list string) : option Runner.tool_outcome :=
  match ArgParse.parse_args p (List.tl argv) with
  | None => None
  | Some (ArgParse.Exit code) => Some (Runner.Exits (Runner.IntCode code))
  | Some (ArgParse.Parsed namespace) =>
      match Config.load_config yaml_safe_load json_load (config_of namespace) fs with
      | Err e => Some (Runner.Raises (describe e))
      | Ok cfg =>
          match setup_logging_error logger_name cfg with
          | Some msg => Some (Runner.Raises msg)
          | None => Some (Runner.Exits (Runner.IntCode 0))
          end
      end
  end.

(** What the health check does between reading its command line and
    leaving: [Completed] with the health data when everything up to
    the exit status went through. *)
Variable check_health :
  PyDict.t ArgParse.value -> body_end (PyDict.t Health.DeviceHealth).
Variable round2 : Q -> Q.

Definition health_main (argv : list string) : option Runner.tool_outcome :=
  match ArgParse.parse_args ArgParse.health_check (List.tl argv) with
  | None => None
  | Some (ArgParse.Exit code) => Some (Runner.Exits (Runner.IntCode code))
  | Some (ArgParse.Parsed namespace) =>
      Some
        match check_health namespace with
        | Completed health_data =>
            let summary :=
              HealthReport.generate_summary_report round2 health_data "" in
            let counts := HealthReport.status_distribution summary in
            if 0 <? HealthReport.critical counts
            then Runner.Exits (Runner.IntCode 2)
            else if 0 <? HealthReport.warning counts
            then Runner.Exits (Runner.IntCode 1)
            else Runner.Exits (Runner.IntCode 0)
        | Failed _ => Runner.Exits (Runner.IntCode 1)
        | Interrupted => Runner.Exits (Runner.IntCode 1)
        end
  end.

(** What discovery does between reading its command line and
    returning. *)
Variable discover : PyDict.t ArgParse.value -> body_end unit.

Definition discovery_main (argv : list string) : option Runner.tool_outcome :=
  match ArgParse.parse_args ArgParse.device_discovery (List.tl argv) with
  | None => None
  | Some (ArgParse.Exit code) => Some (Runner.Exits (Runner.IntCode code))
  | Some (ArgParse.Parsed namespace) =>
      Some
        match discover namespace with
        | Completed _ => Runner.Returns
        | Failed _ => Runner.Exits (Runner.IntCode 1)
        | Interrupted => Runner.Exits (Runner.IntCode 1)
        end
  end.

(** The entry function the runner calls for each key. *)
Definition tool_main (script : string) (argv : list string)
  : option Runner.tool_outcome :=
  if String.eqb script "discovery" then discovery_main argv
  else if String.eqb script "health" then health_main argv
  else if String.eqb script "port"
  then stub_main ArgParse.port_mapper "port_mapper" argv
  else if String.eqb script "vlan"
  then stub_main ArgParse.vlan_audit "vlan_audit" argv
  else if String.eqb script "interface"
  then stub_main ArgParse.interface_monitor "interface_monitor" argv
  else if String.eqb script "change"
  then stub_main ArgParse.change_logger "change_logger" argv
  else if String.eqb script "stp"
  then stub_main ArgParse.stp_analyzer "stp_analyzer" argv
  else None.


End Mains.

(** *** The command line the runner hands to a tool *)


(** The option names the runner can put on a command line. *)
Definition runner_options : list string :=
  ["--output-formats"; "--max-workers"; "--timeout"; "--site"; "--vendor";
   "--role"; "--send-alerts"; "--continuous"; "--interval"; "--verbose";
   "--config"].

Definition plain_option (value : option string) : bool :=
  match value with
  | Some v => ArgParse.plain v
  | None => true
  end.

(** What the runner's own parser lets through for the values it hands
    on, short of text that begins with a dash: the formats are among
    the choices; the configuration path and the three filters are
    ASCII text. *)
Definition plain_arguments (args : Runner.arguments) : bool :=
  (forallb (fun f => bool_decide (f ∈ ArgParse.formats))
           (Runner.arg_output_formats args)
   && ArgParse.plain (Runner.arg_config args)
   && plain_option (Runner.arg_site args)
   && plain_option (Runner.arg_vendor args)
   && plain_option (Runner.arg_role args))%bool.

(** No option of the parser looks like a negative number. *)
Definition no_numeric_option (p : ArgParse.parser) : bool :=
  forallb (fun entry =>
             match entry.1 with
             | String "-" (String c _) =>
                 match Py.digit c with Some _ => false | None => true end
             | _ => true
             end) (ArgParse.option_strings p).

(** The tools run by the world are the tools of the repository. *)
Definition installed {config : Type}
    (yaml_safe_load json_load : string -> result Config.parse_error config)
    (fs : gmap string Config.entry) (describe : Config.exn -> string)
    (setup_logging_error : string -> config -> option string)
    (check_health : PyDict.t ArgParse.value
                    -> body_end (PyDict.t Health.DeviceHealth))
    (round2 : Q -> Q)
    (discover : PyDict.t ArgParse.value -> body_end unit)
    (w : Runner.world) : Prop :=
  forall script ran argv o,
    tool_main yaml_safe_load json_load fs describe setup_logging_error
              check_health round2 discover script argv = Some o ->
    Runner.outcome (Runner.tool_main w script ran argv) = o.

(** The tool the world runs under one key is the tool of the
    repository; the other tools are left open. *)
Definition installs {config : Type}
    (yaml_safe_load json_load : string -> result Config.parse_error config)
    (fs : gmap string Config.entry) (describe : Config.exn -> string)
    (setup_logging_error : string -> config -> option string)
    (check_health : PyDict.t ArgParse.value
                    -> body_end (PyDict.t Health.DeviceHealth))
    (round2 : Q -> Q)
    (discover : PyDict.t ArgParse.value -> body_end unit)
    (script : string) (w : Runner.world) : Prop :=
  forall ran argv o,
    tool_main yaml_safe_load json_load fs describe setup_logging_error
              check_health round2 discover script argv = Some o ->
    Runner.outcome (Runner.tool_main w script ran argv) = o.

(** *** Proofs *)

Lemma elem_of_when (b : bool) (l : list string) (t : string) :
  t ∈ Runner.when b l -> b = true /\ t ∈ l.
Proof. destruct b; [done|]. by intros ?%elem_of_nil. Qed.

Lemma elem_of_option_args (name : string) (value : option string) (t : string) :
  t ∈ Runner.option_args name value -> t = name \/ value = Some t.
Proof.
  destruct value as [v|]; simpl; [|by intros ?%elem_of_nil].
  intros [_ Hin]%elem_of_when.
  apply elem_of_cons in Hin as [->|Hin]; [by left|].
  apply list_elem_of_singleton in Hin as ->. by right.
Qed.

Lemma find_nothing {A : Type} (f : A -> bool) (l : list A) :
  forallb (fun x => negb (f x)) l = true -> List.find f l = None.
Proof.
  induction l as [|x l IH]; [done|]. cbn [forallb List.find].
  intros [Hx Hl]%andb_true_iff. destruct (f x); [done|by apply IH].
Qed.

Lemma pretty_negative (q : positive) :
  pretty (Z.neg q) = String "-" (pretty (Z.pos q)).
Proof. reflexivity. Qed.

Lemma classify_number (p : ArgParse.parser) (n : Z) :
  no_numeric_option p = true -> ArgParse.classify p (pretty n) = ArgParse.Arg.
Proof.
  intros Hp. destruct (Z.neg_nonneg_cases n) as [Hneg|Hpos];
    [|by apply ArgParse.classify_plain, ArgParse.pretty_plain].
  destruct n as [|q|q]; [lia|lia|]. rewrite pretty_negative.
  pose proof (ArgParse.digits_pretty (Z.pos q) ltac:(lia)) as Hdigits.
  pose proof (ArgParse.digits_plain _ _ Hdigits) as Hplain.
  unfold ArgParse.plain in Hplain.
  apply andb_true_iff in Hplain as [Hascii Hdash].
  destruct (pretty (Z.pos q)) as [|c rest] eqn:Htext; [done|].
  assert (exists d, Py.digit c = Some d) as [d Hc].
  { unfold Py.digits in Hdigits. cbn [Py.digits_from] in Hdigits.
    destruct (Py.digit c) as [d|]; [by exists d|done]. }
  unfold ArgParse.classify.
  assert (ArgParse.is_ascii_text (String "-" (String c rest)) = true) as ->.
  { unfold ArgParse.is_ascii_text in *.
    by cbn [String.list_ascii_of_string forallb] in *. }
  rewrite ArgParse.prefix_dash, Ascii.eqb_refl. cbn [negb].
  assert (List.find (fun entry => String.eqb entry.1 (String "-" (String c rest)))
            (ArgParse.option_strings p) = None) as ->.
  { apply find_nothing, forallb_forall. intros entry Hentry.
    unfold no_numeric_option in Hp.
    rewrite forallb_forall in Hp. specialize (Hp entry Hentry).
    destruct (String.eqb_spec entry.1 (String "-" (String c rest))) as [Heq|]; [|done].
    rewrite Heq in Hp. by rewrite Hc in Hp. }
  assert (String.eqb (String "-" (String c rest)) "-" = false) as ->.
  { by apply String.eqb_neq. }
  assert (String.prefix "--" (String "-" (String c rest)) = false) as ->.
  { change (String.prefix "--" (String "-" (String c rest)))
      with (if Ascii.ascii_dec "-" "-"
            then String.prefix "-" (String c rest) else false).
    destruct (Ascii.ascii_dec "-" "-"); [|done].
    rewrite ArgParse.prefix_dash.
    by destruct (ArgParse.digit_plain c d Hc). }
  cbn [ArgParse.tail]. by rewrite Hdigits.
Qed.

(** Every token the runner hands to a tool is one of its option names
    or is read as an argument. *)
Lemma forwarded_tokens (p : ArgParse.parser) (args : Runner.arguments) (t : string) :
  no_numeric_option p = true ->
  plain_arguments args = true ->
  t ∈ List.tl (Runner.tool_args args) ->
  t ∈ runner_options \/ ArgParse.classify p t = ArgParse.Arg.
Proof.
  intros Hp Hargs. unfold plain_arguments in Hargs.
  repeat (apply andb_true_iff in Hargs as [Hargs ?]).
  rewrite forallb_forall in Hargs.
  assert (Hoption : forall name value,
            name ∈ runner_options -> plain_option value = true ->
            t ∈ Runner.option_args name value ->
            t ∈ runner_options \/ ArgParse.classify p t = ArgParse.Arg).
  { intros name value Hname Hvalue [->| ->]%elem_of_option_args; [by left|].
    right. by apply ArgParse.classify_plain. }
  assert (Hname : forall name, bool_decide (name ∈ runner_options) = true ->
            name ∈ runner_options) by (intros name; apply bool_decide_eq_true_1).
  unfold Runner.tool_args, Runner.common_args. cbn [List.tl].
  rewrite !elem_of_app.
  intros [[Hin|[Hin|[Hin|[Hin|[Hin|[Hin|[Hin|[Hin|Hin]]]]]]]]|Hin].
  - apply elem_of_when in Hin as [_ Hin].
    apply elem_of_cons in Hin as [->|Hin]; [left; by apply Hname|].
    right. apply ArgParse.classify_plain.
    apply list_elem_of_In, Hargs, bool_decide_eq_true in Hin.
    revert Hin. unfold ArgParse.formats. rewrite !elem_of_cons.
    intros [->|[->|[->|[->|[->|Hin]]]]]; try reflexivity.
    by apply elem_of_nil in Hin.
  - apply elem_of_when in Hin as [_ Hin].
    apply elem_of_cons in Hin as [->|Hin]; [left; by apply Hname|].
    apply list_elem_of_singleton in Hin as ->. right. by apply classify_number.
  - apply elem_of_when in Hin as [_ Hin].
    apply elem_of_cons in Hin as [->|Hin]; [left; by apply Hname|].
    apply list_elem_of_singleton in Hin as ->. right. by apply classify_number.
  - apply (Hoption "--site" (Runner.arg_site args)); [by apply Hname|done|done].
  - apply (Hoption "--vendor" (Runner.arg_vendor args)); [by apply Hname|done|done].
  - apply (Hoption "--role" (Runner.arg_role args)); [by apply Hname|done|done].
  - apply elem_of_when in Hin as [_ Hin].
    apply list_elem_of_singleton in Hin as ->. left. by apply Hname.
  - apply elem_of_when in Hin as [_ Hin].
    apply elem_of_cons in Hin as [->|Hin]; [left; by apply Hname|].
    apply elem_of_cons in Hin as [->|Hin]; [left; by apply Hname|].
    apply list_elem_of_singleton in Hin as ->. right. by apply classify_number.
  - apply elem_of_when in Hin as [_ Hin].
    apply list_elem_of_singleton in Hin as ->. left. by apply Hname.
  - apply elem_of_cons in Hin as [->|Hin]; [left; by apply Hname|].
    apply list_elem_of_singleton in Hin as ->. right.
    by apply ArgParse.classify_plain.
Qed.

(** What the parsers of the suite have in common: they read every
    option name of the runner, and none has an option that looks like
    a number. *)
Definition fits_runner (p : ArgParse.parser) : bool :=
  (no_numeric_option p && forallb (ArgParse.readable p) runner_options)%bool.


Lemma forwarded_readable (p : ArgParse.parser) (args : Runner.arguments) (t : string) :
  fits_runner p = true ->
  plain_arguments args = true ->
  t ∈ List.tl (Runner.tool_args args) -> ArgParse.readable p t = true.
Proof.
  intros [Hnum Hread]%andb_true_iff Hargs Hin.
  destruct (forwarded_tokens p args t Hnum Hargs Hin) as [Hname|Harg].
  - rewrite forallb_forall in Hread. by apply Hread, list_elem_of_In.
  - unfold ArgParse.readable. by rewrite Harg.
Qed.







(** The parser of discovery turns down every command line of the
    runner: [--ranges] is required, and the runner never gives it. *)
Lemma discovery_parser_rejects (args : Runner.arguments) :
  plain_arguments args = true ->
  ArgParse.parse_args ArgParse.device_discovery (List.tl (Runner.tool_args args))
  = Some (ArgParse.Exit 2).
Proof.
  intros Hargs.
  assert (fits_runner ArgParse.device_discovery = true) as Hfit by by vm_compute.
  apply ArgParse.parse_args_doomed.
  - intros t Ht. by apply (forwarded_readable _ args).
  - right. right. exists ArgParse.ranges_option.
    split; [apply list_elem_of_here|]. split; [done|].
    split; [apply not_elem_of_nil|].
    intros t d' Ht Hclass Hlong.
    apply andb_true_iff in Hfit as [Hnum _].
    destruct (forwarded_tokens _ args t Hnum Hargs Ht) as [Hname|Harg];
      [|congruence].
    revert Hname Hclass. unfold runner_options. rewrite !elem_of_cons.
    intros [->|[->|[->|[->|[->|[->|[->|[->|[->|[->|[->|Hin]]]]]]]]]]];
      [..|by apply elem_of_nil in Hin];
      intros Hclass; vm_compute in Hclass;
      first [discriminate Hclass
            |injection Hclass as <-; vm_compute in Hlong; discriminate Hlong].
Qed.

(** An interrupt in a tool ends the loop of the suite. *)
Lemma run_scripts_interrupted (w : Runner.world) (config_file : string)
    (cargs scripts : list string) : forall ran results,
  (forall s, s ∈ scripts -> s ∈ Runner.script_names) ->
  Runner.Interrupts ∈
    imap (fun i script =>
            Runner.outcome
              (Runner.tool_main w script (ran + i)
                 ("script" :: cargs ++ ["--config"; config_file])))
         scripts ->
  Runner.run_scripts w config_file cargs scripts ran results = None.
Proof.
  induction scripts as [|script rest IH]; intros ran results Hnames Hint.
  - by apply elem_of_nil in Hint.
  - simpl Runner.run_scripts.
    rewrite bool_decide_eq_true_2 by apply Hnames, list_elem_of_here.
    rewrite imap_cons, Nat.add_0_r in Hint.
    pose proof (Runner.run_script_classify script (Runner.tool_main w script ran)
                  (cargs ++ ["--config"; config_file])) as Hrun.
    destruct (Runner.run_script script (Runner.tool_main w script ran)
                (cargs ++ ["--config"; config_file])) as [r|]; [|done].
    destruct Hrun as (Hhead & _ & _).
    apply elem_of_cons in Hint as [Heq|Hint]; [by rewrite <- Heq in Hhead|].
    apply IH.
    + intros s Hs. by apply Hnames, list_elem_of_further.
    + erewrite imap_ext; [exact Hint|]. intros i x _. unfold compose.
      by rewrite Nat.add_succ_comm.
Qed.

(** A KeyboardInterrupt that leaves a tool ends the suite with
    status 1. *)
Lemma suite_interrupted (args : Runner.arguments) (w : Runner.world) :
  Runner.Interrupts ∈ Runner.selected_outcomes args w ->
  Runner.main args w = 1.
Proof.
  intros Hint. unfold Runner.main.
  destruct (Runner.scripts_to_run args) as [|s0 rest] eqn:Hscripts; [done|].
  destruct (Runner.suite_init_error w); [done|].
  rewrite <- Hscripts. unfold Runner.run_monitoring_suite.
  rewrite run_scripts_interrupted; [done| |exact Hint].
  intros s. apply Runner.scripts_to_run_names.
Qed.

(** A suite that cannot be built ends with status 1. *)
Lemma suite_not_built (args : Runner.arguments) (w : Runner.world) (msg : string) :
  Runner.suite_init_error w = Some msg -> Runner.main args w = 1.
Proof.
  intros Hinit. unfold Runner.main. rewrite Hinit.
  by destruct (Runner.scripts_to_run args).
Qed.

Ltac decide_names :=
  repeat match goal with
         | |- context [String.eqb ?a ?b] =>
             let v := eval vm_compute in (String.eqb a b) in
             change (String.eqb a b) with v
         end;
  cbv iota.

Section Suite.

Context {config : Type}.
Variable yaml_safe_load : string -> result Config.parse_error config.
Variable json_load : string -> result Config.parse_error config.
Variable fs : gmap string Config.entry.
Variable describe : Config.exn -> string.
Variable setup_logging_error : string -> config -> option string.
Variable check_health :
  PyDict.t ArgParse.value -> body_end (PyDict.t Health.DeviceHealth).
Variable round2 : Q -> Q.
Variable discover : PyDict.t ArgParse.value -> body_end unit.

Local Abbreviation run_tool :=
  (tool_main yaml_safe_load json_load fs describe setup_logging_error
             check_health round2 discover).

(** A tool whose parser turns the command line down leaves with the
    status the parser gives. *)
Lemma tool_main_exit (script : string) (argv : list string) (code : Z) :
  script ∈ Runner.script_names ->
  ArgParse.parse_args (ArgParse.parser_of script) (List.tl argv)
  = Some (ArgParse.Exit code) ->
  run_tool script argv = Some (Runner.Exits (Runner.IntCode code)).
Proof.
  unfold Runner.script_names. rewrite !elem_of_cons.
  intros [->|[->|[->|[->|[->|[->|[->|Hin]]]]]]];
    [..|by apply elem_of_nil in Hin];
    unfold tool_main, ArgParse.parser_of; decide_names;
    unfold discovery_main, health_main, stub_main; by intros ->.
Qed.

(** The suite leaves with status 2 as soon as one selected tool leaves
    with status 2 and no tool is interrupted. *)
Lemma suite_exit_2 (args : Runner.arguments) (w : Runner.world) (script : string) :
  script ∈ Runner.scripts_to_run args ->
  (forall ran, Runner.outcome (Runner.tool_main w script ran (Runner.tool_args args))
               = Runner.Exits (Runner.IntCode 2)) ->
  Runner.suite_init_error w = None ->
  Runner.Interrupts ∉ Runner.selected_outcomes args w ->
  Runner.main args w = 2.
Proof.
  intros Hin Hexit Hinit Hint.
  rewrite Runner.main_exit_code; [|by intros Hnil; rewrite Hnil in Hin;
                                     apply elem_of_nil in Hin|done|done].
  unfold Runner.exit_code_of. rewrite bool_decide_eq_true_2; [done|].
  apply list_elem_of_lookup in Hin as [i Hi].
  apply list_elem_of_fmap. exists (Runner.Exits (Runner.IntCode 2)).
  split; [done|]. apply list_elem_of_lookup. exists i.
  unfold Runner.selected_outcomes. rewrite list_lookup_imap, Hi. simpl.
  by rewrite Hexit.
Qed.


(** X4. Run by the suite, device discovery always leaves with status 2
    without scanning anything: its parser requires [--ranges], which
    the runner never hands on. A run of the suite that selects
    discovery (every run with [--all]) therefore never leaves with
    status 0: it leaves with status 2, except that it leaves with
    status 1 when the suite object cannot be built or when a
    KeyboardInterrupt leaves one of the tools. *)
Theorem discovery_rejects_runner_command_line
    (args : Runner.arguments) (w : Runner.world) :
  plain_arguments args = true ->
  run_tool "discovery" (Runner.tool_args args)
  = Some (Runner.Exits (Runner.IntCode 2)) /\
  (installs yaml_safe_load json_load fs describe setup_logging_error
            check_health round2 discover "discovery" w ->
   "discovery" ∈ Runner.scripts_to_run args ->
   Runner.main args w =
     match Runner.suite_init_error w with
     | Some _ => 1
     | None =>
         if bool_decide (Runner.Interrupts ∈ Runner.selected_outcomes args w)
         then 1 else 2
     end).
Proof.
  intros Hargs.
  assert (run_tool "discovery" (Runner.tool_args args)
          = Some (Runner.Exits (Runner.IntCode 2))) as Htool.
  { apply tool_main_exit; [by apply (bool_decide_unpack _)|].
    by apply discovery_parser_rejects. }
  split; [done|]. intros Hw Hsel.
  destruct (Runner.suite_init_error w) as [msg|] eqn:Hinit;
    [by apply (suite_not_built args w msg)|].
  case_bool_decide as Hint; [by apply suite_interrupted|].
  apply (suite_exit_2 args w "discovery"); try done.
  intros ran. by apply Hw.
Qed.

Lemma count_status_elem (s : Health.HealthStatus)
    (values : list Health.DeviceHealth) :
  (0 <? HealthReport.count (HealthReport.has_status s) values)
  = bool_decide (s ∈ Health.overall_status <$> values).
Proof.
  destruct (decide (s ∈ Health.overall_status <$> values)) as [Hin|Hout].
  - rewrite (bool_decide_eq_true_2 _ Hin). apply Z.ltb_lt.
    apply HealthReport.count_positive.
    apply list_elem_of_fmap in Hin as (h & -> & Hh). exists h.
    split; [done|]. by apply bool_decide_eq_true_2.
  - rewrite (bool_decide_eq_false_2 _ Hout). apply Z.ltb_ge.
    destruct (Z.lt_ge_cases 0 (HealthReport.count (HealthReport.has_status s) values))
      as [Hpos|Hle]; [|lia].
    apply HealthReport.count_positive in Hpos as (h & Hh & Hs).
    apply bool_decide_eq_true in Hs. destruct Hout.
    apply list_elem_of_fmap. by exists h.
Qed.

(** X5. What the runner records for the health check, once its
    command line is accepted: error when some device is critical;
    else warning when some device is at warning; else success. When
    the check itself fails with an exception, or is interrupted, the
    tool leaves with status 1, so the runner records warning, as for a
    device at warning. *)
Theorem health_check_recorded_status
    (argv : list string) (namespace : PyDict.t ArgParse.value) :
  ArgParse.parse_args ArgParse.health_check (List.tl argv)
  = Some (ArgParse.Parsed namespace) ->
  exists o,
    run_tool "health" argv = Some o /\
    Runner.classify o =
      match check_health namespace with
      | Completed health_data =>
          let statuses := Health.overall_status <$> PyDict.values health_data in
          if bool_decide (Health.CRITICAL ∈ statuses) then Runner.error
          else if bool_decide (Health.WARNING ∈ statuses) then Runner.warning
          else Runner.success
      | Failed _ | Interrupted => Runner.warning
      end.
Proof.
  intros Hparse. unfold tool_main. decide_names. unfold health_main.
  rewrite Hparse. eexists. split; [reflexivity|].
  destruct (check_health namespace) as [health_data| |]; [|done|done].
  cbn [HealthReport.generate_summary_report HealthReport.status_distribution
       HealthReport.critical HealthReport.warning].
  rewrite !count_status_elem. cbv zeta.
  destruct (bool_decide (Health.CRITICAL ∈ _)); [done|].
  by destruct (bool_decide (Health.WARNING ∈ _)).
Qed.


End Suite.

(** *** A run of the suite

    A world in which every configuration file is missing, the health
    check finds no device and discovery finds nothing. *)
Definition no_health_data (namespace : PyDict.t ArgParse.value)
  : body_end (PyDict.t Health.DeviceHealth) := Completed [].

Definition no_discovery (namespace : PyDict.t ArgParse.value) : body_end unit :=
  Completed tt.

Definition office_tool (script : string) (argv : list string)
  : option Runner.tool_outcome :=
  tool_main (fun _ : string => Ok tt) (fun _ : string => Ok tt) ∅
            (fun _ => "configuration error") (fun _ _ => None)
            no_health_data (fun q => q) no_discovery script argv.

Definition office : Runner.world :=
  {| Runner.suite_init_error := None;
     Runner.tool_main := fun script ran argv =>
       {| Runner.outcome := default (Runner.Raises "") (office_tool script argv);
          Runner.elapsed := 1 |} |}.

Lemma office_installed :
  installed (fun _ : string => Ok tt) (fun _ : string => Ok tt) ∅
            (fun _ => "configuration error") (fun _ _ => None)
            no_health_data (fun q => q) no_discovery office.
Proof.
  intros script ran argv o Ho. simpl. unfold office_tool. by rewrite Ho.
Qed.



(** Discovery selected alone: with the suite built, and with no
    directory for the log file of the suite. *)
Definition office_without_logs : Runner.world :=
  {| Runner.suite_init_error := Some "No such file or directory";
     Runner.tool_main := Runner.tool_main office |}.

Lemma discovery_rejects_runner_command_line_witness :
  office_tool "discovery" (Runner.tool_args (Runner.select true false false))
  = Some (Runner.Exits (Runner.IntCode 2)) /\
  Runner.main (Runner.select true false false) office = 2 /\
  Runner.main (Runner.select true false false) office_without_logs = 1.
Proof.
  split; [|split].
  - apply (discovery_rejects_runner_command_line
             (fun _ : string => Ok tt) (fun _ : string => Ok tt) ∅
             (fun _ => "configuration error") (fun _ _ => None)
             no_health_data (fun q => q) no_discovery
             (Runner.select true false false) office).
    reflexivity.
  - rewrite (proj2 (discovery_rejects_runner_command_line
                      (fun _ : string => Ok tt) (fun _ : string => Ok tt) ∅
                      (fun _ => "configuration error") (fun _ _ => None)
                      no_health_data (fun q => q) no_discovery
                      (Runner.select true false false) office eq_refl)).
    + reflexivity.
    + intros ran argv o. apply office_installed.
    + by apply (bool_decide_unpack _).
  - rewrite (proj2 (discovery_rejects_runner_command_line
                      (fun _ : string => Ok tt) (fun _ : string => Ok tt) ∅
                      (fun _ => "configuration error") (fun _ _ => None)
                      no_health_data (fun q => q) no_discovery
                      (Runner.select true false false) office_without_logs
                      eq_refl)).
    + reflexivity.
    + intros ran argv o. apply office_installed.
    + by apply (bool_decide_unpack _).
Defined.

(** The health check as the runner calls it, on a network where one
    device is critical. *)
Definition core_down : Health.DeviceHealth :=
  {| Health.device_ip := "10.0.0.1"; Health.hostname := "core-1";
     Health.vendor := "cisco"; Health.model := "";
     Health.reachable := true;
     Health.cpu_utilization := None; Health.memory_usage := None;
     Health.flash_usage := None; Health.temperature_sensors := [];
     Health.power_supplies := []; Health.fans := [];
     Health.interface_errors := []; Health.interface_utilization := [];
     Health.uptime := None; Health.overall_status := Health.CRITICAL;
     Health.errors := []; Health.last_check := "";
     Health.check_duration := 0 |}.

Definition core_is_down (namespace : PyDict.t ArgParse.value)
  : body_end (PyDict.t Health.DeviceHealth) :=
  Completed [("10.0.0.1", core_down)].

Lemma health_check_recorded_status_witness :
  exists o,
    tool_main (fun _ : string => Ok tt) (fun _ : string => Ok tt) ∅
              (fun _ => "configuration error") (fun _ _ => None)
              core_is_down (fun q => q) no_discovery "health"
              (Runner.tool_args (Runner.select false true false)) = Some o /\
    Runner.classify o = Runner.error.
Proof.
  edestruct (health_check_recorded_status
               (fun _ : string => Ok tt) (fun _ : string => Ok tt) ∅
               (fun _ => "configuration error") (fun _ _ => None)
               core_is_down (fun q => q) no_discovery
               (Runner.tool_args (Runner.select false true false)))
    as (o & Ho & Hstatus).
  - vm_compute. reflexivity.
  - exists o. split; [exact Ho|exact Hstatus].
Defined.




End Tools.
